(** * Multi-model pipeline of Agent Zero: routing, fallback and health

    A shallow embedding of [src/intelligence/model_pipeline.py]: the
    provider classes ([ModelProvider] and its four subclasses), and the
    [MultiModelPipeline] that routes a request through them.

    Python objects are records, [async] methods are state transformers
    over the object and the outside world (network and clock), and a
    raised exception is an explicit outcome.  Logging has no effect on
    any result and is left out. *)

From Stdlib Require Import List String Ascii Bool ZArith Lia Floats DecimalString.
Import ListNotations.

Set Warnings "-register-all,-inexact-float".

Local Open Scope string_scope.
Local Open Scope list_scope.
Local Open Scope Z_scope.

(** ** Python values *)

(** The values that configuration records, keyword options and decoded
    JSON bodies are made of. *)
Inductive PyVal : Type :=
| PNone
| PBool (b : bool)
| PInt (z : Z)
| PFloat (f : float)
| PStr (s : string)
| PList (l : list PyVal)
| PDict (d : list (string * PyVal)).

(** An instance of [Exception]: its class name and [str(e)]. *)
Record Exc : Type := mkExc { exc_class : string; exc_msg : string }.

Definition str_exc (e : Exc) : string := exc_msg e.

(** What evaluating an expression or awaiting a call ends in. *)
Inductive outcome (A : Type) : Type :=
| Returns (a : A)
| Raises (e : Exc).
Arguments Returns {A} a.
Arguments Raises {A} e.

Definition returned {A} (o : outcome A) : bool :=
  match o with Returns _ => true | Raises _ => false end.

Definition KeyError (k : string) : Exc := mkExc "KeyError" ("'" ++ k ++ "'").
Definition TypeError (m : string) : Exc := mkExc "TypeError" m.
Definition IndexError (m : string) : Exc := mkExc "IndexError" m.
Definition AttributeError (m : string) : Exc := mkExc "AttributeError" m.
Definition RuntimeError (m : string) : Exc := mkExc "RuntimeError" m.
Definition NotImplementedError : Exc := mkExc "NotImplementedError" "".

(** A Python [dict] with string keys, in insertion order. *)
Fixpoint dict_get {V} (d : list (string * V)) (k : string) : option V :=
  match d with
  | [] => None
  | (k', v) :: d' => if String.eqb k' k then Some v else dict_get d' k
  end.

(** [d[k] = v]: overwrite in place, or append a new key. *)
Fixpoint dict_set {V} (d : list (string * V)) (k : string) (v : V)
  : list (string * V) :=
  match d with
  | [] => [(k, v)]
  | (k', v') :: d' =>
      if String.eqb k' k then (k', v) :: d' else (k', v') :: dict_set d' k v
  end.

Definition dict_mem {V} (d : list (string * V)) (k : string) : bool :=
  match dict_get d k with Some _ => true | None => false end.

Definition type_name (v : PyVal) : string :=
  match v with
  | PNone => "NoneType" | PBool _ => "bool" | PInt _ => "int"
  | PFloat _ => "float" | PStr _ => "str" | PList _ => "list"
  | PDict _ => "dict"
  end.

(** [v[k]] for a string key [k]. *)
Definition py_getitem (v : PyVal) (k : string) : outcome PyVal :=
  match v with
  | PDict d =>
      match dict_get d k with
      | Some x => Returns x
      | None => Raises (KeyError k)
      end
  | PList _ => Raises (TypeError "list indices must be integers or slices, not str")
  | PStr _ => Raises (TypeError "string indices must be integers, not 'str'")
  | _ => Raises (TypeError ("'" ++ type_name v ++ "' object is not subscriptable"))
  end.

(** [v[0]]. *)
Definition py_getitem0 (v : PyVal) : outcome PyVal :=
  match v with
  | PList (x :: _) => Returns x
  | PList [] => Raises (IndexError "list index out of range")
  | PStr (String c _) => Returns (PStr (String c EmptyString))
  | PStr EmptyString => Raises (IndexError "string index out of range")
  | PDict _ => Raises (mkExc "KeyError" "0")
  | _ => Raises (TypeError ("'" ++ type_name v ++ "' object is not subscriptable"))
  end.

(** Looking up the method [v.get]. *)
Definition py_get_attr (v : PyVal) : outcome unit :=
  match v with
  | PDict _ => Returns tt
  | _ => Raises (AttributeError ("'" ++ type_name v ++ "' object has no attribute 'get'"))
  end.

(** [v.get(k, default)]. *)
Definition py_get (v : PyVal) (k : string) (default : PyVal) : outcome PyVal :=
  match v with
  | PDict d =>
      match dict_get d k with
      | Some x => Returns x
      | None => Returns default
      end
  | _ => Raises (AttributeError ("'" ++ type_name v ++ "' object has no attribute 'get'"))
  end.

(** Truth value of [v], as [if v:] and [not v] test it. *)
Definition truthy (v : PyVal) : bool :=
  match v with
  | PNone => false
  | PBool b => b
  | PInt z => negb (z =? 0)
  | PFloat f => negb (PrimFloat.eqb f 0%float)
  | PStr s => negb (String.eqb s "")
  | PList l => match l with [] => false | _ => true end
  | PDict d => match d with [] => false | _ => true end
  end.

(** [k in v] for a string [k]. *)
Definition py_contains (v : PyVal) (k : string) : outcome bool :=
  match v with
  | PDict d => Returns (dict_mem d k)
  | PList l =>
      Returns (existsb (fun x => match x with PStr s => String.eqb s k | _ => false end) l)
  | PStr s => Returns (match String.index 0 k s with Some _ => true | None => false end)
  | _ => Raises (TypeError ("argument of type '" ++ type_name v ++ "' is not iterable"))
  end.

(** [len(s.split())].  A character of a [string] stands for a code
    point below 256; among these [str.split()] takes as white space
    the tabulation and line characters 9 to 13, the separators 28 to
    31, the space, NEL (133) and the no-break space (160). *)
Definition is_space (c : ascii) : bool :=
  let n := nat_of_ascii c in
  (Nat.eqb n 32 || (Nat.leb 9 n && Nat.leb n 13) || (Nat.leb 28 n && Nat.leb n 31)
   || Nat.eqb n 133 || Nat.eqb n 160)%bool.

Fixpoint count_words (in_word : bool) (s : string) : Z :=
  match s with
  | EmptyString => 0
  | String c s' =>
      if is_space c then count_words false s'
      else (if in_word then 0 else 1) + count_words true s'
  end.

Definition py_len_split (v : PyVal) : outcome PyVal :=
  match v with
  | PStr s => Returns (PInt (count_words false s))
  | _ => Raises (AttributeError ("'" ++ type_name v ++ "' object has no attribute 'split'"))
  end.

(** The line feed of the source's string literals. *)
Definition nl : string := String (ascii_of_nat 10) EmptyString.

(** [str(n)] for an [int]. *)
Definition str_int (z : Z) : string := NilZero.string_of_int (Z.to_int z).

(** ** Task types and the response record *)

Inductive TaskType : Type :=
| CODE_ANALYSIS
| CODE_GENERATION
| PROBLEM_SOLVING
| SYSTEM_ADMIN
| WEB_AUTOMATION
| GENERAL
| FAST_QUERY.

Definition TaskType_eqb (a b : TaskType) : bool :=
  match a, b with
  | CODE_ANALYSIS, CODE_ANALYSIS | CODE_GENERATION, CODE_GENERATION
  | PROBLEM_SOLVING, PROBLEM_SOLVING | SYSTEM_ADMIN, SYSTEM_ADMIN
  | WEB_AUTOMATION, WEB_AUTOMATION | GENERAL, GENERAL
  | FAST_QUERY, FAST_QUERY => true
  | _, _ => false
  end.

(** The [ModelResponse] dataclass.  [execution_time] is a float (the
    literal [0] of the failure paths is the float zero); [content],
    [model_used] and [tokens_used] hold whatever the configuration or
    the decoded body holds at that place; [error] defaults to [None]. *)
Record ModelResponse : Type := mkModelResponse {
  content : PyVal;
  model_used : PyVal;
  provider : string;
  execution_time : float;
  tokens_used : PyVal;
  confidence : float;
  success : bool;
  error : option string
}.

(** ** The outside world: HTTP transport and clock *)

(** An f-string: its literal and interpolated parts, in order. *)
Definition FString : Type := list PyVal.

(** The arguments of one [session.post(url, headers=, json=)]. *)
Record Request : Type := mkRequest {
  url : FString;
  headers : list (string * FString);
  json : PyVal
}.

(** What the [async with session.post(...) as response] block sees. *)
Record ClientResponse : Type := mkClientResponse {
  status : Z;
  json_body : outcome PyVal;    (* await response.json() *)
  text_body : outcome string    (* await response.text() *)
}.

(** The world answers each request, possibly by raising (time out,
    connection refused), as a function of the requests sent before; it
    also gives the successive readings of [time.time()]. *)
Record World : Type := mkWorld {
  backend : list Request -> Request -> outcome ClientResponse;
  wall_clock : nat -> float;
  sent : list Request;          (* requests sent so far, latest first *)
  ticks : nat                   (* clock readings taken so far *)
}.

(** An [aiohttp.ClientSession], as far as the source uses it: it is
    created open, [post] on a closed session raises, and [close()]
    releases the connector only if the session is not closed yet. *)
Record ClientSession : Type := mkClientSession {
  timeout_total : PyVal;
  closed : bool;
  connector_releases : nat
}.

Definition new_ClientSession (timeout : PyVal) : ClientSession :=
  mkClientSession timeout false 0.

Definition ClientSession_close (s : ClientSession) : ClientSession :=
  if closed s then s
  else mkClientSession (timeout_total s) true (S (connector_releases s)).

(** ** Provider objects *)

(** The attributes [ModelProvider.__init__] sets. *)
Record ModelProvider : Type := mkModelProvider {
  name : string;
  config : PyVal;
  session : option ClientSession;
  available : bool
}.

Definition ModelProvider_init (name : string) (config : PyVal) : ModelProvider :=
  mkModelProvider name config None false.

(** A method body: it runs on [self] and the world, may update both,
    and returns or raises.  What it wrote before raising stays. *)
Definition Meth (A : Type) : Type :=
  ModelProvider -> World -> outcome A * ModelProvider * World.

Definition ret {A} (a : A) : Meth A := fun self w => (Returns a, self, w).

Definition raise {A} (e : Exc) : Meth A := fun self w => (Raises e, self, w).

Definition bind {A B} (m : Meth A) (k : A -> Meth B) : Meth B :=
  fun self w =>
    match m self w with
    | (Returns a, self', w') => k a self' w'
    | (Raises e, self', w') => (Raises e, self', w')
    end.

(** [try: body  except Exception as e: handler e]. *)
Definition try_except {A} (body : Meth A) (handler : Exc -> Meth A) : Meth A :=
  fun self w =>
    match body self w with
    | (Returns a, self', w') => (Returns a, self', w')
    | (Raises e, self', w') => handler e self' w'
    end.

Definition lift {A} (o : outcome A) : Meth A := fun self w => (o, self, w).

Declare Scope meth_scope.
Delimit Scope meth_scope with meth.
Notation "x <- m ;; k" := (bind m (fun x => k))
  (at level 61, m at next level, right associativity) : meth_scope.
Notation "m ;;; k" := (bind m (fun _ => k))
  (at level 61, right associativity) : meth_scope.
Local Open Scope meth_scope.

Definition get_self : Meth ModelProvider := fun self w => (Returns self, self, w).

Definition set_session (s : option ClientSession) : Meth unit :=
  fun self w =>
    (Returns tt, mkModelProvider (name self) (config self) s (available self), w).

Definition set_available (b : bool) : Meth unit :=
  fun self w =>
    (Returns tt, mkModelProvider (name self) (config self) (session self) b, w).

(** [self.config[k]] and [self.config.get(k, default)]. *)
Definition config_item (k : string) : Meth PyVal :=
  self <- get_self ;; lift (py_getitem (config self) k).

Definition config_get (k : string) (default : PyVal) : Meth PyVal :=
  self <- get_self ;; lift (py_get (config self) k default).

(** [time.time()]. *)
Definition time_time : Meth float :=
  fun self w =>
    (Returns (wall_clock w (ticks w)), self,
     mkWorld (backend w) (wall_clock w) (sent w) (S (ticks w))).

(** Looking up [self.session.post]: there is no such attribute on [None]. *)
Definition session_post_attr : Meth ClientSession :=
  self <- get_self ;;
  match session self with
  | None => raise (AttributeError "'NoneType' object has no attribute 'post'")
  | Some s => ret s
  end.

(** Entering [async with s.post(...)]: the request goes out unless the
    session is closed. *)
Definition post (s : ClientSession) (rq : Request) : Meth ClientResponse :=
  fun self w =>
    if closed s then (Raises (RuntimeError "Session is closed"), self, w)
    else (backend w (sent w) rq, self,
          mkWorld (backend w) (wall_clock w) (rq :: sent w) (ticks w)).

(** [kwargs.get(k, default)] on the keyword options. *)
Definition kwargs_get (kwargs : list (string * PyVal)) (k : string) (default : PyVal) : PyVal :=
  match dict_get kwargs k with Some v => v | None => default end.

(** The methods a provider class defines or overrides. *)
Record ProviderClass : Type := mkProviderClass {
  cls_test_connection : Meth bool;
  cls_generate_response :
    string -> TaskType -> list (string * PyVal) -> Meth ModelResponse
}.

(** ** class ModelProvider *)

(** [ModelProvider.initialise]; [self.test_connection()] is the method
    of the object's own class [cls]. *)
Definition initialise (cls : ProviderClass) : Meth bool :=
  try_except
    (timeout <- config_get "timeout" (PInt 30) ;;
     set_session (Some (new_ClientSession timeout)) ;;;
     probe <- cls_test_connection cls ;;
     set_available probe ;;;
     self <- get_self ;;
     ret (available self))
    (fun e => ret false).

(** [ModelProvider.cleanup]: a session object is always true. *)
Definition cleanup : Meth unit :=
  self <- get_self ;;
  match session self with
  | Some s => set_session (Some (ClientSession_close s))
  | None => ret tt
  end.

(** The two methods the base class leaves to its subclasses. *)
Definition ModelProvider_class : ProviderClass :=
  mkProviderClass
    (raise NotImplementedError)
    (fun prompt task_type kwargs => raise NotImplementedError).

Definition bearer_headers (api_key : PyVal) : list (string * FString) :=
  [("Authorization", [PStr "Bearer "; api_key]);
   ("Content-Type", [PStr "application/json"])].

Definition chat_message (role content : PyVal) : PyVal :=
  PDict [("role", role); ("content", content)].

Definition default_system_prompt : PyVal :=
  PStr "You are Agent Zero, an expert system administrator.".

(** [data.get("usage", {}).get("total_tokens", default)], the default
    being evaluated after the receiver. *)
Definition usage_total_tokens (data : PyVal) (default : Meth PyVal) : Meth PyVal :=
  usage <- lift (py_get data "usage" (PDict [])) ;;
  lift (py_get_attr usage) ;;;
  d <- default ;;
  lift (py_get usage "total_tokens" d).

(** ** class GroqProvider *)

Module GroqProvider.

Definition test_connection : Meth bool :=
  api_key <- config_get "api_key" PNone ;;
  if negb (truthy api_key) then ret false
  else
    try_except
      (key <- config_item "api_key" ;;
       let headers := bearer_headers key in
       models <- config_item "models" ;;
       fast <- lift (py_getitem models "fast") ;;
       let test_payload :=
         PDict [("model", fast);
                ("messages", PList [chat_message (PStr "user") (PStr "Test connection")]);
                ("max_tokens", PInt 10)] in
       s <- session_post_attr ;;
       endpoint <- config_item "endpoint" ;;
       response <- post s (mkRequest [endpoint; PStr "/chat/completions"]
                                     headers test_payload) ;;
       ret (status response =? 200))
      (fun e => ret false).

Definition generate_response (prompt : string) (task_type : TaskType)
    (kwargs : list (string * PyVal)) : Meth ModelResponse :=
  start_time <- time_time ;;
  models <- config_item "models" ;;
  model <- lift (py_getitem models
                   match task_type with
                   | FAST_QUERY => "fast"
                   | PROBLEM_SOLVING => "reasoning"
                   | _ => "code"
                   end) ;;
  try_except
    (key <- config_item "api_key" ;;
     let headers := bearer_headers key in
     let payload :=
       PDict [("model", model);
              ("messages",
               PList [chat_message (PStr "system")
                        (kwargs_get kwargs "system_prompt" default_system_prompt);
                      chat_message (PStr "user") (PStr prompt)]);
              ("max_tokens", kwargs_get kwargs "max_tokens" (PInt 4000));
              ("temperature", kwargs_get kwargs "temperature" (PFloat 0.3))] in
     s <- session_post_attr ;;
     endpoint <- config_item "endpoint" ;;
     response <- post s (mkRequest [endpoint; PStr "/chat/completions"]
                                   headers payload) ;;
     if status response =? 200 then
       data <- lift (json_body response) ;;
       now <- time_time ;;
       let execution_time := PrimFloat.sub now start_time in
       choices <- lift (py_getitem data "choices") ;;
       choice <- lift (py_getitem0 choices) ;;
       message <- lift (py_getitem choice "message") ;;
       text <- lift (py_getitem message "content") ;;
       usage <- lift (py_getitem data "usage") ;;
       total_tokens <- lift (py_getitem usage "total_tokens") ;;
       ret (mkModelResponse text model "groq" execution_time total_tokens
              0.9 true None)
     else
       error_text <- lift (text_body response) ;;
       raise (mkExc "Exception"
                ("Groq API error " ++ str_int (status response) ++ ": " ++ error_text)))
    (fun e =>
       now <- time_time ;;
       let execution_time := PrimFloat.sub now start_time in
       ret (mkModelResponse (PStr "") model "groq" execution_time (PInt 0)
              0.0 false (Some (str_exc e)))).

Definition class : ProviderClass :=
  mkProviderClass test_connection generate_response.

End GroqProvider.

(** ** class MistralCodestralProvider *)

Module MistralCodestralProvider.

Definition test_connection : Meth bool :=
  api_key <- config_get "api_key" PNone ;;
  if negb (truthy api_key) then ret false
  else
    try_except
      (key <- config_item "api_key" ;;
       let headers := bearer_headers key in
       model <- config_item "model" ;;
       let test_payload :=
         PDict [("model", model);
                ("prompt", PStr ("# Test connection" ++ nl ++ "def test():" ++ nl
                                 ++ "    return True"));
                ("max_tokens", PInt 10)] in
       s <- session_post_attr ;;
       endpoint <- config_item "endpoint" ;;
       response <- post s (mkRequest [endpoint; PStr "/fim/completions"]
                                     headers test_payload) ;;
       ret (status response =? 200))
      (fun e => ret false).

(** [task_type in [TaskType.CODE_ANALYSIS, TaskType.CODE_GENERATION]]. *)
Definition code_task (task_type : TaskType) : bool :=
  existsb (TaskType_eqb task_type) [CODE_ANALYSIS; CODE_GENERATION].

Definition generate_response (prompt : string) (task_type : TaskType)
    (kwargs : list (string * PyVal)) : Meth ModelResponse :=
  start_time <- time_time ;;
  if negb (code_task task_type) then
    model <- config_item "model" ;;
    ret (mkModelResponse (PStr "") model "mistral_codestral" 0 (PInt 0)
           0.0 false (Some "Task type not supported by Codestral"))
  else
    try_except
      (key <- config_item "api_key" ;;
       let headers := bearer_headers key in
       request <-
         (if TaskType_eqb task_type CODE_ANALYSIS then
            model <- config_item "model" ;;
            max_tokens <- config_item "max_tokens" ;;
            let payload :=
              PDict [("model", model);
                     ("messages",
                      PList [chat_message (PStr "user")
                               (PStr ("Analyse the following code and provide detailed insights:"
                                      ++ nl ++ nl ++ prompt))]);
                     ("max_tokens", kwargs_get kwargs "max_tokens" max_tokens)] in
            endpoint <- config_item "endpoint" ;;
            ret (mkRequest [endpoint; PStr "/chat/completions"] headers payload)
          else
            model <- config_item "model" ;;
            max_tokens <- config_item "max_tokens" ;;
            let payload :=
              PDict [("model", model);
                     ("prompt", PStr prompt);
                     ("max_tokens", kwargs_get kwargs "max_tokens" max_tokens);
                     ("temperature", kwargs_get kwargs "temperature" (PFloat 0.1));
                     ("stop", kwargs_get kwargs "stop" (PList [PStr (nl ++ nl)]))] in
            endpoint <- config_item "endpoint" ;;
            ret (mkRequest [endpoint; PStr "/fim/completions"] headers payload)) ;;
       s <- session_post_attr ;;
       response <- post s request ;;
       if status response =? 200 then
         data <- lift (json_body response) ;;
         now <- time_time ;;
         let execution_time := PrimFloat.sub now start_time in
         extracted <-
           (if TaskType_eqb task_type CODE_ANALYSIS then
              choices <- lift (py_getitem data "choices") ;;
              choice <- lift (py_getitem0 choices) ;;
              message <- lift (py_getitem choice "message") ;;
              text <- lift (py_getitem message "content") ;;
              tokens <- usage_total_tokens data (ret (PInt 0)) ;;
              ret (text, tokens)
            else
              choices <- lift (py_getitem data "choices") ;;
              choice <- lift (py_getitem0 choices) ;;
              text <- lift (py_getitem choice "text") ;;
              tokens <- usage_total_tokens data (lift (py_len_split text)) ;;
              ret (text, tokens)) ;;
         model <- config_item "model" ;;
         ret (mkModelResponse (fst extracted) model "mistral_codestral"
                execution_time (snd extracted) 0.95 true None)
       else
         error_text <- lift (text_body response) ;;
         raise (mkExc "Exception"
                  ("Codestral API error " ++ str_int (status response) ++ ": "
                     ++ error_text)))
      (fun e =>
         now <- time_time ;;
         let execution_time := PrimFloat.sub now start_time in
         model <- config_item "model" ;;
         ret (mkModelResponse (PStr "") model "mistral_codestral" execution_time
                (PInt 0) 0.0 false (Some (str_exc e)))).

Definition class : ProviderClass :=
  mkProviderClass test_connection generate_response.

End MistralCodestralProvider.

(** ** class OpenRouterProvider *)

Module OpenRouterProvider.

Definition openrouter_headers (api_key : PyVal) : list (string * FString) :=
  [("Authorization", [PStr "Bearer "; api_key]);
   ("Content-Type", [PStr "application/json"]);
   ("HTTP-Referer", [PStr "https://agent-zero.ai"]);
   ("X-Title", [PStr "Agent Zero"])].

Definition test_connection : Meth bool :=
  api_key <- config_get "api_key" PNone ;;
  if negb (truthy api_key) then ret false
  else
    try_except
      (key <- config_item "api_key" ;;
       let headers := openrouter_headers key in
       models <- config_item "models" ;;
       deepseek <- lift (py_getitem models "deepseek") ;;
       let test_payload :=
         PDict [("model", deepseek);
                ("messages", PList [chat_message (PStr "user") (PStr "Test")]);
                ("max_tokens", PInt 10)] in
       s <- session_post_attr ;;
       endpoint <- config_item "endpoint" ;;
       response <- post s (mkRequest [endpoint; PStr "/chat/completions"]
                                     headers test_payload) ;;
       ret (status response =? 200))
      (fun e => ret false).

Definition generate_response (prompt : string) (task_type : TaskType)
    (kwargs : list (string * PyVal)) : Meth ModelResponse :=
  start_time <- time_time ;;
  models <- config_item "models" ;;
  model <- lift (py_getitem models
                   (if TaskType_eqb task_type PROBLEM_SOLVING then "kimi_k2"
                    else if existsb (TaskType_eqb task_type)
                              [CODE_ANALYSIS; CODE_GENERATION]
                         then "deepseek"
                         else "deepseek")) ;;
  try_except
    (key <- config_item "api_key" ;;
     let headers := openrouter_headers key in
     let payload :=
       PDict [("model", model);
              ("messages",
               PList [chat_message (PStr "system")
                        (kwargs_get kwargs "system_prompt" default_system_prompt);
                      chat_message (PStr "user") (PStr prompt)]);
              ("max_tokens", kwargs_get kwargs "max_tokens" (PInt 4000));
              ("temperature", kwargs_get kwargs "temperature" (PFloat 0.3))] in
     s <- session_post_attr ;;
     endpoint <- config_item "endpoint" ;;
     response <- post s (mkRequest [endpoint; PStr "/chat/completions"]
                                   headers payload) ;;
     if status response =? 200 then
       data <- lift (json_body response) ;;
       now <- time_time ;;
       let execution_time := PrimFloat.sub now start_time in
       choices <- lift (py_getitem data "choices") ;;
       choice <- lift (py_getitem0 choices) ;;
       message <- lift (py_getitem choice "message") ;;
       text <- lift (py_getitem message "content") ;;
       total_tokens <- usage_total_tokens data (ret (PInt 0)) ;;
       ret (mkModelResponse text model "openrouter" execution_time total_tokens
              0.85 true None)
     else
       error_text <- lift (text_body response) ;;
       raise (mkExc "Exception"
                ("OpenRouter API error " ++ str_int (status response) ++ ": "
                   ++ error_text)))
    (fun e =>
       now <- time_time ;;
       let execution_time := PrimFloat.sub now start_time in
       ret (mkModelResponse (PStr "") model "openrouter" execution_time (PInt 0)
              0.0 false (Some (str_exc e)))).

Definition class : ProviderClass :=
  mkProviderClass test_connection generate_response.

End OpenRouterProvider.

(** ** class HuggingFaceProvider *)

Module HuggingFaceProvider.

Definition test_connection : Meth bool :=
  api_key <- config_get "api_key" PNone ;;
  if negb (truthy api_key) then ret false
  else
    try_except
      (key <- config_item "api_key" ;;
       let headers := bearer_headers key in
       let test_payload :=
         PDict [("inputs", PStr "Test connection");
                ("options", PDict [("wait_for_model", PBool true)])] in
       s <- session_post_attr ;;
       endpoint <- config_item "endpoint" ;;
       models <- config_item "models" ;;
       embeddings <- lift (py_getitem models "embeddings") ;;
       response <- post s (mkRequest [endpoint; PStr "/models/"; embeddings]
                                     headers test_payload) ;;
       ret (status response =? 200))
      (fun e => ret false).

Definition generate_response (prompt : string) (task_type : TaskType)
    (kwargs : list (string * PyVal)) : Meth ModelResponse :=
  start_time <- time_time ;;
  if negb (TaskType_eqb task_type WEB_AUTOMATION) then
    ret (mkModelResponse (PStr "") (PStr "N/A") "huggingface" 0 (PInt 0)
           0.0 false (Some "Task type not supported by HuggingFace provider"))
  else
    try_except
      (now <- time_time ;;
       let execution_time := PrimFloat.sub now start_time in
       models <- config_item "models" ;;
       browser_use <- lift (py_getitem models "browser_use") ;;
       ret (mkModelResponse (PStr "Web automation task queued for processing")
              browser_use "huggingface" execution_time (PInt 0) 0.7 true None))
      (fun e =>
         now <- time_time ;;
         let execution_time := PrimFloat.sub now start_time in
         ret (mkModelResponse (PStr "") (PStr "N/A") "huggingface" execution_time
                (PInt 0) 0.0 false (Some (str_exc e)))).

Definition class : ProviderClass :=
  mkProviderClass test_connection generate_response.

End HuggingFaceProvider.

(** ** class MultiModelPipeline *)

(** A registered provider: an object of some class. *)
Record Adapter : Type := mkAdapter {
  class_of : ProviderClass;
  self_of : ModelProvider
}.

Record MultiModelPipeline : Type := mkMultiModelPipeline {
  pipeline_config : PyVal;
  providers : list (string * Adapter);
  routing_strategy : list (TaskType * list string)
}.

Definition _create_routing_strategy : list (TaskType * list string) :=
  [(CODE_ANALYSIS, ["mistral_codestral"; "groq"; "openrouter"]);
   (CODE_GENERATION, ["mistral_codestral"; "groq"; "openrouter"]);
   (PROBLEM_SOLVING, ["openrouter"; "groq"]);
   (SYSTEM_ADMIN, ["groq"; "openrouter"]);
   (WEB_AUTOMATION, ["huggingface"; "groq"]);
   (FAST_QUERY, ["groq"; "openrouter"]);
   (GENERAL, ["groq"; "openrouter"])].

Definition MultiModelPipeline_init (config : PyVal) : MultiModelPipeline :=
  mkMultiModelPipeline config [] _create_routing_strategy.

(** [self.routing_strategy.get(task_type, default)]. *)
Fixpoint routing_get (rs : list (TaskType * list string)) (task_type : TaskType)
    (default : list string) : list string :=
  match rs with
  | [] => default
  | (t, order) :: rs' =>
      if TaskType_eqb t task_type then order else routing_get rs' task_type default
  end.

Definition set_providers (p : MultiModelPipeline) (ps : list (string * Adapter))
  : MultiModelPipeline :=
  mkMultiModelPipeline (pipeline_config p) ps (routing_strategy p).

(** The object registered under [name] is now in state [self']. *)
Definition update_provider (p : MultiModelPipeline) (name : string) (a : Adapter)
    (self' : ModelProvider) : MultiModelPipeline :=
  set_providers p (dict_set (providers p) name (mkAdapter (class_of a) self')).

(** The response returned when the routing order is exhausted. *)
Definition all_failed : ModelResponse :=
  mkModelResponse (PStr "") (PStr "none") "none" 0 (PInt 0) 0.0 false
    (Some "All providers failed or unavailable").

(** The [try] block of the dispatch loop, run on one provider:
    [Some response] stands for [return response], [None] for going on
    with the next name. *)
Definition attempt (cls : ProviderClass) (prompt : string) (task_type : TaskType)
    (kwargs : list (string * PyVal)) : Meth (option ModelResponse) :=
  try_except
    (response <- cls_generate_response cls prompt task_type kwargs ;;
     if success response then ret (Some response) else ret None)
    (fun e => ret None).

(** A call the pipeline made to a provider's [generate_response], and
    how it ended. *)
Abbreviation Call := (string * outcome ModelResponse)%type (only parsing).

(** The [for provider_name in routing_order] loop.  Besides the state
    it leaves, it reports the calls it made, in order. *)
Fixpoint dispatch (routing_order : list string) (prompt : string)
    (task_type : TaskType) (kwargs : list (string * PyVal))
    (p : MultiModelPipeline) (w : World)
  : outcome (option ModelResponse) * MultiModelPipeline * World * list Call :=
  match routing_order with
  | [] => (Returns None, p, w, [])
  | provider_name :: rest =>
      match dict_get (providers p) provider_name with
      | Some a =>
          if available (self_of a) then
            let call := cls_generate_response (class_of a) prompt task_type kwargs in
            let made : Call := (provider_name, fst (fst (call (self_of a) w))) in
            match attempt (class_of a) prompt task_type kwargs (self_of a) w with
            | (Returns (Some response), self', w') =>
                (Returns (Some response), update_provider p provider_name a self',
                 w', [made])
            | (Returns None, self', w') =>
                let '(r, p', w'', calls) :=
                  dispatch rest prompt task_type kwargs
                    (update_provider p provider_name a self') w' in
                (r, p', w'', made :: calls)
            | (Raises e, self', w') =>
                (Raises e, update_provider p provider_name a self', w', [made])
            end
          else dispatch rest prompt task_type kwargs p w
      | None => dispatch rest prompt task_type kwargs p w
      end
  end.

Definition routing_order_for (p : MultiModelPipeline) (task_type : TaskType)
  : list string :=
  routing_get (routing_strategy p) task_type ["groq"; "openrouter"].

(** [MultiModelPipeline.generate_response]. *)
Definition generate_response (prompt : string) (task_type : TaskType)
    (kwargs : list (string * PyVal)) (p : MultiModelPipeline) (w : World)
  : outcome ModelResponse * MultiModelPipeline * World * list Call :=
  let routing_order := routing_order_for p task_type in
  match dispatch routing_order prompt task_type kwargs p w with
  | (Returns (Some response), p', w', calls) => (Returns response, p', w', calls)
  | (Returns None, p', w', calls) => (Returns all_failed, p', w', calls)
  | (Raises e, p', w', calls) => (Raises e, p', w', calls)
  end.

(** [for name, provider in self.providers.items(): body]: the body is
    a method-like computation on each [provider] in turn, threading an
    accumulator for the local variables; a raise leaves the loop with
    the objects as they are at that point. *)
Fixpoint for_items {Acc : Type}
    (body : string -> ProviderClass -> Acc -> Meth Acc)
    (items : list (string * Adapter)) (acc : Acc) (w : World)
  : outcome Acc * list (string * Adapter) * World :=
  match items with
  | [] => (Returns acc, [], w)
  | (name, a) :: rest =>
      match body name (class_of a) acc (self_of a) w with
      | (Returns acc', self', w') =>
          let '(r, rest', w'') := for_items body rest acc' w' in
          (r, (name, mkAdapter (class_of a) self') :: rest', w'')
      | (Raises e, self', w') =>
          (Raises e, (name, mkAdapter (class_of a) self') :: rest, w')
      end
  end.

(** [if name in provider_configs: self.providers[name] = cls(name,
    provider_configs[name], logger)]. *)
Definition register (name : string) (cls : ProviderClass) (provider_configs : PyVal)
    (ps : list (string * Adapter)) : outcome unit * list (string * Adapter) :=
  match py_contains provider_configs name with
  | Returns true =>
      match py_getitem provider_configs name with
      | Returns cfg =>
          (Returns tt, dict_set ps name (mkAdapter cls (ModelProvider_init name cfg)))
      | Raises e => (Raises e, ps)
      end
  | Returns false => (Returns tt, ps)
  | Raises e => (Raises e, ps)
  end.

(** The four registrations of [MultiModelPipeline.initialise], in order. *)
Fixpoint register_all (classes : list (string * ProviderClass)) (provider_configs : PyVal)
    (ps : list (string * Adapter)) : outcome unit * list (string * Adapter) :=
  match classes with
  | [] => (Returns tt, ps)
  | (name, cls) :: rest =>
      match register name cls provider_configs ps with
      | (Returns _, ps') => register_all rest provider_configs ps'
      | (Raises e, ps') => (Raises e, ps')
      end
  end.

Definition provider_classes : list (string * ProviderClass) :=
  [("groq", GroqProvider.class);
   ("mistral_codestral", MistralCodestralProvider.class);
   ("openrouter", OpenRouterProvider.class);
   ("huggingface", HuggingFaceProvider.class)].

(** [MultiModelPipeline.initialise]. *)
Definition pipeline_initialise (p : MultiModelPipeline) (w : World)
  : outcome bool * MultiModelPipeline * World :=
  match py_get (pipeline_config p) "providers" (PDict []) with
  | Raises e => (Raises e, p, w)
  | Returns provider_configs =>
      match register_all provider_classes provider_configs (providers p) with
      | (Raises e, ps) => (Raises e, set_providers p ps, w)
      | (Returns _, ps) =>
          let body (name : string) (cls : ProviderClass) (available_count : Z) : Meth Z :=
            (ok <- initialise cls ;;
             if ok then ret (available_count + 1) else ret available_count)%meth in
          match for_items body ps 0 w with
          | (Returns available_count, ps', w') =>
              (Returns (0 <? available_count), set_providers p ps', w')
          | (Raises e, ps', w') => (Raises e, set_providers p ps', w')
          end
      end
  end.

(** The dictionary [health_check] builds. *)
Record ProviderHealth : Type := mkProviderHealth {
  ph_available : bool;
  ph_healthy : bool
}.

Record HealthStatus : Type := mkHealthStatus {
  total_providers : Z;
  available_providers : Z;
  providers_health : list (string * ProviderHealth)
}.

(** A probe [health_check] made, and what it returned. *)
Abbreviation Probe := (string * bool)%type (only parsing).

(** One turn of the loop of [health_check]; the second component of
    the accumulator lists the probes made so far, latest first. *)
Definition health_body (name : string) (cls : ProviderClass)
    (acc : HealthStatus * list Probe) : Meth (HealthStatus * list Probe) :=
  let '(health_status, probes) := acc in
  provider <- get_self ;;
  checked <-
    (if available provider
     then is_healthy <- cls_test_connection cls ;;
          ret (is_healthy, (name, is_healthy) :: probes)
     else ret (false, probes)) ;;
  let is_healthy := fst checked in
  provider <- get_self ;;
  let entries :=
    dict_set (providers_health health_status) name
      (mkProviderHealth (available provider) is_healthy) in
  ret (mkHealthStatus (total_providers health_status)
         (if is_healthy then available_providers health_status + 1
          else available_providers health_status)
         entries,
       snd checked).

(** [MultiModelPipeline.health_check], with the probes it made in order. *)
Definition health_check (p : MultiModelPipeline) (w : World)
  : outcome (HealthStatus * list Probe) * MultiModelPipeline * World :=
  let health_status :=
    mkHealthStatus (Z.of_nat (List.length (providers p))) 0 [] in
  match for_items health_body (providers p) (health_status, []) w with
  | (Returns (hs, probes), ps', w') => (Returns (hs, rev probes), set_providers p ps', w')
  | (Raises e, ps', w') => (Raises e, set_providers p ps', w')
  end.

(** The entries of the dictionary [check_api_connectivity] builds. *)
Record Connectivity : Type := mkConnectivity {
  connected : bool;
  connectivity_error : option string
}.

Definition connectivity_body (name : string) (cls : ProviderClass)
    (connectivity_status : list (string * Connectivity))
  : Meth (list (string * Connectivity)) :=
  try_except
    (is_connected <- cls_test_connection cls ;;
     ret (dict_set connectivity_status name (mkConnectivity is_connected None)))
    (fun e =>
       ret (dict_set connectivity_status name
              (mkConnectivity false (Some (str_exc e))))).

(** [MultiModelPipeline.check_api_connectivity]. *)
Definition check_api_connectivity (p : MultiModelPipeline) (w : World)
  : outcome (list (string * Connectivity)) * MultiModelPipeline * World :=
  match for_items connectivity_body (providers p) [] w with
  | (r, ps', w') => (r, set_providers p ps', w')
  end.

(** [MultiModelPipeline.shutdown]. *)
Definition shutdown (p : MultiModelPipeline) (w : World)
  : outcome unit * MultiModelPipeline * World :=
  match for_items (fun name cls (_ : unit) => cleanup) (providers p) tt w with
  | (r, ps', w') => (r, set_providers p ps', w')
  end.

(** ** Notions the properties are stated with *)

(** The entry of the routing table for a task type, if there is one. *)
Fixpoint routing_lookup (rs : list (TaskType * list string)) (task_type : TaskType)
  : option (list string) :=
  match rs with
  | [] => None
  | (t, order) :: rs' =>
      if TaskType_eqb t task_type then Some order else routing_lookup rs' task_type
  end.

(** [name] is registered and its sticky flag is set. *)
Definition registered_and_available (p : MultiModelPipeline) (name : string) : bool :=
  match dict_get (providers p) name with
  | Some a => available (self_of a)
  | None => false
  end.

(** The effective dispatch order: the routing table's list for the task
    type, or the default pair, filtered to registered and available
    adapters. *)
Definition effective_order (p : MultiModelPipeline) (task_type : TaskType)
  : list string :=
  filter (registered_and_available p)
    match routing_lookup (routing_strategy p) task_type with
    | Some order => order
    | None => ["groq"; "openrouter"]
    end.

(** A call failed: it raised, or returned a response without success. *)
Definition call_failed (o : outcome ModelResponse) : bool :=
  match o with
  | Returns response => negb (success response)
  | Raises _ => true
  end.

Definition all_calls_failed (calls : list Call) : Prop :=
  Forall (fun c => call_failed (snd c) = true) calls.

(** The outcome is the synthetic failure response, with [message] as
    its error. *)
Definition synthetic_failure (message : string) (r : outcome ModelResponse) : Prop :=
  exists response,
    r = Returns response /\
    success response = false /\
    provider response = "none" /\
    model_used response = PStr "none" /\
    content response = PStr "" /\
    error response = Some message.

(** The invariant of [ModelResponse] the specification asks for. *)
Definition well_formed (r : ModelResponse) : Prop :=
  (success r = false -> content r = PStr "" /\ error r <> None) /\
  (success r = true -> error r = None).

(** A method leaves the object it runs on as it found it. *)
Definition keeps_self {A} (m : Meth A) : Prop :=
  forall self w, snd (fst (m self w)) = self.

(** A method leaves the sticky flag as it found it. *)
Definition keeps_available {A} (m : Meth A) : Prop :=
  forall self w, available (snd (fst (m self w))) = available self.

(** Whatever a method returns satisfies [Q]. *)
Definition returns_only {A} (m : Meth A) (Q : A -> Prop) : Prop :=
  forall self w a, fst (fst (m self w)) = Returns a -> Q a.

(** A class whose [generate_response] never writes the sticky flag. *)
Definition generate_keeps_available (cls : ProviderClass) : Prop :=
  forall prompt task_type kwargs,
    keeps_available (cls_generate_response cls prompt task_type kwargs).

(** Every adapter found in the registry is of a class with property [P]. *)
Definition registered_classes (P : ProviderClass -> Prop) (p : MultiModelPipeline)
  : Prop :=
  forall name a, dict_get (providers p) name = Some a -> P (class_of a).

(** Every registered adapter is of a class that leaves the flag alone. *)
Definition dispatch_stable (p : MultiModelPipeline) : Prop :=
  registered_classes generate_keeps_available p.

(** What makes the effective dispatch order of a request a fixed list:
    no name occurs twice in the routing order (as in the table of the
    source and in the default pair), or no adapter touches its flag
    while generating (as none of the source does). *)
Definition order_settled (p : MultiModelPipeline) (task_type : TaskType) : Prop :=
  NoDup (routing_order_for p task_type) \/ dispatch_stable p.

(** A class whose [generate_response] returns well-formed responses only. *)
Definition generates_well_formed (cls : ProviderClass) : Prop :=
  forall prompt task_type kwargs,
    returns_only (cls_generate_response cls prompt task_type kwargs) well_formed.

(** The object after [cleanup]. *)
Definition released (a : Adapter) : Adapter :=
  mkAdapter (class_of a)
    (mkModelProvider (name (self_of a)) (config (self_of a))
       (option_map ClientSession_close (session (self_of a)))
       (available (self_of a))).

(** The classes the source defines. *)
Inductive source_class : ProviderClass -> Prop :=
| source_base : source_class ModelProvider_class
| source_groq : source_class GroqProvider.class
| source_mistral : source_class MistralCodestralProvider.class
| source_openrouter : source_class OpenRouterProvider.class
| source_huggingface : source_class HuggingFaceProvider.class.

Definition source_adapters (p : MultiModelPipeline) : Prop :=
  Forall (fun na => source_class (class_of (snd na))) (providers p).

(** The sticky flags of the registered adapters, in registration order. *)
Definition availability (ps : list (string * Adapter)) : list (string * bool) :=
  map (fun na => (fst na, available (self_of (snd na)))) ps.

(** How often each adapter's transport handle has been released. *)
Definition releases_of (a : Adapter) : nat :=
  match session (self_of a) with
  | Some s => connector_releases s
  | None => 0%nat
  end.

Definition releases (ps : list (string * Adapter)) : list (string * nat) :=
  map (fun na => (fst na, releases_of (snd na))) ps.

(** The requests of the pipeline's interface other than [initialise]. *)
Inductive Operation : Type :=
| OpGenerateResponse (prompt : string) (task_type : TaskType)
    (kwargs : list (string * PyVal))
| OpHealthCheck
| OpCheckApiConnectivity
| OpShutdown.

Definition perform (op : Operation) (pw : MultiModelPipeline * World)
  : MultiModelPipeline * World :=
  let '(p, w) := pw in
  match op with
  | OpGenerateResponse prompt task_type kwargs =>
      let '(_, p', w', _) := generate_response prompt task_type kwargs p w in (p', w')
  | OpHealthCheck => let '(_, p', w') := health_check p w in (p', w')
  | OpCheckApiConnectivity => let '(_, p', w') := check_api_connectivity p w in (p', w')
  | OpShutdown => let '(_, p', w') := shutdown p w in (p', w')
  end.

Definition perform_all (ops : list Operation) (pw : MultiModelPipeline * World)
  : MultiModelPipeline * World :=
  fold_left (fun st op => perform op st) ops pw.

(** The probes of a health check that came back true. *)
Definition healthy_count (probes : list Probe) : Z :=
  Z.of_nat (List.length (filter (fun pr => snd pr) probes)).

(** The names of the adapters whose sticky flag is set. *)
Definition sticky_names (ps : list (string * Adapter)) : list string :=
  map fst (filter (fun na => available (self_of (snd na))) ps).

(** A concrete subclass, configured with a dictionary. *)
Inductive concrete_class : ProviderClass -> Prop :=
| concrete_groq : concrete_class GroqProvider.class
| concrete_mistral : concrete_class MistralCodestralProvider.class
| concrete_openrouter : concrete_class OpenRouterProvider.class
| concrete_huggingface : concrete_class HuggingFaceProvider.class.

Definition configured (a : Adapter) : Prop :=
  concrete_class (class_of a) /\ exists d, config (self_of a) = PDict d.

(** The probes a health check is to make: [test_connection] of each
    adapter whose sticky flag is set, in registration order, each in
    the world the one before it left, with what it returned.  The list
    stops at a probe that raises. *)
Fixpoint live_probes (items : list (string * Adapter)) (w : World) : list Probe :=
  match items with
  | [] => []
  | (name, a) :: rest =>
      if available (self_of a) then
        match cls_test_connection (class_of a) (self_of a) w with
        | (Returns is_healthy, _, w') => (name, is_healthy) :: live_probes rest w'
        | (Raises _, _, _) => []
        end
      else live_probes rest w
  end.




(** ** Sample configurations and worlds *)

Definition completion_body : PyVal :=
  PDict [("choices",
          PList [PDict [("message", PDict [("content", PStr "done")]);
                        ("text", PStr "pass")]]);
         ("usage", PDict [("total_tokens", PInt 7)])].

(** Every backend answers 200 with a completion. *)
Definition world_up : World :=
  mkWorld (fun _ _ => Returns (mkClientResponse 200 (Returns completion_body) (Returns "")))
    (fun _ => 0%float) [] 0.

(** No backend can be reached. *)
Definition world_down : World :=
  mkWorld (fun _ _ => Raises (mkExc "ClientConnectorError" "Cannot connect to host"))
    (fun _ => 0%float) [] 0.

Definition groq_config : PyVal :=
  PDict [("api_key", PStr "gsk");
         ("endpoint", PStr "https://api.groq.com/openai/v1");
         ("models", PDict [("fast", PStr "llama-3.3-70b-versatile");
                           ("reasoning", PStr "mixtral-8x22b-instruct-v0.1");
                           ("code", PStr "llama-3.1-70b-versatile")])].

(** A Groq configuration that names the fast model only. *)
Definition groq_config_fast_only : PyVal :=
  PDict [("api_key", PStr "gsk");
         ("endpoint", PStr "https://api.groq.com/openai/v1");
         ("models", PDict [("fast", PStr "llama-3.3-70b-versatile")])].

Definition openrouter_config : PyVal :=
  PDict [("api_key", PStr "sk-or");
         ("endpoint", PStr "https://openrouter.ai/api/v1");
         ("models", PDict [("kimi_k2", PStr "moonshot/moonshot-v1-32k");
                           ("deepseek", PStr "deepseek/deepseek-r1:free")])].

Definition codestral_config : PyVal :=
  PDict [("api_key", PStr "mk");
         ("endpoint", PStr "https://codestral.mistral.ai/v1");
         ("model", PStr "codestral-latest");
         ("max_tokens", PInt 8192)].

Definition huggingface_config : PyVal :=
  PDict [("api_key", PStr "hf");
         ("endpoint", PStr "https://api-inference.huggingface.co");
         ("models", PDict [("browser_use", PStr "microsoft/DialoGPT-medium");
                           ("embeddings", PStr "sentence-transformers/all-MiniLM-L6-v2")])].

Definition models_config : PyVal :=
  PDict [("providers", PDict [("groq", groq_config); ("openrouter", openrouter_config)])].

(** An object as [initialise] leaves it when the probe came back true. *)
Definition ready (cls : ProviderClass) (name : string) (config : PyVal) : Adapter :=
  mkAdapter cls (mkModelProvider name config (Some (new_ClientSession (PInt 30))) true).

(** ... and when it came back false. *)
Definition unready (cls : ProviderClass) (name : string) (config : PyVal) : Adapter :=
  mkAdapter cls (mkModelProvider name config (Some (new_ClientSession (PInt 30))) false).

(** Groq and OpenRouter, both available. *)
Definition pipeline_two : MultiModelPipeline :=
  mkMultiModelPipeline models_config
    [("groq", ready GroqProvider.class "groq" groq_config);
     ("openrouter", ready OpenRouterProvider.class "openrouter" openrouter_config)]
    _create_routing_strategy.

(** Groq knows its fast model only; OpenRouter is complete. *)
Definition pipeline_partial : MultiModelPipeline :=
  mkMultiModelPipeline models_config
    [("groq", ready GroqProvider.class "groq" groq_config_fast_only);
     ("openrouter", ready OpenRouterProvider.class "openrouter" openrouter_config)]
    _create_routing_strategy.

(** Groq failed its probe at start-up, HuggingFace passed. *)
Definition pipeline_mixed : MultiModelPipeline :=
  mkMultiModelPipeline models_config
    [("groq", unready GroqProvider.class "groq" groq_config);
     ("huggingface", ready HuggingFaceProvider.class "huggingface" huggingface_config)]
    _create_routing_strategy.

(** The same two providers, with a routing table that has no entries. *)
Definition pipeline_untabled : MultiModelPipeline :=
  mkMultiModelPipeline models_config
    [("openrouter", ready OpenRouterProvider.class "openrouter" openrouter_config);
     ("groq", ready GroqProvider.class "groq" groq_config)]
    [].

(** Nothing configured. *)
Definition pipeline_empty : MultiModelPipeline :=
  MultiModelPipeline_init (PDict []).

(** An available adapter of a class that does not override the probe. *)
Definition pipeline_unprobed : MultiModelPipeline :=
  mkMultiModelPipeline (PDict [])
    [("custom", mkAdapter ModelProvider_class
                  (mkModelProvider "custom" (PDict []) None true))]
    _create_routing_strategy.

(** Only OpenRouter's backend answers. *)
Definition world_openrouter : World :=
  mkWorld
    (fun _ rq =>
       match url rq with
       | PStr "https://openrouter.ai/api/v1" :: _ =>
           Returns (mkClientResponse 200 (Returns completion_body) (Returns ""))
       | _ => Raises (mkExc "ClientConnectorError" "Cannot connect to host")
       end)
    (fun _ => 0%float) [] 0.

(** Groq failed its probe at start-up, OpenRouter and HuggingFace passed. *)
Definition pipeline_three : MultiModelPipeline :=
  mkMultiModelPipeline models_config
    [("groq", unready GroqProvider.class "groq" groq_config);
     ("openrouter", ready OpenRouterProvider.class "openrouter" openrouter_config);
     ("huggingface", ready HuggingFaceProvider.class "huggingface" huggingface_config)]
    _create_routing_strategy.



(** ** Network traffic of a method *)

(** A method sends no request. *)
Definition sends_nothing {A} (m : Meth A) : Prop :=
  forall self w, sent (snd (m self w)) = sent w.

(** A method sends one request at most. *)
Definition sends_at_most_one {A} (m : Meth A) : Prop :=
  forall self w,
    sent (snd (m self w)) = sent w \/ exists rq, sent (snd (m self w)) = rq :: sent w.

(** The subclasses that talk to their backend when generating. *)
Inductive network_class : ProviderClass -> Prop :=
| network_groq : network_class GroqProvider.class
| network_mistral : network_class MistralCodestralProvider.class
| network_openrouter : network_class OpenRouterProvider.class.

(** The object has no session, or a closed one. *)
Definition session_unusable (self : ModelProvider) : bool :=
  match session self with
  | None => true
  | Some s => closed s
  end.

(** The value of [self.config.get("api_key")] is false as a condition. *)
Definition no_api_key (self : ModelProvider) : Prop :=
  exists v, py_get (config self) "api_key" PNone = Returns v /\ truthy v = false.

(** An entry of the connectivity report: connected, or an error, or
    neither, but never both. *)
Definition connectivity_entry_ok (entry : string * Connectivity) : Prop :=
  connected (snd entry) = true -> connectivity_error (snd entry) = None.

(** A network provider that has been shut down, in the registry. *)
Definition shut_down (entry : string * Adapter) : Prop :=
  network_class (class_of (snd entry)) /\ session_unusable (self_of (snd entry)) = true.

(** The names [MultiModelPipeline.initialise] knows, in its order. *)
Definition provider_names : list string :=
  ["groq"; "mistral_codestral"; "openrouter"; "huggingface"].

(** The registry [MultiModelPipeline.initialise] builds from the
    dictionary [provider_configs], before it initialises the objects. *)
Definition fresh_registry (provider_configs : list (string * PyVal))
  : list (string * Adapter) :=
  flat_map
    (fun '(name, cls) =>
       match dict_get provider_configs name with
       | Some cfg => [(name, mkAdapter cls (ModelProvider_init name cfg))]
       | None => []
       end)
    provider_classes.

(** The loop body of [MultiModelPipeline.initialise]. *)
Definition initialise_body (name : string) (cls : ProviderClass) (available_count : Z)
  : Meth Z :=
  (ok <- initialise cls ;;
   if ok then ret (available_count + 1) else ret available_count)%meth.

(** The values that support neither [in] nor a string subscript. *)
Definition not_iterable (v : PyVal) : bool :=
  match v with
  | PNone | PBool _ | PInt _ | PFloat _ => true
  | _ => false
  end.

(** Some adapter of the registry has its sticky flag set. *)
Definition some_available (ps : list (string * Adapter)) : bool :=
  existsb (fun na => available (self_of (snd na))) ps.

(** The registry pairs each name with the class written for it. *)
Definition named_by_class (ps : list (string * Adapter)) : Prop :=
  Forall (fun na => In (fst na, class_of (snd na)) provider_classes) ps.

(** ** class ConfigManager (src/core/core/config_manager.py) *)

(** [s.startswith(t)] and [s.endswith(t)]. *)
Definition startswith (s t : string) : bool := String.prefix t s.

Definition endswith (s t : string) : bool :=
  let n := String.length s in
  let m := String.length t in
  (Nat.leb m n && String.eqb (String.substring (n - m) m s) t)%bool.

(** [ConfigManager.substitute_environment_variables]; [getenv name] is
    the value of the environment variable [name], if it is set. *)
Fixpoint substitute_environment_variables (getenv : string -> option string)
    (config_dict : PyVal) : PyVal :=
  match config_dict with
  | PDict d =>
      PDict (map (fun '(k, v) => (k, substitute_environment_variables getenv v)) d)
  | PList l => PList (map (substitute_environment_variables getenv) l)
  | PStr s =>
      if (startswith s "${" && endswith s "}")%bool then
        let env_var := String.substring 2 (String.length s - 3) s in
        match getenv env_var with
        | Some value => PStr value
        | None => config_dict
        end
      else config_dict
  | _ => config_dict
  end.

(** One turn of the loop of [_deep_merge], given the merge of the
    nested dictionaries. *)
Definition merge_entry (nested : list (string * PyVal) -> PyVal -> list (string * PyVal))
    (base_dict : list (string * PyVal)) (key : string) (value : PyVal)
  : list (string * PyVal) :=
  match dict_get base_dict key, value with
  | Some (PDict sub), PDict _ => dict_set base_dict key (PDict (nested sub value))
  | _, _ => dict_set base_dict key value
  end.

(** [ConfigManager._deep_merge] on a dictionary [update_dict]: the
    dictionary [base_dict] after the call. *)
Fixpoint merge_dict (base_dict : list (string * PyVal)) (update_dict : PyVal)
    {struct update_dict} : list (string * PyVal) :=
  match update_dict with
  | PDict items =>
      (fix loop (items : list (string * PyVal)) (base_dict : list (string * PyVal))
         {struct items} : list (string * PyVal) :=
         match items with
         | [] => base_dict
         | (key, value) :: rest => loop rest (merge_entry merge_dict base_dict key value)
         end) items base_dict
  | _ => base_dict
  end.

(** [ConfigManager._deep_merge]: anything but a dictionary has no
    [items()]. *)
Definition _deep_merge (base_dict : list (string * PyVal)) (update_dict : PyVal)
  : outcome (list (string * PyVal)) :=
  match update_dict with
  | PDict _ => Returns (merge_dict base_dict update_dict)
  | _ =>
      Raises (AttributeError
                ("'" ++ type_name update_dict ++ "' object has no attribute 'items'"))
  end.

(** What [_deep_merge] leaves under [key] when the update has [value]
    there: the merge of the two when both sides are dictionaries, the
    update's value otherwise. *)
Definition merged_value (base_dict : list (string * PyVal)) (key : string)
    (value : PyVal) : PyVal :=
  match dict_get base_dict key, value with
  | Some (PDict sub), PDict _ => PDict (merge_dict sub value)
  | _, _ => value
  end.

(** ** class AgentZero (src/core/main.py) *)

(** Awaiting a method of a collaborator whose class is defined
    outside the files at hand: any function of the world. *)
Definition Awaited : Type := World -> outcome PyVal * World.

Record SystemIntegration : Type := mkSystemIntegration {
  integration_health_check : Awaited;
  get_system_resources : Awaited
}.

(** The attributes of [AgentZero] that its [health_check] reads; each
    is [None] until the component is set up, and an object, true as a
    condition, afterwards.  For the security and the task manager the
    object is given by its [health_check]. *)
Record AgentZero : Type := mkAgentZero {
  model_pipeline : option MultiModelPipeline;
  system_integration : option SystemIntegration;
  security_manager : option Awaited;
  task_manager : option Awaited
}.

(** What a component reported: the dictionary of
    [MultiModelPipeline.health_check], or whatever a collaborator
    returned. *)
Inductive ComponentHealth : Type :=
| PipelineHealth (hs : HealthStatus)
| ReportedHealth (status : PyVal).

(** The dictionary [AgentZero.health_check] builds; the keys
    ["failures"], ["api_failures"] and ["error"] are absent at first. *)
Record SystemHealth : Type := mkSystemHealth {
  timestamp : string;
  overall_status : string;
  components : list (string * ComponentHealth);
  system_resources : PyVal;
  api_status : list (string * Connectivity);
  failures : option (list string);
  api_failures : option (list string);
  health_error : option string
}.

Definition AgentState : Type := (SystemHealth * AgentZero * World)%type.

Definition set_component (h : SystemHealth) (comp : string) (c : ComponentHealth)
  : SystemHealth :=
  mkSystemHealth (timestamp h) (overall_status h) (dict_set (components h) comp c)
    (system_resources h) (api_status h) (failures h) (api_failures h) (health_error h).

Definition set_pipeline (agent : AgentZero) (p : MultiModelPipeline) : AgentZero :=
  mkAgentZero (Some p) (system_integration agent) (security_manager agent)
    (task_manager agent).

(** [if self.model_pipeline: components["model_pipeline"] = await
    self.model_pipeline.health_check()]. *)
Definition check_pipeline (st : AgentState) : outcome unit * AgentState :=
  let '(h, agent, w) := st in
  match model_pipeline agent with
  | None => (Returns tt, st)
  | Some p =>
      match health_check p w with
      | (Returns (hs, _), p', w') =>
          (Returns tt,
           (set_component h "model_pipeline" (PipelineHealth hs),
            set_pipeline agent p', w'))
      | (Raises e, p', w') => (Raises e, (h, set_pipeline agent p', w'))
      end
  end.

(** The same for a collaborator. *)
Definition check_component (comp : string) (component : option Awaited)
    (st : AgentState) : outcome unit * AgentState :=
  let '(h, agent, w) := st in
  match component with
  | None => (Returns tt, st)
  | Some component_health_check =>
      match component_health_check w with
      | (Returns status, w') =>
          (Returns tt, (set_component h comp (ReportedHealth status), agent, w'))
      | (Raises e, w') => (Raises e, (h, agent, w'))
      end
  end.

(** [system_resources = await self.system_integration.get_system_resources()]. *)
Definition read_system_resources (st : AgentState) : outcome unit * AgentState :=
  let '(h, agent, w) := st in
  match system_integration agent with
  | None =>
      (Raises (AttributeError
                 "'NoneType' object has no attribute 'get_system_resources'"), st)
  | Some integration =>
      match get_system_resources integration w with
      | (Returns resources, w') =>
          (Returns tt,
           (mkSystemHealth (timestamp h) (overall_status h) (components h) resources
              (api_status h) (failures h) (api_failures h) (health_error h),
            agent, w'))
      | (Raises e, w') => (Raises e, (h, agent, w'))
      end
  end.

(** [api_status = await self.model_pipeline.check_api_connectivity()]. *)
Definition read_api_status (st : AgentState) : outcome unit * AgentState :=
  let '(h, agent, w) := st in
  match model_pipeline agent with
  | None =>
      (Raises (AttributeError
                 "'NoneType' object has no attribute 'check_api_connectivity'"), st)
  | Some p =>
      match check_api_connectivity p w with
      | (Returns report, p', w') =>
          (Returns tt,
           (mkSystemHealth (timestamp h) (overall_status h) (components h)
              (system_resources h) report (failures h) (api_failures h)
              (health_error h),
            set_pipeline agent p', w'))
      | (Raises e, p', w') => (Raises e, (h, set_pipeline agent p', w'))
      end
  end.

(** [status.get("status")] on what a component reported; the keys of
    the pipeline's dictionary are ["total_providers"],
    ["available_providers"] and ["providers"]. *)
Definition component_status (c : ComponentHealth) : outcome PyVal :=
  match c with
  | PipelineHealth _ => Returns PNone
  | ReportedHealth status => py_get status "status" PNone
  end.

(** [v != "healthy"]. *)
Definition not_healthy (v : PyVal) : bool :=
  match v with
  | PStr s => negb (String.eqb s "healthy")
  | _ => true
  end.

(** [[comp for comp, status in components.items()
      if status.get("status") != "healthy"]]. *)
Fixpoint component_failures (cs : list (string * ComponentHealth))
  : outcome (list string) :=
  match cs with
  | [] => Returns []
  | (comp, status) :: rest =>
      match component_status status with
      | Raises e => Raises e
      | Returns v =>
          match component_failures rest with
          | Raises e => Raises e
          | Returns l => Returns (if not_healthy v then comp :: l else l)
          end
      end
  end.

(** [[api for api, status in api_status.items()
      if not status.get("connected", False)]]. *)
Definition unconnected (report : list (string * Connectivity)) : list string :=
  map fst (filter (fun entry => negb (connected (snd entry))) report).

(** The end of the [try] block: the two lists and the overall status. *)
Definition assess (st : AgentState) : outcome unit * AgentState :=
  let '(h, agent, w) := st in
  match component_failures (components h) with
  | Raises e => (Raises e, st)
  | Returns component_failures =>
      let h1 :=
        match component_failures with
        | [] => h
        | _ :: _ =>
            mkSystemHealth (timestamp h) "degraded" (components h)
              (system_resources h) (api_status h) (Some component_failures)
              (api_failures h) (health_error h)
        end in
      let h2 :=
        match unconnected (api_status h1) with
        | [] => h1
        | _ :: _ =>
            mkSystemHealth (timestamp h1)
              (if String.eqb (overall_status h1) "healthy" then "limited"
               else overall_status h1)
              (components h1) (system_resources h1) (api_status h1) (failures h1)
              (Some (unconnected (api_status h1))) (health_error h1)
        end in
      (Returns tt, (h2, agent, w))
  end.

(** One statement after the other, up to the first that raises. *)
Fixpoint in_sequence (steps : list (AgentState -> outcome unit * AgentState))
    (st : AgentState) : outcome unit * AgentState :=
  match steps with
  | [] => (Returns tt, st)
  | step :: rest =>
      match step st with
      | (Returns _, st') => in_sequence rest st'
      | (Raises e, st') => (Raises e, st')
      end
  end.

(** [AgentZero.health_check]; [now] is [datetime.now().isoformat()]. *)
Definition AgentZero_health_check (now : string) (agent : AgentZero) (w : World)
  : SystemHealth * AgentZero * World :=
  let health_status := mkSystemHealth now "healthy" [] (PDict []) [] None None None in
  match
    in_sequence
      [check_pipeline;
       (fun st =>
          check_component "system_integration"
            (option_map integration_health_check (system_integration (snd (fst st))))
            st);
       (fun st => check_component "security_manager" (security_manager (snd (fst st))) st);
       (fun st => check_component "task_manager" (task_manager (snd (fst st))) st);
       read_system_resources;
       read_api_status;
       assess]
      (health_status, agent, w)
  with
  | (Returns _, st) => st
  | (Raises e, (h, agent', w')) =>
      (mkSystemHealth (timestamp h) "error" (components h) (system_resources h)
         (api_status h) (failures h) (api_failures h) (Some (str_exc e)),
       agent', w')
  end.

(** A collaborator that reports itself healthy. *)
Definition healthy_component : Awaited :=
  fun w => (Returns (PDict [("status", PStr "healthy")]), w).

(** An agent with every component set up and reporting healthy. *)
Definition agent_all_healthy : AgentZero :=
  mkAgentZero (Some pipeline_two)
    (Some (mkSystemIntegration healthy_component
             (fun w => (Returns (PDict [("cpu", PInt 3)]), w))))
    (Some healthy_component) (Some healthy_component).

(** ** Dictionaries *)

Lemma dict_get_set_eq {V} (d : list (string * V)) k v :
  dict_get (dict_set d k v) k = Some v.
Proof.
  induction d as [|[k' v'] d IH]; simpl.
  - now rewrite String.eqb_refl.
  - destruct (String.eqb k' k) eqn:E; simpl; rewrite E; auto.
Qed.

Lemma dict_get_set_ne {V} (d : list (string * V)) k k' v :
  k <> k' -> dict_get (dict_set d k v) k' = dict_get d k'.
Proof.
  intros Hne. induction d as [|[k0 v0] d IH]; simpl.
  - destruct (String.eqb k k') eqn:E; auto.
    apply String.eqb_eq in E. contradiction.
  - destruct (String.eqb k0 k) eqn:E; simpl.
    + apply String.eqb_eq in E. subst k0.
      destruct (String.eqb k k') eqn:E'; auto.
      apply String.eqb_eq in E'. contradiction.
    + now rewrite IH.
Qed.

Lemma routing_get_lookup rs task_type default :
  routing_get rs task_type default =
  match routing_lookup rs task_type with Some order => order | None => default end.
Proof.
  induction rs as [|[t order] rs IH]; simpl; auto.
  destruct (TaskType_eqb t task_type); auto.
Qed.

(** Rewriting an entry without touching its flag leaves all flags. *)
Lemma availability_dict_set ps name a a' :
  dict_get ps name = Some a ->
  available (self_of a') = available (self_of a) ->
  availability (dict_set ps name a') = availability ps.
Proof.
  induction ps as [|[k v] ps IH]; simpl; intros Hget Hav; [discriminate|].
  destruct (String.eqb k name) eqn:E; simpl.
  - injection Hget as ->. now rewrite Hav.
  - f_equal. now apply IH.
Qed.

(** ** How the method combinators treat the object *)

Lemma keeps_self_ret {A} (a : A) : keeps_self (ret a).
Proof. now intros self w. Qed.

Lemma keeps_self_raise {A} e : keeps_self (@raise A e).
Proof. now intros self w. Qed.

Lemma keeps_self_lift {A} (o : outcome A) : keeps_self (lift o).
Proof. now intros self w. Qed.

Lemma keeps_self_get_self : keeps_self get_self.
Proof. now intros self w. Qed.

Lemma keeps_self_time_time : keeps_self time_time.
Proof. now intros self w. Qed.

Lemma keeps_self_post s rq : keeps_self (post s rq).
Proof. intros self w. unfold post. now destruct (closed s). Qed.

Lemma keeps_self_bind {A B} (m : Meth A) (k : A -> Meth B) :
  keeps_self m -> (forall a, keeps_self (k a)) -> keeps_self (bind m k).
Proof.
  intros Hm Hk self w. unfold bind. specialize (Hm self w).
  destruct (m self w) as [[[a|e] self'] w']; simpl in *; subst; auto.
  apply Hk.
Qed.

Lemma keeps_self_try {A} (body : Meth A) handler :
  keeps_self body -> (forall e, keeps_self (handler e)) ->
  keeps_self (try_except body handler).
Proof.
  intros Hm Hk self w. unfold try_except. specialize (Hm self w).
  destruct (body self w) as [[[a|e] self'] w']; simpl in *; subst; auto.
  apply Hk.
Qed.

Lemma keeps_self_available {A} (m : Meth A) : keeps_self m -> keeps_available m.
Proof. intros H self w. now rewrite H. Qed.

Lemma keeps_available_bind {A B} (m : Meth A) (k : A -> Meth B) :
  keeps_available m -> (forall a, keeps_available (k a)) -> keeps_available (bind m k).
Proof.
  intros Hm Hk self w. unfold bind. specialize (Hm self w).
  destruct (m self w) as [[[a|e] self'] w']; simpl in *; auto.
  now rewrite Hk.
Qed.

Lemma keeps_available_try {A} (body : Meth A) handler :
  keeps_available body -> (forall e, keeps_available (handler e)) ->
  keeps_available (try_except body handler).
Proof.
  intros Hm Hk self w. unfold try_except. specialize (Hm self w).
  destruct (body self w) as [[[a|e] self'] w']; simpl in *; auto.
  now rewrite Hk.
Qed.

Create HintDb frame.
#[local] Hint Resolve keeps_self_ret keeps_self_raise keeps_self_lift
  keeps_self_get_self keeps_self_time_time keeps_self_post : frame.

(** Walks through a method body built from the combinators. *)
Ltac frame_step :=
  cbv zeta;
  lazymatch goal with
  | |- keeps_self (bind _ _) => apply keeps_self_bind; [|intros]
  | |- keeps_self (try_except _ _) => apply keeps_self_try; [|intros]
  | |- keeps_self (if ?b then _ else _) => destruct b
  | |- keeps_self (match ?x with _ => _ end) => destruct x
  | |- keeps_self _ => solve [auto with frame]
  end.

Ltac frame := repeat frame_step.

Lemma keeps_self_config_item k : keeps_self (config_item k).
Proof. unfold config_item. frame. Qed.

Lemma keeps_self_config_get k d : keeps_self (config_get k d).
Proof. unfold config_get. frame. Qed.

Lemma keeps_self_session_post_attr : keeps_self session_post_attr.
Proof. unfold session_post_attr. frame. Qed.

#[local] Hint Resolve keeps_self_config_item keeps_self_config_get
  keeps_self_session_post_attr : frame.

Lemma keeps_self_usage_total_tokens data default :
  keeps_self default -> keeps_self (usage_total_tokens data default).
Proof. intros H. unfold usage_total_tokens. frame. Qed.

#[local] Hint Resolve keeps_self_usage_total_tokens : frame.

(** No probe and no generation method of the source writes to [self]. *)
Lemma source_test_connection_keeps_self cls :
  source_class cls -> keeps_self (cls_test_connection cls).
Proof.
  intros [ | | | | ]; simpl.
  - frame.
  - unfold GroqProvider.test_connection. frame.
  - unfold MistralCodestralProvider.test_connection. frame.
  - unfold OpenRouterProvider.test_connection. frame.
  - unfold HuggingFaceProvider.test_connection. frame.
Qed.

Lemma source_generate_response_keeps_self cls prompt task_type kwargs :
  source_class cls -> keeps_self (cls_generate_response cls prompt task_type kwargs).
Proof.
  intros [ | | | | ]; simpl.
  - frame.
  - unfold GroqProvider.generate_response. frame.
  - unfold MistralCodestralProvider.generate_response. frame.
  - unfold OpenRouterProvider.generate_response. frame.
  - unfold HuggingFaceProvider.generate_response. frame.
Qed.

(** ** The dispatch loop *)

(** The [try] block, by cases on how the provider's call ends. *)
Lemma attempt_spec cls prompt task_type kwargs self w :
  attempt cls prompt task_type kwargs self w =
  match cls_generate_response cls prompt task_type kwargs self w with
  | (Returns response, self', w') =>
      (Returns (if success response then Some response else None), self', w')
  | (Raises e, self', w') => (Returns None, self', w')
  end.
Proof.
  unfold attempt, try_except, bind, ret.
  destruct (cls_generate_response cls prompt task_type kwargs self w)
    as [[[response|e] self'] w']; auto.
  destruct (success response); auto.
Qed.

Lemma registered_update p name a self' :
  dict_get (providers p) name = Some a ->
  available self' = available (self_of a) ->
  forall n, registered_and_available (update_provider p name a self') n
            = registered_and_available p n.
Proof.
  intros Hget Hav n. unfold registered_and_available, update_provider. simpl.
  destruct (string_dec name n) as [->|Hne].
  - rewrite dict_get_set_eq, Hget. simpl. exact Hav.
  - now rewrite dict_get_set_ne.
Qed.

Lemma registered_classes_update P p name a self' :
  registered_classes P p ->
  dict_get (providers p) name = Some a ->
  registered_classes P (update_provider p name a self').
Proof.
  intros Hst Hget n a0. unfold update_provider. simpl.
  destruct (string_dec name n) as [->|Hne].
  - rewrite dict_get_set_eq. intros [= <-]. simpl. eapply Hst; eauto.
  - rewrite dict_get_set_ne by assumption. apply Hst.
Qed.

Lemma dispatch_stable_update p name a self' :
  dispatch_stable p ->
  dict_get (providers p) name = Some a ->
  dispatch_stable (update_provider p name a self').
Proof. apply registered_classes_update. Qed.

(** The calls of one run of the loop: all of them failed, except that
    the last one succeeded when the loop returns a response; the loop
    itself never raises. *)
Lemma dispatch_calls order : forall prompt task_type kwargs p w r p' w' calls,
  dispatch order prompt task_type kwargs p w = (r, p', w', calls) ->
  match r with
  | Returns None => all_calls_failed calls
  | Returns (Some response) =>
      exists init name,
        calls = init ++ [(name, Returns response)] /\
        success response = true /\ all_calls_failed init
  | Raises _ => False
  end.
Proof.
  induction order as [|name rest IH]; intros prompt task_type kwargs p w r p' w' calls H.
  - injection H as <- _ _ <-. constructor.
  - cbn [dispatch] in H.
    destruct (dict_get (providers p) name) as [a|]; [|now apply IH in H].
    destruct (available (self_of a)); [|now apply IH in H].
    rewrite attempt_spec in H.
    destruct (cls_generate_response (class_of a) prompt task_type kwargs (self_of a) w)
      as [[[response|e] self'] w1]; simpl in H.
    + destruct (success response) eqn:Hs.
      * injection H as <- _ _ <-. exists [], name. repeat split; auto. constructor.
      * destruct (dispatch rest prompt task_type kwargs (update_provider p name a self') w1)
          as [[[r1 p1] w2] calls1] eqn:Hrec.
        injection H as <- _ _ <-. apply IH in Hrec.
        assert (Hfail : call_failed (Returns response) = true) by (simpl; now rewrite Hs).
        destruct r1 as [[resp|]|e]; auto.
        -- destruct Hrec as (init & n & -> & Hsucc & Hinit).
           exists ((name, Returns response) :: init), n. repeat split; auto.
           constructor; auto.
        -- constructor; auto.
    + destruct (dispatch rest prompt task_type kwargs (update_provider p name a self') w1)
        as [[[r1 p1] w2] calls1] eqn:Hrec.
      injection H as <- _ _ <-. apply IH in Hrec.
      destruct r1 as [[resp|]|e']; auto.
      -- destruct Hrec as (init & n & -> & Hsucc & Hinit).
         exists ((name, Raises e) :: init), n. repeat split; auto.
         constructor; auto.
      -- constructor; auto.
Qed.

Lemma registered_update_other p name a self' n :
  n <> name ->
  registered_and_available (update_provider p name a self') n
  = registered_and_available p n.
Proof.
  intros Hne. unfold registered_and_available, update_provider. simpl.
  rewrite dict_get_set_ne; auto.
Qed.

(** The names called are an initial part of the registered, available
    names of the order, and all of them once the loop falls through. *)
Lemma dispatch_order order : forall prompt task_type kwargs p w r p' w' calls,
  NoDup order \/ dispatch_stable p ->
  dispatch order prompt task_type kwargs p w = (r, p', w', calls) ->
  exists later,
    filter (registered_and_available p) order = map fst calls ++ later /\
    (r = Returns None -> later = []).
Proof.
  induction order as [|name rest IH]; intros prompt task_type kwargs p w r p' w' calls Hfix H.
  - injection H as <- _ _ <-. exists []. split; auto.
  - assert (Hrest : NoDup rest \/ dispatch_stable p).
    { destruct Hfix as [Hnd|Hst]; [left; now inversion Hnd|now right]. }
    cbn [dispatch filter] in H |- *. unfold registered_and_available at 1.
    destruct (dict_get (providers p) name) as [a|] eqn:Hget; [|eauto].
    destruct (available (self_of a)) eqn:Hav; [|eauto].
    rewrite attempt_spec in H.
    assert (Hnext : forall self' w1 r1 p1 w2 calls1,
               self' = snd (fst (cls_generate_response (class_of a) prompt task_type
                                   kwargs (self_of a) w)) ->
               dispatch rest prompt task_type kwargs (update_provider p name a self') w1
               = (r1, p1, w2, calls1) ->
               exists later,
                 filter (registered_and_available p) rest = map fst calls1 ++ later /\
                 (r1 = Returns None -> later = [])).
    { intros self' w1 r1 p1 w2 calls1 Hself Hrec.
      assert (Hsame : forall n, In n rest ->
                 registered_and_available (update_provider p name a self') n
                 = registered_and_available p n).
      { intros n Hin. destruct Hfix as [Hnd|Hst].
        - apply registered_update_other. inversion Hnd; subst. congruence.
        - apply registered_update; auto. subst self'.
          apply (Hst _ _ Hget prompt task_type kwargs (self_of a) w). }
      apply IH in Hrec.
      - now rewrite (filter_ext_in _ _ _ Hsame) in Hrec.
      - destruct Hrest as [Hnd|Hst]; [now left|right].
        now apply dispatch_stable_update. }
    destruct (cls_generate_response (class_of a) prompt task_type kwargs (self_of a) w)
      as [[[response|e] self'] w1]; simpl in H, Hnext.
    + destruct (success response) eqn:Hs.
      * injection H as <- _ _ <-. exists (filter (registered_and_available p) rest).
        split; [reflexivity|discriminate].
      * destruct (dispatch rest prompt task_type kwargs (update_provider p name a self') w1)
          as [[[r1 p1] w2] calls1] eqn:Hrec.
        injection H as <- _ _ <-.
        destruct (Hnext _ _ _ _ _ _ eq_refl Hrec) as (later & Hfilter & Hr).
        exists later. split; [simpl; now rewrite Hfilter|auto].
    + destruct (dispatch rest prompt task_type kwargs (update_provider p name a self') w1)
        as [[[r1 p1] w2] calls1] eqn:Hrec.
      injection H as <- _ _ <-.
      destruct (Hnext _ _ _ _ _ _ eq_refl Hrec) as (later & Hfilter & Hr).
      exists later. split; [simpl; now rewrite Hfilter|auto].
Qed.

(** With no registered, available name in the order no call is made. *)
Lemma dispatch_nobody order : forall prompt task_type kwargs p w,
  filter (registered_and_available p) order = [] ->
  dispatch order prompt task_type kwargs p w = (Returns None, p, w, []).
Proof.
  induction order as [|name rest IH]; intros prompt task_type kwargs p w H; auto.
  cbn [dispatch filter] in H |- *. unfold registered_and_available in H at 1.
  destruct (dict_get (providers p) name) as [a|]; [|auto].
  destruct (available (self_of a)); [discriminate|auto].
Qed.

Lemma effective_order_routing p task_type :
  effective_order p task_type
  = filter (registered_and_available p) (routing_order_for p task_type).
Proof. unfold effective_order, routing_order_for. now rewrite routing_get_lookup. Qed.

(** [generate_response] in terms of its loop. *)
Lemma generate_response_dispatch prompt task_type kwargs p w r p' w' calls :
  generate_response prompt task_type kwargs p w = (r, p', w', calls) ->
  exists r0,
    dispatch (routing_order_for p task_type) prompt task_type kwargs p w
    = (r0, p', w', calls) /\
    r = match r0 with
        | Returns (Some response) => Returns response
        | Returns None => Returns all_failed
        | Raises e => Raises e
        end.
Proof.
  unfold generate_response.
  destruct (dispatch (routing_order_for p task_type) prompt task_type kwargs p w)
    as [[[[[response|]|e] p1] w1] calls1]; intros [= <- <- <- <-]; eauto.
Qed.

Lemma dict_get_In {V} (d : list (string * V)) k v :
  dict_get d k = Some v -> In (k, v) d.
Proof.
  induction d as [|[k' v'] d IH]; simpl; [discriminate|].
  destruct (String.eqb k' k) eqn:E.
  - apply String.eqb_eq in E. intros [= ->]. left. now subst.
  - auto.
Qed.

(** Pipelines over the source's classes are stable under dispatch. *)
Lemma source_adapters_stable p : source_adapters p -> dispatch_stable p.
Proof.
  intros Hsrc name a Hget prompt task_type kwargs.
  apply keeps_self_available, source_generate_response_keeps_self.
  apply dict_get_In in Hget.
  exact (proj1 (Forall_forall _ _) Hsrc _ Hget).
Qed.

Lemma failed_call_not_success (calls : list Call) i name response :
  all_calls_failed calls ->
  nth_error calls i = Some (name, Returns response) ->
  success response = false.
Proof.
  intros Hall Hnth. apply nth_error_In in Hnth.
  apply (proj1 (Forall_forall _ _) Hall) in Hnth. simpl in Hnth.
  now destruct (success response).
Qed.

(** [generate_response] always returns a response. *)
Lemma generate_response_returns prompt task_type kwargs p w r p' w' calls :
  generate_response prompt task_type kwargs p w = (r, p', w', calls) ->
  exists response, r = Returns response.
Proof.
  intros H. apply generate_response_dispatch in H as (r0 & Hd & ->).
  apply dispatch_calls in Hd. destruct r0 as [[response|]|e]; [eauto|eauto|contradiction].
Qed.

(** The names called, against the effective dispatch order. *)
Lemma generate_response_order prompt task_type kwargs p w r p' w' calls :
  order_settled p task_type ->
  generate_response prompt task_type kwargs p w = (r, p', w', calls) ->
  exists later,
    effective_order p task_type = map fst calls ++ later /\
    (all_calls_failed calls -> later = []).
Proof.
  intros Hst H. apply generate_response_dispatch in H as (r0 & Hd & _).
  rewrite effective_order_routing.
  pose proof (dispatch_calls _ _ _ _ _ _ _ _ _ _ Hd) as Hcalls.
  apply dispatch_order in Hd as (later & Hfilter & Hnone); [|assumption].
  exists later. split; [assumption|]. intros Hall.
  destruct r0 as [[response|]|e]; [|auto|contradiction].
  destruct Hcalls as (init & name & -> & Hsucc & _).
  assert (Hf : success response = false).
  { apply (failed_call_not_success _ (List.length init) name _ Hall).
    now rewrite nth_error_app2, Nat.sub_diag by lia. }
  congruence.
Qed.

(** With the routing table of the source the order is settled for
    every task type, whatever the adapters are. *)
Lemma constructed_order_settled config ps task_type :
  order_settled (mkMultiModelPipeline config ps _create_routing_strategy) task_type.
Proof.
  left. destruct task_type; vm_compute;
    repeat (constructor; [simpl; intuition discriminate|]); constructor.
Qed.

(** So it is for a task type the table has no entry for. *)
Lemma default_order_settled p task_type :
  routing_lookup (routing_strategy p) task_type = None ->
  order_settled p task_type.
Proof.
  intros Hnone. left. unfold routing_order_for. rewrite routing_get_lookup, Hnone.
  repeat (constructor; [simpl; intuition discriminate|]); constructor.
Qed.

(** C1: for every task type, the adapters whose [generate_response]
    the pipeline invokes are, in order, those of the routing table's
    list for that type (the default pair ["groq"; "openrouter"] if the
    type has no entry) that are registered and whose sticky flag is
    set: the names called are an initial part of that filtered list,
    and the whole of it when no call succeeds.  The filtered list is
    the one at the time of the request; it is a fixed list because the
    routing order names nobody twice, or because no adapter writes its
    flag while generating. *)
Theorem C1_effective_dispatch_order
    prompt task_type kwargs p w r p' w' calls :
  order_settled p task_type ->
  generate_response prompt task_type kwargs p w = (r, p', w', calls) ->
  (exists later, effective_order p task_type = map fst calls ++ later) /\
  (all_calls_failed calls -> map fst calls = effective_order p task_type).
Proof.
  intros Hst H.
  destruct (generate_response_order _ _ _ _ _ _ _ _ _ Hst H) as (later & Heq & Hall).
  split; [eauto|]. intros Hf. rewrite Heq, (Hall Hf). now rewrite app_nil_r.
Qed.

(** C2: if a call of the pipeline to an adapter, the one at position
    [i] of the effective dispatch order, returns a response with
    [success], that response is what [generate_response] returns, and
    no call is made at any later position. *)
Theorem C2_short_circuit
    prompt task_type kwargs p w r p' w' calls i name response :
  generate_response prompt task_type kwargs p w = (r, p', w', calls) ->
  nth_error calls i = Some (name, Returns response) ->
  success response = true ->
  r = Returns response /\
  (forall j, (i < j)%nat -> nth_error calls j = None) /\
  (order_settled p task_type ->
   nth_error (effective_order p task_type) i = Some name).
Proof.
  intros H Hnth Hsucc.
  assert (Hpos : order_settled p task_type ->
                 nth_error (effective_order p task_type) i = Some name).
  { intros Hst.
    destruct (generate_response_order _ _ _ _ _ _ _ _ _ Hst H) as (later & -> & _).
    assert (Hlt : (i < List.length (map fst calls))%nat).
    { rewrite length_map. apply nth_error_Some. intros Hn.
      pose proof (eq_trans (eq_sym Hn) Hnth) as Habs. discriminate Habs. }
    rewrite nth_error_app1 by assumption.
    now rewrite nth_error_map, Hnth. }
  apply generate_response_dispatch in H as (r0 & Hd & ->).
  apply dispatch_calls in Hd.
  destruct r0 as [[resp|]|e]; [| |contradiction].
  - destruct Hd as (init & n & -> & _ & Hinit).
    destruct (Nat.lt_ge_cases i (List.length init)) as [Hlt|Hge].
    + rewrite nth_error_app1 in Hnth by assumption.
      pose proof (failed_call_not_success _ _ _ _ Hinit Hnth). congruence.
    + rewrite nth_error_app2 in Hnth by assumption.
      destruct (i - List.length init)%nat as [|k] eqn:Hk; simpl in Hnth;
        [|destruct k; discriminate].
      injection Hnth as -> ->.
      repeat split; auto.
      intros j Hj. apply nth_error_None. rewrite length_app. simpl. lia.
  - pose proof (failed_call_not_success _ _ _ _ Hd Hnth). congruence.
Qed.

(** C3 (as amended): if every call the pipeline made for the request
    failed, and in particular if the effective dispatch order is empty
    so that no call is made, [generate_response] returns the synthetic
    failure: no [success], provider and model ["none"], empty content,
    and the error ["All providers failed or unavailable"]. *)
Theorem C3_total_exhaustion
    prompt task_type kwargs p w r p' w' calls :
  generate_response prompt task_type kwargs p w = (r, p', w', calls) ->
  (effective_order p task_type = [] -> calls = []) /\
  (all_calls_failed calls ->
   synthetic_failure "All providers failed or unavailable" r).
Proof.
  intros H. split.
  - intros Hnil. rewrite effective_order_routing in Hnil.
    unfold generate_response in H.
    rewrite (dispatch_nobody _ prompt task_type kwargs p w Hnil) in H.
    now injection H.
  - intros Hall. apply generate_response_dispatch in H as (r0 & Hd & ->).
    apply dispatch_calls in Hd.
    destruct r0 as [[response|]|e]; [| |contradiction].
    + destruct Hd as (init & name & -> & Hsucc & _).
      assert (Hf : success response = false).
      { apply (failed_call_not_success _ (List.length init) name _ Hall).
        now rewrite nth_error_app2, Nat.sub_diag by lia. }
      congruence.
    + exists all_failed. repeat split.
Qed.

(** C4: if a call of the pipeline to an adapter's [generate_response]
    raises, the exception does not reach the caller of the pipeline,
    which still gets a response, and the next adapter of the effective
    dispatch order, if there is one, is called. *)
Theorem C4_fault_containment
    prompt task_type kwargs p w r p' w' calls i name e :
  generate_response prompt task_type kwargs p w = (r, p', w', calls) ->
  nth_error calls i = Some (name, Raises e) ->
  (exists response, r = Returns response) /\
  (order_settled p task_type ->
   forall next, nth_error (effective_order p task_type) (S i) = Some next ->
                exists o, nth_error calls (S i) = Some (next, o)).
Proof.
  intros H Hnth. split; [eapply generate_response_returns; eauto|].
  intros Hst next Hnext.
  apply generate_response_dispatch in H as (r0 & Hd & _).
  rewrite effective_order_routing in Hnext.
  pose proof (dispatch_calls _ _ _ _ _ _ _ _ _ _ Hd) as Hcalls.
  apply dispatch_order in Hd as (later & Hfilter & Hnone); [|assumption].
  rewrite Hfilter in Hnext.
  assert (Hlen : (S i < List.length calls)%nat).
  { destruct r0 as [[response|]|e0]; [| |contradiction].
    - destruct Hcalls as (init & n & -> & _ & _).
      rewrite length_app. simpl.
      destruct (Nat.lt_ge_cases i (List.length init)) as [Hlt|Hge]; [lia|].
      rewrite nth_error_app2 in Hnth by assumption.
      destruct (i - List.length init)%nat as [|k]; simpl in Hnth;
        [discriminate|destruct k; discriminate].
    - rewrite (Hnone eq_refl), app_nil_r in Hnext.
      rewrite <- (length_map fst). apply nth_error_Some. congruence. }
  rewrite nth_error_app1 in Hnext by now rewrite length_map.
  rewrite nth_error_map in Hnext.
  destruct (nth_error calls (S i)) as [[n o]|]; [|discriminate].
  injection Hnext as <-. eauto.
Qed.

Lemma quad_eta {A B C D} (x : A * B * C * D) :
  x = (fst (fst (fst x)), snd (fst (fst x)), snd (fst x), snd x).
Proof. now destruct x as [[[a b] c] d]. Qed.

Lemma pipeline_two_source : source_adapters pipeline_two.
Proof. repeat constructor. Qed.

Lemma pipeline_partial_source : source_adapters pipeline_partial.
Proof. repeat constructor. Qed.

(** Both providers are tried, in the order of the table, when the
    network is down. *)
Lemma C1_witness :
  let run := generate_response "ping" FAST_QUERY [] pipeline_two world_down in
  order_settled pipeline_two FAST_QUERY /\
  map fst (snd run) = ["groq"; "openrouter"] /\
  (exists later, effective_order pipeline_two FAST_QUERY = map fst (snd run) ++ later) /\
  (all_calls_failed (snd run) ->
   map fst (snd run) = effective_order pipeline_two FAST_QUERY).
Proof.
  intros run.
  assert (Hfix : order_settled pipeline_two FAST_QUERY)
    by (right; exact (source_adapters_stable _ pipeline_two_source)).
  split; [exact Hfix|].
  split; [vm_compute; reflexivity|].
  exact (C1_effective_dispatch_order "ping" FAST_QUERY [] pipeline_two world_down
           _ _ _ _ Hfix (quad_eta run)).
Defined.

(** A task type without an entry in the table is served in the default
    order, whatever the order of registration. *)
Lemma default_order_used :
  effective_order pipeline_untabled WEB_AUTOMATION = ["groq"; "openrouter"] /\
  map fst (snd (generate_response "ping" WEB_AUTOMATION [] pipeline_untabled world_down))
  = ["groq"; "openrouter"].
Proof. split; vm_compute; reflexivity. Qed.

(** Scenario B: Groq's flag is down, so it is skipped although the
    table names it. *)
Lemma unavailable_skipped :
  routing_order_for pipeline_mixed WEB_AUTOMATION = ["huggingface"; "groq"] /\
  effective_order pipeline_mixed WEB_AUTOMATION = ["huggingface"] /\
  map fst (snd (generate_response "ping" WEB_AUTOMATION [] pipeline_mixed world_up))
  = ["huggingface"].
Proof. repeat split; vm_compute; reflexivity. Qed.

(** Scenario A: Groq answers, OpenRouter is never called. *)
Lemma C2_witness :
  let run := generate_response "ping" FAST_QUERY [] pipeline_two world_up in
  let response :=
    mkModelResponse (PStr "done") (PStr "llama-3.3-70b-versatile") "groq" 0
      (PInt 7) 0.9 true None in
  nth_error (snd run) 0 = Some ("groq", Returns response) /\
  success response = true /\
  fst (fst (fst run)) = Returns response /\
  (forall j, (0 < j)%nat -> nth_error (snd run) j = None) /\
  (order_settled pipeline_two FAST_QUERY ->
   nth_error (effective_order pipeline_two FAST_QUERY) 0 = Some "groq").
Proof.
  intros run response.
  assert (Hcall : nth_error (snd run) 0 = Some ("groq", Returns response))
    by (vm_compute; reflexivity).
  split; [exact Hcall|]. split; [reflexivity|].
  exact (C2_short_circuit "ping" FAST_QUERY [] pipeline_two world_up
           _ _ _ _ 0%nat "groq" response (quad_eta run) Hcall eq_refl).
Defined.

(** With the network down both calls fail and the synthetic failure
    comes back. *)
Lemma C3_witness :
  let run := generate_response "ping" GENERAL [] pipeline_two world_down in
  all_calls_failed (snd run) /\
  (effective_order pipeline_two GENERAL = [] -> snd run = []) /\
  (all_calls_failed (snd run) ->
   synthetic_failure "All providers failed or unavailable" (fst (fst (fst run)))).
Proof.
  intros run.
  split; [vm_compute; repeat constructor|].
  exact (C3_total_exhaustion "ping" GENERAL [] pipeline_two world_down
           _ _ _ _ (quad_eta run)).
Defined.

(** With nothing configured the effective order is empty, and the
    error of the response is not the lower-case text. *)
Lemma C3_counterexample :
  let run := generate_response "ping" GENERAL [] pipeline_empty world_down in
  effective_order pipeline_empty GENERAL = [] /\
  all_calls_failed (snd run) /\
  ~ synthetic_failure "all providers failed or unavailable" (fst (fst (fst run))).
Proof.
  intros run. split; [reflexivity|]. split; [constructor|].
  intros (response & Hr & _ & _ & _ & _ & Herr).
  vm_compute in Hr. injection Hr as <-. vm_compute in Herr. discriminate Herr.
Qed.

(** Scenario D: Groq has no ["code"] model configured and raises a
    [KeyError]; OpenRouter is called next and answers. *)
Lemma C4_witness :
  let run := generate_response "ping" GENERAL [] pipeline_partial world_up in
  nth_error (snd run) 0 = Some ("groq", Raises (KeyError "code")) /\
  (exists response, fst (fst (fst run)) = Returns response) /\
  (order_settled pipeline_partial GENERAL ->
   forall next, nth_error (effective_order pipeline_partial GENERAL) 1 = Some next ->
                exists o, nth_error (snd run) 1 = Some (next, o)).
Proof.
  intros run.
  assert (Hcall : nth_error (snd run) 0 = Some ("groq", Raises (KeyError "code")))
    by (vm_compute; reflexivity).
  split; [exact Hcall|].
  exact (C4_fault_containment "ping" GENERAL [] pipeline_partial world_up
           _ _ _ _ 0%nat "groq" (KeyError "code") (quad_eta run) Hcall).
Defined.

(** ** Well-formed responses *)

Lemma returns_only_ret {A} (a : A) (Q : A -> Prop) : Q a -> returns_only (ret a) Q.
Proof. intros H self w a' [= <-]. exact H. Qed.

Lemma returns_only_raise {A} e (Q : A -> Prop) : returns_only (raise e) Q.
Proof. intros self w a [=]. Qed.

Lemma returns_only_bind {A B} (m : Meth A) (k : A -> Meth B) (Q : B -> Prop) :
  (forall a, returns_only (k a) Q) -> returns_only (bind m k) Q.
Proof.
  intros Hk self w b. unfold bind.
  destruct (m self w) as [[[a|e] self'] w']; [apply Hk|discriminate].
Qed.

Lemma returns_only_try {A} (body : Meth A) handler (Q : A -> Prop) :
  returns_only body Q -> (forall e, returns_only (handler e) Q) ->
  returns_only (try_except body handler) Q.
Proof.
  intros Hb Hh self w a. unfold try_except. specialize (Hb self w).
  destruct (body self w) as [[[a'|e] self'] w']; [apply Hb|apply Hh].
Qed.

Lemma well_formed_failure model provider_name elapsed tokens conf message :
  well_formed (mkModelResponse (PStr "") model provider_name elapsed tokens conf
                 false (Some message)).
Proof. split; simpl; [split; [reflexivity|discriminate]|discriminate]. Qed.

Lemma well_formed_success text model provider_name elapsed tokens conf :
  well_formed (mkModelResponse text model provider_name elapsed tokens conf true None).
Proof. split; simpl; [discriminate|reflexivity]. Qed.

(** Walks to every [ret] of a method body and checks the response there. *)
Ltac responses_step :=
  cbv zeta;
  lazymatch goal with
  | |- returns_only (bind _ _) _ => apply returns_only_bind; intros
  | |- returns_only (try_except _ _) _ => apply returns_only_try; [|intros]
  | |- returns_only (if ?b then _ else _) _ => destruct b
  | |- returns_only (raise _) _ => apply returns_only_raise
  | |- returns_only (ret _) _ =>
      apply returns_only_ret;
      first [apply well_formed_failure | apply well_formed_success]
  end.

Ltac responses := repeat responses_step.

Lemma source_generates_well_formed cls :
  source_class cls -> generates_well_formed cls.
Proof.
  intros [ | | | | ] prompt task_type kwargs; simpl.
  - responses.
  - unfold GroqProvider.generate_response. responses.
  - unfold MistralCodestralProvider.generate_response. responses.
  - unfold OpenRouterProvider.generate_response. responses.
  - unfold HuggingFaceProvider.generate_response. responses.
Qed.

(** Every response a call of the loop got back comes from the class of
    a registered adapter. *)
Lemma dispatch_calls_from (Q : ModelResponse -> Prop) order :
  forall prompt task_type kwargs p w r p' w' calls,
    registered_classes
      (fun cls => forall prompt task_type kwargs,
           returns_only (cls_generate_response cls prompt task_type kwargs) Q) p ->
    dispatch order prompt task_type kwargs p w = (r, p', w', calls) ->
    Forall (fun c => forall response, snd c = Returns response -> Q response) calls.
Proof.
  induction order as [|name rest IH]; intros prompt task_type kwargs p w r p' w' calls Hcls H.
  - injection H as _ _ _ <-. constructor.
  - cbn [dispatch] in H.
    destruct (dict_get (providers p) name) as [a|] eqn:Hget; [|now apply IH in H].
    destruct (available (self_of a)); [|now apply IH in H].
    rewrite attempt_spec in H.
    pose proof (Hcls _ _ Hget prompt task_type kwargs (self_of a) w) as Hq.
    assert (Hnext : forall self', registered_classes
              (fun cls => forall prompt task_type kwargs,
                   returns_only (cls_generate_response cls prompt task_type kwargs) Q)
              (update_provider p name a self'))
      by (intros self'; now apply registered_classes_update).
    destruct (cls_generate_response (class_of a) prompt task_type kwargs (self_of a) w)
      as [[[response|e] self'] w1]; simpl in H, Hq.
    + assert (Hhead : forall response', Returns response = Returns response' -> Q response')
        by (intros response' Heq; now apply Hq).
      destruct (success response).
      * injection H as _ _ _ <-. constructor; [exact Hhead|constructor].
      * destruct (dispatch rest prompt task_type kwargs (update_provider p name a self') w1)
          as [[[r1 p1] w2] calls1] eqn:Hrec.
        injection H as _ _ _ <-. constructor; [exact Hhead|].
        eapply IH; [apply Hnext|exact Hrec].
    + destruct (dispatch rest prompt task_type kwargs (update_provider p name a self') w1)
        as [[[r1 p1] w2] calls1] eqn:Hrec.
      injection H as _ _ _ <-. constructor; [intros response; discriminate|].
      eapply IH; [apply Hnext|exact Hrec].
Qed.

Lemma source_adapters_registered P p :
  (forall cls, source_class cls -> P cls) ->
  source_adapters p -> registered_classes P p.
Proof.
  intros HP Hsrc name a Hget. apply HP.
  apply dict_get_In in Hget.
  exact (proj1 (Forall_forall _ _) Hsrc _ Hget).
Qed.

(** C5: every response that the [generate_response] of a provider
    class of the source returns, and every response that the
    pipeline's [generate_response] returns over such providers, is
    well formed: without [success] its content is empty and its error
    is set, with [success] its error is [None]. *)
Theorem C5_response_well_formed :
  (forall cls prompt task_type kwargs self w response,
      source_class cls ->
      fst (fst (cls_generate_response cls prompt task_type kwargs self w))
      = Returns response ->
      well_formed response) /\
  (forall prompt task_type kwargs p w r p' w' calls response,
      source_adapters p ->
      generate_response prompt task_type kwargs p w = (r, p', w', calls) ->
      r = Returns response ->
      well_formed response).
Proof.
  split.
  - intros cls prompt task_type kwargs self w response Hsrc Hret.
    exact (source_generates_well_formed cls Hsrc prompt task_type kwargs self w _ Hret).
  - intros prompt task_type kwargs p w r p' w' calls response Hsrc H ->.
    apply generate_response_dispatch in H as (r0 & Hd & Hr).
    pose proof (dispatch_calls _ _ _ _ _ _ _ _ _ _ Hd) as Hcalls.
    apply (dispatch_calls_from well_formed) in Hd;
      [|exact (source_adapters_registered _ p source_generates_well_formed Hsrc)].
    destruct r0 as [[resp|]|e]; [| |contradiction].
    + injection Hr as ->.
      destruct Hcalls as (init & name & -> & _ & _).
      apply Forall_app in Hd as [_ Hlast].
      inversion Hlast as [|c l Hc _]; subst. now apply Hc.
    + injection Hr as ->. apply well_formed_failure.
Qed.

(** A failed Groq call and the exhausted pipeline, with the network down. *)
Lemma C5_witness :
  let call :=
    cls_generate_response GroqProvider.class "ping" GENERAL []
      (self_of (ready GroqProvider.class "groq" groq_config)) world_down in
  let run := generate_response "ping" GENERAL [] pipeline_two world_down in
  (exists response,
      fst (fst call) = Returns response /\ success response = false /\
      well_formed response) /\
  (exists response,
      fst (fst (fst run)) = Returns response /\ well_formed response).
Proof.
  intros call run. split.
  - eexists. split; [vm_compute; reflexivity|]. split; [reflexivity|].
    refine (proj1 C5_response_well_formed GroqProvider.class "ping" GENERAL []
              (self_of (ready GroqProvider.class "groq" groq_config)) world_down
              _ source_groq _).
    vm_compute; reflexivity.
  - eexists. split; [vm_compute; reflexivity|].
    eapply (proj2 C5_response_well_formed "ping" GENERAL [] pipeline_two world_down
              _ _ _ _ _ pipeline_two_source (quad_eta run)).
    vm_compute; reflexivity.
Defined.

(** ** The loops over the registry *)

Lemma Forall_dict_set {V} (P : V -> Prop) (d : list (string * V)) k v :
  Forall (fun kv => P (snd kv)) d -> P v ->
  Forall (fun kv => P (snd kv)) (dict_set d k v).
Proof.
  intros Hd Hv. induction Hd as [|[k' v'] d Hx Hd IH]; simpl.
  - repeat constructor. exact Hv.
  - destruct (String.eqb k' k); constructor; auto.
Qed.

(** A loop whose body leaves the flag alone, on every object it runs
    on, leaves all flags alone. *)
Lemma for_items_availability {Acc} (body : string -> ProviderClass -> Acc -> Meth Acc)
    items : forall acc w,
  Forall (fun na => forall acc, keeps_available (body (fst na) (class_of (snd na)) acc))
    items ->
  availability (snd (fst (for_items body items acc w))) = availability items.
Proof.
  induction items as [|[name a] rest IH]; intros acc w Hall; [reflexivity|].
  inversion Hall as [|x l Hhead Hrest]; subst. simpl in Hhead.
  cbn [for_items]. specialize (Hhead acc (self_of a) w).
  destruct (body name (class_of a) acc (self_of a) w) as [[[acc'|e] self'] w'];
    simpl in Hhead.
  - specialize (IH acc' w' Hrest).
    destruct (for_items body rest acc' w') as [[r rest'] w''].
    simpl in *. now rewrite Hhead, IH.
  - simpl. now rewrite Hhead.
Qed.

(** No loop changes the class of an object. *)
Lemma for_items_classes {Acc} (P : ProviderClass -> Prop)
    (body : string -> ProviderClass -> Acc -> Meth Acc) items : forall acc w,
  Forall (fun na => P (class_of (snd na))) items ->
  Forall (fun na => P (class_of (snd na))) (snd (fst (for_items body items acc w))).
Proof.
  induction items as [|[name a] rest IH]; intros acc w Hall; [constructor|].
  inversion Hall as [|x l Hhead Hrest]; subst.
  cbn [for_items].
  destruct (body name (class_of a) acc (self_of a) w) as [[[acc'|e] self'] w'].
  - specialize (IH acc' w' Hrest).
    destruct (for_items body rest acc' w') as [[r rest'] w''].
    simpl in *. constructor; auto.
  - simpl. constructor; auto.
Qed.

Lemma keeps_available_cleanup : keeps_available cleanup.
Proof.
  intros self w. unfold cleanup, bind, get_self, set_session, ret.
  now destruct (session self).
Qed.

Lemma health_body_keeps_self name cls acc :
  keeps_self (cls_test_connection cls) -> keeps_self (health_body name cls acc).
Proof. intros H. unfold health_body. destruct acc as [hs probes]. frame. Qed.

Lemma connectivity_body_keeps_self name cls acc :
  keeps_self (cls_test_connection cls) -> keeps_self (connectivity_body name cls acc).
Proof. intros H. unfold connectivity_body. frame. Qed.

Lemma source_adapters_body {Acc} (body : string -> ProviderClass -> Acc -> Meth Acc) ps :
  (forall name cls acc, source_class cls -> keeps_available (body name cls acc)) ->
  Forall (fun na => source_class (class_of (snd na))) ps ->
  Forall (fun na => forall acc, keeps_available (body (fst na) (class_of (snd na)) acc)) ps.
Proof.
  intros Hbody Hsrc. eapply Forall_impl; [|exact Hsrc].
  intros [name a] Hcls acc. now apply Hbody.
Qed.

(** The dispatch loop writes no flag either. *)
Lemma dispatch_availability order : forall prompt task_type kwargs p w r p' w' calls,
  source_adapters p ->
  dispatch order prompt task_type kwargs p w = (r, p', w', calls) ->
  availability (providers p') = availability (providers p) /\ source_adapters p'.
Proof.
  induction order as [|name rest IH]; intros prompt task_type kwargs p w r p' w' calls Hsrc H.
  - injection H as _ <- _ _. auto.
  - cbn [dispatch] in H.
    destruct (dict_get (providers p) name) as [a|] eqn:Hget; [|now apply IH in H].
    destruct (available (self_of a)); [|now apply IH in H].
    rewrite attempt_spec in H.
    assert (Hcls : source_class (class_of a)).
    { apply dict_get_In in Hget. exact (proj1 (Forall_forall _ _) Hsrc _ Hget). }
    pose proof (source_generate_response_keeps_self _ prompt task_type kwargs Hcls
                  (self_of a) w) as Hkeep.
    assert (Hup : forall self', self' = self_of a ->
               availability (providers (update_provider p name a self'))
               = availability (providers p)
               /\ source_adapters (update_provider p name a self')).
    { intros self' ->. split.
      - apply (availability_dict_set _ _ a); auto.
      - apply (Forall_dict_set (fun a => source_class (class_of a))); auto. }
    destruct (cls_generate_response (class_of a) prompt task_type kwargs (self_of a) w)
      as [[[response|e] self'] w1]; simpl in H, Hkeep;
      destruct (Hup _ Hkeep) as [Hav Hsrc'].
    + destruct (success response).
      * injection H as _ <- _ _. auto.
      * destruct (dispatch rest prompt task_type kwargs (update_provider p name a self') w1)
          as [[[r1 p1] w2] calls1] eqn:Hrec.
        injection H as _ <- _ _.
        apply IH in Hrec as [Hav1 Hsrc1]; [|assumption]. split; congruence.
    + destruct (dispatch rest prompt task_type kwargs (update_provider p name a self') w1)
        as [[[r1 p1] w2] calls1] eqn:Hrec.
      injection H as _ <- _ _.
      apply IH in Hrec as [Hav1 Hsrc1]; [|assumption]. split; congruence.
Qed.

(** Every request other than [initialise] leaves the flags alone. *)
Lemma perform_availability op p w :
  source_adapters p ->
  availability (providers (fst (perform op (p, w)))) = availability (providers p) /\
  source_adapters (fst (perform op (p, w))).
Proof.
  intros Hsrc. destruct op as [prompt task_type kwargs| | | ]; cbn [perform].
  - destruct (generate_response prompt task_type kwargs p w) as [[[r p'] w'] calls] eqn:H.
    apply generate_response_dispatch in H as (r0 & Hd & _).
    now apply dispatch_availability in Hd.
  - unfold health_check.
    pose proof (for_items_availability health_body (providers p)
                  (mkHealthStatus (Z.of_nat (List.length (providers p))) 0 [], []) w) as Hav.
    pose proof (for_items_classes source_class health_body (providers p)
                  (mkHealthStatus (Z.of_nat (List.length (providers p))) 0 [], []) w Hsrc)
      as Hcls.
    destruct (for_items health_body (providers p) _ w) as [[[[hs probes]|e] ps'] w'];
      simpl in *; (split; [apply Hav|exact Hcls]);
      apply source_adapters_body; auto; intros;
      apply keeps_self_available, health_body_keeps_self,
        source_test_connection_keeps_self; assumption.
  - unfold check_api_connectivity.
    pose proof (for_items_availability connectivity_body (providers p) [] w) as Hav.
    pose proof (for_items_classes source_class connectivity_body (providers p) [] w Hsrc)
      as Hcls.
    destruct (for_items connectivity_body (providers p) [] w) as [[r ps'] w'];
      simpl in *. split; [apply Hav|exact Hcls].
    apply source_adapters_body; auto; intros.
    apply keeps_self_available, connectivity_body_keeps_self,
      source_test_connection_keeps_self; assumption.
  - unfold shutdown.
    pose proof (for_items_availability (fun _ _ (_ : unit) => cleanup) (providers p) tt w)
      as Hav.
    pose proof (for_items_classes source_class (fun _ _ (_ : unit) => cleanup)
                  (providers p) tt w Hsrc) as Hcls.
    destruct (for_items (fun _ _ (_ : unit) => cleanup) (providers p) tt w)
      as [[r ps'] w']; simpl in *. split; [apply Hav|exact Hcls].
    apply Forall_forall. intros na _ acc. apply keeps_available_cleanup.
Qed.

(** [health_check] has no [try] of its own, where
    [check_api_connectivity] has one: on a registry put together by
    hand, with an available adapter of a class that inherits
    [test_connection] from [ModelProvider], the probe's
    [NotImplementedError] goes through the first and is recorded by
    the second. *)
Lemma unprobed_adapter_propagates w :
  fst (fst (health_check pipeline_unprobed w)) = Raises NotImplementedError /\
  fst (fst (check_api_connectivity pipeline_unprobed w))
  = Returns [("custom", mkConnectivity false (Some ""))].
Proof. split; reflexivity. Qed.

(** C7: the probes of the source's provider classes do not write the
    sticky flag, and whatever requests other than [initialise] are made
    to a pipeline over these classes -- health checks, connectivity
    checks, generation requests, shutdowns, in any order and number --
    the flags of all adapters stay as they were. *)
Theorem C7_sticky_availability :
  (forall cls, source_class cls -> keeps_available (cls_test_connection cls)) /\
  (forall ops p w,
      source_adapters p ->
      availability (providers (fst (perform_all ops (p, w))))
      = availability (providers p)).
Proof.
  split.
  - intros cls Hsrc. now apply keeps_self_available, source_test_connection_keeps_self.
  - induction ops as [|op ops IH]; intros p w Hsrc; [reflexivity|].
    unfold perform_all in *. cbn [fold_left].
    destruct (perform_availability op p w Hsrc) as [Hav Hsrc'].
    destruct (perform op (p, w)) as [p1 w1]. simpl in Hav, Hsrc'.
    now rewrite IH.
Qed.

Lemma pipeline_mixed_source : source_adapters pipeline_mixed.
Proof. repeat constructor. Qed.

(** Groq failed its start-up probe; with the network up again, health
    and connectivity checks, a request and a shutdown leave its flag
    down, and HuggingFace's up. *)
Lemma C7_witness :
  source_adapters pipeline_mixed /\
  keeps_available (cls_test_connection GroqProvider.class) /\
  availability
    (providers
       (fst (perform_all
               [OpHealthCheck; OpCheckApiConnectivity;
                OpGenerateResponse "ping" GENERAL []; OpShutdown; OpHealthCheck]
               (pipeline_mixed, world_up))))
  = [("groq", false); ("huggingface", true)].
Proof.
  split; [exact pipeline_mixed_source|].
  split; [exact (proj1 C7_sticky_availability _ source_groq)|].
  rewrite (proj2 C7_sticky_availability _ pipeline_mixed world_up pipeline_mixed_source).
  reflexivity.
Defined.

(** [initialise] is the method that does write the flag. *)
Lemma initialise_writes_available :
  available (self_of (unready GroqProvider.class "groq" groq_config)) = false /\
  available
    (snd (fst (initialise GroqProvider.class
                 (self_of (unready GroqProvider.class "groq" groq_config)) world_up)))
  = true.
Proof. split; vm_compute; reflexivity. Qed.

(** ** Task types a provider does not serve *)

(** A Codestral object whose probe came back true has a ["model"]. *)
Lemma codestral_probe_needs_model self w :
  fst (fst (MistralCodestralProvider.test_connection self w)) = Returns true ->
  exists model, py_getitem (config self) "model" = Returns model.
Proof.
  unfold MistralCodestralProvider.test_connection, config_get, config_item,
    try_except, bind, get_self, lift, ret.
  destruct (py_get (config self) "api_key" PNone) as [api_key|e]; [|discriminate].
  destruct (negb (truthy api_key)); [discriminate|].
  destruct (py_getitem (config self) "api_key") as [key|e]; [|discriminate].
  destruct (py_getitem (config self) "model") as [model|e]; [eauto|discriminate].
Qed.

(** C8 (as amended): asked for a task type other than web automation,
    [HuggingFaceProvider.generate_response] returns, whatever the
    prompt, the options and the object's state, a failure response
    with the error "Task type not supported by HuggingFace provider",
    and sends no request.  Asked for a task type other than code
    analysis and code generation,
    [MistralCodestralProvider.generate_response] does the same, with
    the error "Task type not supported by Codestral", provided its
    configuration has a ["model"] entry, which it reports as the model. *)
Theorem C8_unsupported_category prompt task_type kwargs self w :
  (task_type <> WEB_AUTOMATION ->
   exists w',
     HuggingFaceProvider.generate_response prompt task_type kwargs self w
     = (Returns (mkModelResponse (PStr "") (PStr "N/A") "huggingface" 0 (PInt 0) 0
                   false (Some "Task type not supported by HuggingFace provider")),
        self, w')
     /\ sent w' = sent w) /\
  (task_type <> CODE_ANALYSIS -> task_type <> CODE_GENERATION ->
   forall model, py_getitem (config self) "model" = Returns model ->
   exists w',
     MistralCodestralProvider.generate_response prompt task_type kwargs self w
     = (Returns (mkModelResponse (PStr "") model "mistral_codestral" 0 (PInt 0) 0
                   false (Some "Task type not supported by Codestral")),
        self, w')
     /\ sent w' = sent w).
Proof.
  split.
  - intros Hweb. eexists.
    unfold HuggingFaceProvider.generate_response, bind, time_time, ret.
    destruct task_type; try contradiction; simpl; split; reflexivity.
  - intros Hca Hcg model Hmodel. eexists.
    unfold MistralCodestralProvider.generate_response, config_item, bind, time_time,
      get_self, lift, ret.
    destruct task_type; try contradiction; simpl; rewrite Hmodel; split; reflexivity.
Qed.

(** Both providers decline a general request. *)
Lemma C8_witness :
  let hf := self_of (ready HuggingFaceProvider.class "huggingface" huggingface_config) in
  let mc := self_of (ready MistralCodestralProvider.class "mistral_codestral"
                       codestral_config) in
  GENERAL <> WEB_AUTOMATION /\ GENERAL <> CODE_ANALYSIS /\ GENERAL <> CODE_GENERATION /\
  py_getitem (config mc) "model" = Returns (PStr "codestral-latest") /\
  (exists w',
     HuggingFaceProvider.generate_response "ping" GENERAL [] hf world_up
     = (Returns (mkModelResponse (PStr "") (PStr "N/A") "huggingface" 0 (PInt 0) 0
                   false (Some "Task type not supported by HuggingFace provider")),
        hf, w')
     /\ sent w' = sent world_up) /\
  (exists w',
     MistralCodestralProvider.generate_response "ping" GENERAL [] mc world_up
     = (Returns (mkModelResponse (PStr "") (PStr "codestral-latest")
                   "mistral_codestral" 0 (PInt 0) 0
                   false (Some "Task type not supported by Codestral")),
        mc, w')
     /\ sent w' = sent world_up).
Proof.
  intros hf mc.
  split; [discriminate|]. split; [discriminate|]. split; [discriminate|].
  split; [reflexivity|]. split.
  - apply (proj1 (C8_unsupported_category "ping" GENERAL [] hf world_up)). discriminate.
  - apply (proj2 (C8_unsupported_category "ping" GENERAL [] mc world_up));
      [discriminate|discriminate|reflexivity].
Defined.

(** A Codestral object configured without a ["model"] entry raises
    when asked for a general request, instead of returning a failure
    response. *)
Lemma C8_counterexample :
  let mc := ModelProvider_init "mistral_codestral" (PDict [("api_key", PStr "mk")]) in
  GENERAL <> CODE_ANALYSIS /\ GENERAL <> CODE_GENERATION /\
  fst (fst (MistralCodestralProvider.generate_response "ping" GENERAL [] mc world_up))
  = Raises (KeyError "model") /\
  ~ (exists response,
        fst (fst (MistralCodestralProvider.generate_response "ping" GENERAL [] mc
                    world_up))
        = Returns response).
Proof.
  intros mc. split; [discriminate|]. split; [discriminate|].
  split; [reflexivity|]. intros [response H]. vm_compute in H. discriminate H.
Qed.

(** ** Shutdown *)

Lemma ClientSession_close_idem s :
  ClientSession_close (ClientSession_close s) = ClientSession_close s.
Proof.
  unfold ClientSession_close. destruct (closed s) eqn:E; [now rewrite E|reflexivity].
Qed.

Lemma ClientSession_close_releases s :
  (connector_releases (ClientSession_close s) <= S (connector_releases s))%nat.
Proof. unfold ClientSession_close. destruct (closed s); simpl; lia. Qed.

Lemma released_idem a : released (released a) = released a.
Proof.
  unfold released. simpl. destruct (session (self_of a)); simpl; [|reflexivity].
  now rewrite ClientSession_close_idem.
Qed.

Lemma released_releases a : (releases_of (released a) <= S (releases_of a))%nat.
Proof.
  unfold releases_of, released. simpl. destruct (session (self_of a)); simpl; [|lia].
  apply ClientSession_close_releases.
Qed.

Lemma cleanup_released a w :
  cleanup (self_of a) w = (Returns tt, self_of (released a), w).
Proof.
  unfold cleanup, released, bind, get_self, set_session, ret.
  destruct a as [cls [n c [s|] av]]; reflexivity.
Qed.

Lemma released_class a : mkAdapter (class_of a) (self_of (released a)) = released a.
Proof. reflexivity. Qed.

Lemma for_items_cleanup items w :
  for_items (fun _ _ (_ : unit) => cleanup) items tt w
  = (Returns tt, map (fun na => (fst na, released (snd na))) items, w).
Proof.
  induction items as [|[name a] rest IH]; [reflexivity|].
  cbn [for_items]. rewrite cleanup_released, IH. reflexivity.
Qed.

Lemma shutdown_released p w :
  shutdown p w
  = (Returns tt,
     set_providers p (map (fun na => (fst na, released (snd na))) (providers p)), w).
Proof. unfold shutdown. now rewrite for_items_cleanup. Qed.

(** C9: two shutdowns in a row both return without raising; the
    second, which closes sessions that are closed already, changes
    nothing, and over the two the transport handle of each adapter is
    released at most once. *)
Theorem C9_shutdown_idempotent p w :
  let first := shutdown p w in
  let second := shutdown (snd (fst first)) (snd first) in
  fst (fst first) = Returns tt /\
  fst (fst second) = Returns tt /\
  snd (fst second) = snd (fst first) /\
  releases (providers (snd (fst second))) = releases (providers (snd (fst first))) /\
  Forall2 (fun before after =>
             fst after = fst before /\ (snd after <= S (snd before))%nat)
    (releases (providers p)) (releases (providers (snd (fst second)))).
Proof.
  intros first second. subst first second. rewrite !shutdown_released. simpl.
  assert (Hidem : map (fun na => (fst na, released (snd na)))
                    (map (fun na : string * Adapter => (fst na, released (snd na)))
                       (providers p))
                  = map (fun na => (fst na, released (snd na))) (providers p)).
  { rewrite map_map. apply map_ext. intros [name a]. simpl. now rewrite released_idem. }
  rewrite Hidem. repeat split; auto.
  generalize (providers p) as ps.
  induction ps as [|[name a] ps IH]; simpl; constructor; auto.
  simpl. split; [reflexivity|apply released_releases].
Qed.

(** ** Health check *)

Lemma health_body_spec name cls hs probes self w :
  health_body name cls (hs, probes) self w =
  if available self then
    match cls_test_connection cls self w with
    | (Returns is_healthy, self', w') =>
        (Returns
           (mkHealthStatus (total_providers hs)
              (if is_healthy then available_providers hs + 1
               else available_providers hs)
              (dict_set (providers_health hs) name
                 (mkProviderHealth (available self') is_healthy)),
            (name, is_healthy) :: probes),
         self', w')
    | (Raises e, self', w') => (Raises e, self', w')
    end
  else
    (Returns
       (mkHealthStatus (total_providers hs) (available_providers hs)
          (dict_set (providers_health hs) name
             (mkProviderHealth (available self) false)),
        probes),
     self, w).
Proof.
  unfold health_body, bind, get_self, ret.
  destruct (available self) eqn:Hav.
  - destruct (cls_test_connection cls self w) as [[[b|e] self'] w']; reflexivity.
  - now rewrite Hav.
Qed.

Lemma healthy_count_cons name b probes :
  healthy_count ((name, b) :: probes)
  = (if b then 1 else 0) + healthy_count probes.
Proof.
  unfold healthy_count. simpl. destruct b; simpl List.length; lia.
Qed.

(** One run of the loop of [health_check] that comes to its end. *)
Lemma health_loop_spec items : forall hs probes w hs' probes' ps' w',
  for_items health_body items (hs, probes) w = (Returns (hs', probes'), ps', w') ->
  exists made,
    probes' = rev made ++ probes /\
    map fst made = sticky_names items /\
    available_providers hs' = available_providers hs + healthy_count made /\
    total_providers hs' = total_providers hs /\
    (forall k, ~ In k (map fst items) ->
               dict_get (providers_health hs') k = dict_get (providers_health hs) k) /\
    (NoDup (map fst items) ->
     forall name a, In (name, a) items -> available (self_of a) = false ->
                    dict_get (providers_health hs') name
                    = Some (mkProviderHealth false false)).
Proof.
  induction items as [|[name a] rest IH]; intros hs probes w hs' probes' ps' w' H.
  - injection H as <- <- _ _. exists []. repeat split; auto.
    + unfold healthy_count. simpl. lia.
    + intros _ name a [].
  - cbn [for_items] in H. rewrite health_body_spec in H.
    unfold sticky_names. cbn [filter map snd fst].
    destruct (available (self_of a)) eqn:Hav.
    + destruct (cls_test_connection (class_of a) (self_of a) w) as [[[b|e] self1] w1];
        [|discriminate].
      match type of H with context [for_items health_body rest ?acc w1] =>
        destruct (for_items health_body rest acc w1) as [[r rest'] w2] eqn:Hrec end.
      injection H as -> _ _.
      apply IH in Hrec as (made & -> & Hnames & Hcount & Htotal & Hother & Hdown).
      simpl in Hcount, Htotal, Hother, Hdown.
      exists ((name, b) :: made). simpl. rewrite <- app_assoc. simpl.
      split; [reflexivity|]. split; [now rewrite Hnames|].
      split; [rewrite Hcount, healthy_count_cons; destruct b; lia|].
      split; [assumption|]. split.
      * intros k Hk. rewrite Hother by tauto. apply dict_get_set_ne. tauto.
      * intros Hnd n a0 [[= <- <-]|Hin] Hdownflag; [congruence|].
        inversion Hnd; subst. eapply Hdown; eauto.
    + match type of H with context [for_items health_body rest ?acc w] =>
        destruct (for_items health_body rest acc w) as [[r rest'] w2] eqn:Hrec end.
      injection H as -> _ _.
      apply IH in Hrec as (made & -> & Hnames & Hcount & Htotal & Hother & Hdown).
      simpl in Hcount, Htotal, Hother, Hdown.
      exists made. split; [reflexivity|]. split; [exact Hnames|].
      split; [assumption|]. split; [assumption|]. split.
      * intros k Hk. simpl in Hk. rewrite Hother by tauto. apply dict_get_set_ne. tauto.
      * intros Hnd n a0 [[= <- <-]|Hin] Hdownflag.
        -- inversion Hnd; subst. rewrite Hother by assumption.
           now rewrite dict_get_set_eq.
        -- inversion Hnd; subst. eapply Hdown; eauto.
Qed.

Lemma NoDup_keys_unique {V} (l : list (string * V)) k v v' :
  NoDup (map fst l) -> In (k, v) l -> In (k, v') l -> v = v'.
Proof.
  induction l as [|[k0 v0] l IH]; simpl; intros Hnd H1 H2; [contradiction|].
  inversion Hnd as [|x xs Hnotin Hnd']; subst.
  destruct H1 as [E1|H1], H2 as [E2|H2]; auto.
  - congruence.
  - injection E1 as -> ->. elim Hnotin. apply (in_map fst) in H2. exact H2.
  - injection E2 as -> ->. elim Hnotin. apply (in_map fst) in H1. exact H1.
Qed.

(** The probe of a concrete class never raises when its configuration
    is a dictionary: every fault of the transport is caught inside. *)
Lemma concrete_probe_returns cls self w :
  concrete_class cls -> (exists d, config self = PDict d) ->
  returned (fst (fst (cls_test_connection cls self w))) = true.
Proof.
  intros Hcls [d Hd].
  assert (Htry : forall (body : Meth bool) s w0,
             returned (fst (fst (try_except body (fun _ => ret false) s w0))) = true).
  { intros body s w0. unfold try_except.
    destruct (body s w0) as [[[b|e] s'] w']; reflexivity. }
  destruct Hcls; simpl;
    [unfold GroqProvider.test_connection
    |unfold MistralCodestralProvider.test_connection
    |unfold OpenRouterProvider.test_connection
    |unfold HuggingFaceProvider.test_connection];
    unfold config_get; unfold bind at 1 2; unfold get_self, lift; rewrite Hd; simpl;
    destruct (dict_get d "api_key") as [api_key|]; simpl;
    try destruct (negb (truthy api_key)); try reflexivity; apply Htry.
Qed.

Lemma health_loop_returns items : forall acc w,
  Forall (fun na => configured (snd na)) items ->
  returned (fst (fst (for_items health_body items acc w))) = true.
Proof.
  induction items as [|[name a] rest IH]; intros [hs probes] w Hall; [reflexivity|].
  inversion Hall as [|x l [Hcls Hcfg] Hrest]; subst. simpl in Hcls, Hcfg.
  cbn [for_items]. rewrite health_body_spec.
  destruct (available (self_of a)).
  - pose proof (concrete_probe_returns _ (self_of a) w Hcls Hcfg) as Hret.
    destruct (cls_test_connection (class_of a) (self_of a) w) as [[[b|e] self1] w1];
      [|discriminate].
    match goal with |- context [for_items health_body rest ?acc w1] =>
      specialize (IH acc w1 Hrest);
      destruct (for_items health_body rest acc w1) as [[r rest'] w2] end.
    exact IH.
  - match goal with |- context [for_items health_body rest ?acc w] =>
      specialize (IH acc w Hrest);
      destruct (for_items health_body rest acc w) as [[r rest'] w2] end.
    exact IH.
Qed.

Lemma triple_eta {A B C} (x : A * B * C) : x = (fst (fst x), snd (fst x), snd x).
Proof. now destruct x as [[a b] c]. Qed.

(** The probes the loop of [health_check] logs are the probes of the
    adapters themselves, and the entry it writes for a probed adapter
    holds what the probe returned. *)
Lemma health_loop_live items : forall hs probes w hs' probes' ps' w',
  for_items health_body items (hs, probes) w = (Returns (hs', probes'), ps', w') ->
  probes' = rev (live_probes items w) ++ probes /\
  (NoDup (map fst items) ->
   forall name is_healthy,
     In (name, is_healthy) (live_probes items w) ->
     option_map ph_healthy (dict_get (providers_health hs') name) = Some is_healthy).
Proof.
  induction items as [|[key a] rest IH]; intros hs probes w hs' probes' ps' w' H.
  - injection H as <- <- _ _. split; [reflexivity|]. intros _ name b [].
  - cbn [for_items] in H. rewrite health_body_spec in H. cbn [live_probes].
    destruct (available (self_of a)) eqn:Hav.
    + destruct (cls_test_connection (class_of a) (self_of a) w) as [[[b|e] self1] w1];
        [|discriminate].
      match type of H with context [for_items health_body rest ?acc w1] =>
        destruct (for_items health_body rest acc w1) as [[r rest'] w2] eqn:Hrec end.
      injection H as -> _ _.
      pose proof (health_loop_spec _ _ _ _ _ _ _ _ Hrec) as (_ & _ & _ & _ & _ & Hother & _).
      apply IH in Hrec as (-> & Hentries). simpl in Hother.
      split; [simpl; now rewrite <- app_assoc|].
      intros Hnd name is_healthy [[= <- <-]|Hin]; inversion Hnd; subst.
      * rewrite Hother by assumption. now rewrite dict_get_set_eq.
      * now apply Hentries.
    + match type of H with context [for_items health_body rest ?acc w] =>
        destruct (for_items health_body rest acc w) as [[r rest'] w2] eqn:Hrec end.
      injection H as -> _ _.
      apply IH in Hrec as (-> & Hentries).
      split; [reflexivity|].
      intros Hnd name is_healthy Hin. inversion Hnd; subst. now apply Hentries.
Qed.

(** C10: [health_check] returns whenever the registered adapters are
    of the concrete classes with dictionary configurations, and what
    it returns says this.  Let the live probes be the calls of
    [test_connection] on the adapters whose sticky flag is set, one
    each and in registration order, as [live_probes] runs them.  Then
    [available_providers] is the number of live probes that returned
    true -- the adapters healthy now, not those with the flag set; the
    entry of a probed adapter holds what its probe returned; and an
    adapter whose flag is not set is reported unavailable and
    unhealthy without having been probed. *)
Theorem C10_health_check_count p w :
  (Forall (fun na => configured (snd na)) (providers p) ->
   returned (fst (fst (health_check p w))) = true) /\
  (forall hs probes p' w',
      health_check p w = (Returns (hs, probes), p', w') ->
      probes = live_probes (providers p) w /\
      map fst (live_probes (providers p) w) = sticky_names (providers p) /\
      available_providers hs = healthy_count (live_probes (providers p) w) /\
      (NoDup (map fst (providers p)) ->
       (forall name is_healthy,
           In (name, is_healthy) (live_probes (providers p) w) ->
           option_map ph_healthy (dict_get (providers_health hs) name)
           = Some is_healthy) /\
       (forall name a,
           In (name, a) (providers p) -> available (self_of a) = false ->
           dict_get (providers_health hs) name = Some (mkProviderHealth false false) /\
           ~ In name (map fst (live_probes (providers p) w))))).
Proof.
  split.
  - intros Hall. unfold health_check.
    pose proof (health_loop_returns (providers p)
                  (mkHealthStatus (Z.of_nat (List.length (providers p))) 0 [], []) w Hall)
      as Hret.
    destruct (for_items health_body (providers p) _ w) as [[[[hs probes]|e] ps'] w'];
      [reflexivity|discriminate].
  - intros hs probes p' w' H. unfold health_check in H.
    destruct (for_items health_body (providers p) _ w)
      as [[[[hs0 probes0]|e] ps'] w0] eqn:Hloop; [|discriminate].
    injection H as <- <- _ _.
    pose proof (health_loop_live _ _ _ _ _ _ _ _ Hloop) as (Hlive & Hentries).
    apply health_loop_spec in Hloop
      as (made & Hmade & Hnames & Hcount & _ & _ & Hdown).
    rewrite Hmade in Hlive. rewrite !app_nil_r in Hlive.
    apply (f_equal (@rev (string * bool))) in Hlive. rewrite !rev_involutive in Hlive.
    subst made probes0. rewrite app_nil_r, rev_involutive. simpl in Hcount.
    split; [reflexivity|]. split; [exact Hnames|]. split; [exact Hcount|].
    intros Hnd. split; [exact (Hentries Hnd)|].
    intros name a Hin Hflag. split; [eapply Hdown; eauto|].
    rewrite Hnames. unfold sticky_names. intros Hprobed.
    apply in_map_iff in Hprobed as ([n a'] & Hn & Hfilter). simpl in Hn. subst n.
    apply filter_In in Hfilter as [Hin' Hup]. simpl in Hup.
    rewrite (NoDup_keys_unique _ _ _ _ Hnd Hin Hin') in Hflag. congruence.
Qed.

Lemma pipeline_three_configured :
  Forall (fun na => configured (snd na)) (providers pipeline_three).
Proof.
  constructor; [split; [exact concrete_groq|eexists; reflexivity]|].
  constructor; [split; [exact concrete_openrouter|eexists; reflexivity]|].
  constructor; [split; [exact concrete_huggingface|eexists; reflexivity]|].
  constructor.
Qed.

(** Groq's flag is down, those of OpenRouter and HuggingFace are up,
    and only OpenRouter's backend answers: two probes are made, one
    comes back true, and the count is one. *)
Lemma C10_witness :
  let check := health_check pipeline_three world_openrouter in
  Forall (fun na => configured (snd na)) (providers pipeline_three) /\
  NoDup (map fst (providers pipeline_three)) /\
  returned (fst (fst check)) = true /\
  live_probes (providers pipeline_three) world_openrouter
  = [("openrouter", true); ("huggingface", false)] /\
  exists hs,
    fst (fst check) = Returns (hs, [("openrouter", true); ("huggingface", false)]) /\
    available_providers hs = 1 /\
    option_map ph_healthy (dict_get (providers_health hs) "openrouter") = Some true /\
    option_map ph_healthy (dict_get (providers_health hs) "huggingface") = Some false /\
    dict_get (providers_health hs) "groq" = Some (mkProviderHealth false false).
Proof.
  intros check.
  assert (Hnd : NoDup (map fst (providers pipeline_three))).
  { simpl. repeat constructor; simpl; intuition discriminate. }
  assert (Hlive : live_probes (providers pipeline_three) world_openrouter
                  = [("openrouter", true); ("huggingface", false)])
    by (vm_compute; reflexivity).
  split; [exact pipeline_three_configured|]. split; [exact Hnd|].
  split; [exact (proj1 (C10_health_check_count pipeline_three world_openrouter)
                   pipeline_three_configured)|].
  split; [exact Hlive|].
  assert (Hrun : exists hs,
             check = (Returns (hs, [("openrouter", true); ("huggingface", false)]),
                      snd (fst check), snd check)).
  { eexists. rewrite (triple_eta check) at 1. f_equal. f_equal. vm_compute. reflexivity. }
  destruct Hrun as [hs Hrun]. exists hs.
  split; [now rewrite Hrun|].
  destruct (proj2 (C10_health_check_count pipeline_three world_openrouter) _ _ _ _ Hrun)
    as (_ & _ & Hcount & Hentries).
  destruct (Hentries Hnd) as [Hprobed Hdown].
  rewrite Hlive in Hcount, Hprobed.
  split; [exact Hcount|].
  split; [apply Hprobed; now left|].
  split; [apply Hprobed; right; now left|].
  exact (proj1 (Hdown "groq" (unready GroqProvider.class "groq" groq_config)
                  (or_introl eq_refl) eq_refl)).
Defined.

(** ** Further properties of the pipeline *)

Lemma connectivity_body_spec name cls acc self w :
  connectivity_body name cls acc self w =
  match cls_test_connection cls self w with
  | (Returns is_connected, self', w') =>
      (Returns (dict_set acc name (mkConnectivity is_connected None)), self', w')
  | (Raises e, self', w') =>
      (Returns (dict_set acc name (mkConnectivity false (Some (str_exc e)))), self', w')
  end.
Proof.
  unfold connectivity_body, try_except, bind, ret.
  destruct (cls_test_connection cls self w) as [[[b|e] self'] w']; reflexivity.
Qed.

Lemma keys_dict_set_new {V} (d : list (string * V)) k v :
  ~ In k (map fst d) -> map fst (dict_set d k v) = map fst d ++ [k].
Proof.
  induction d as [|[k' v'] d IH]; simpl; intros Hk; [reflexivity|].
  destruct (String.eqb k' k) eqn:E.
  - apply String.eqb_eq in E. tauto.
  - simpl. f_equal. apply IH. tauto.
Qed.

Lemma keys_dict_set_old {V} (d : list (string * V)) k v :
  In k (map fst d) -> map fst (dict_set d k v) = map fst d.
Proof.
  induction d as [|[k' v'] d IH]; simpl; intros Hk; [contradiction|].
  destruct (String.eqb k' k) eqn:E; simpl; [reflexivity|].
  f_equal. apply IH. destruct Hk as [->|Hk]; [|assumption].
  rewrite String.eqb_refl in E. discriminate.
Qed.

(** The loop of [check_api_connectivity] always comes to its end. *)
Lemma connectivity_loop_spec items : forall acc w,
  exists acc' ps' w',
    for_items connectivity_body items acc w = (Returns acc', ps', w') /\
    (Forall connectivity_entry_ok acc -> Forall connectivity_entry_ok acc') /\
    (NoDup (map fst items) ->
     (forall k, In k (map fst items) -> ~ In k (map fst acc)) ->
     map fst acc' = map fst acc ++ map fst items).
Proof.
  induction items as [|[name a] rest IH]; intros acc w.
  - exists acc, [], w. repeat split; auto. intros _ _. now rewrite app_nil_r.
  - cbn [for_items]. rewrite connectivity_body_spec.
    assert (Hstep : forall entry self1 w1,
               connectivity_entry_ok (name, entry) ->
               exists acc' ps' w',
                 (let '(r, rest', w'') :=
                    for_items connectivity_body rest (dict_set acc name entry) w1 in
                  (r, (name, mkAdapter (class_of a) self1) :: rest', w''))
                 = (Returns acc', ps', w') /\
                 (Forall connectivity_entry_ok acc -> Forall connectivity_entry_ok acc') /\
                 (NoDup (map fst ((name, a) :: rest)) ->
                  (forall k, In k (map fst ((name, a) :: rest)) -> ~ In k (map fst acc)) ->
                  map fst acc' = map fst acc ++ map fst ((name, a) :: rest))).
    { intros entry self1 w1 Hentry.
      destruct (IH (dict_set acc name entry) w1) as (acc' & ps' & w' & Hrun & Hok & Hkeys).
      rewrite Hrun. eexists _, _, _. split; [reflexivity|]. split.
      - intros Hacc. apply Hok.
        apply (Forall_dict_set (fun c => connected c = true -> connectivity_error c = None));
          assumption.
      - simpl. intros Hnd Hfresh. inversion Hnd as [|x xs Hnotin Hnd']; subst.
        rewrite Hkeys; auto.
        + rewrite keys_dict_set_new by (apply Hfresh; now left).
          now rewrite <- app_assoc.
        + intros k Hk. rewrite keys_dict_set_new by (apply Hfresh; now left).
          intros Hin. apply in_app_or in Hin as [Hin|[<-|[]]].
          * apply (Hfresh k); [now right|assumption].
          * contradiction. }
    destruct (cls_test_connection (class_of a) (self_of a) w) as [[[b|e] self1] w1];
      apply Hstep; unfold connectivity_entry_ok; simpl; [reflexivity|discriminate].
Qed.

(** X1: [check_api_connectivity] never raises, whatever the probes of
    the registered adapters do; no entry of its report is both
    connected and in error, and there is one entry for each adapter,
    in registration order. *)
Theorem check_api_connectivity_contains p w :
  exists report,
    fst (fst (check_api_connectivity p w)) = Returns report /\
    Forall connectivity_entry_ok report /\
    (NoDup (map fst (providers p)) -> map fst report = map fst (providers p)).
Proof.
  unfold check_api_connectivity.
  destruct (connectivity_loop_spec (providers p) [] w) as (acc' & ps' & w' & Hrun & Hok & Hkeys).
  rewrite Hrun. exists acc'. split; [reflexivity|]. split; [apply Hok; constructor|].
  intros Hnd. apply Hkeys; auto.
Qed.

(** The probe of the base class raises; the report says so. *)
Lemma check_api_connectivity_contains_witness :
  NoDup (map fst (providers pipeline_unprobed)) /\
  exists report,
    fst (fst (check_api_connectivity pipeline_unprobed world_up)) = Returns report /\
    report = [("custom", mkConnectivity false (Some ""))] /\
    Forall connectivity_entry_ok report /\
    map fst report = map fst (providers pipeline_unprobed).
Proof.
  assert (Hnd : NoDup (map fst (providers pipeline_unprobed)))
    by (simpl; repeat constructor; simpl; tauto).
  split; [exact Hnd|].
  destruct (check_api_connectivity_contains pipeline_unprobed world_up)
    as (report & Hrun & Hok & Hkeys).
  exists report. split; [exact Hrun|].
  split; [vm_compute in Hrun; now injection Hrun|].
  split; [exact Hok|exact (Hkeys Hnd)].
Defined.

Lemma healthy_count_bounds (probes : list (string * bool)) :
  0 <= healthy_count probes <= Z.of_nat (List.length probes).
Proof.
  unfold healthy_count.
  pose proof (filter_length_le (fun pr : string * bool => snd pr) probes). lia.
Qed.

Lemma sticky_names_length ps :
  (List.length (sticky_names ps) <= List.length ps)%nat.
Proof. unfold sticky_names. rewrite length_map. apply filter_length_le. Qed.

(** X2: in what [health_check] returns, [total_providers] is the
    number of registered adapters and [available_providers] lies
    between zero and it. *)
Theorem health_check_bounds p w hs probes p' w' :
  health_check p w = (Returns (hs, probes), p', w') ->
  total_providers hs = Z.of_nat (List.length (providers p)) /\
  0 <= available_providers hs <= total_providers hs.
Proof.
  intros H. unfold health_check in H.
  destruct (for_items health_body (providers p) _ w)
    as [[[[hs0 probes0]|e] ps'] w0] eqn:Hloop; [|discriminate].
  injection H as <- _ _ _.
  apply health_loop_spec in Hloop as (made & _ & Hnames & Hcount & Htotal & _).
  simpl in Hcount, Htotal. split; [exact Htotal|].
  rewrite Htotal, Hcount.
  pose proof (healthy_count_bounds made) as Hb.
  pose proof (sticky_names_length (providers p)) as Hs.
  rewrite <- Hnames, length_map in Hs. lia.
Qed.

(** Two adapters, the network up: both are healthy. *)
Lemma health_check_bounds_witness :
  let check := health_check pipeline_two world_up in
  exists hs probes,
    fst (fst check) = Returns (hs, probes) /\
    available_providers hs = 2 /\
    total_providers hs = Z.of_nat (List.length (providers pipeline_two)) /\
    0 <= available_providers hs <= total_providers hs.
Proof.
  intros check.
  assert (Hrun : exists hs probes,
             check = (Returns (hs, probes), snd (fst check), snd check)
             /\ available_providers hs = 2).
  { eexists _, _. split; [rewrite (triple_eta check) at 1; f_equal; f_equal;
                          vm_compute; reflexivity|reflexivity]. }
  destruct Hrun as (hs & probes & Hrun & Htwo). exists hs, probes.
  split; [now rewrite Hrun|]. split; [exact Htwo|].
  exact (health_check_bounds pipeline_two world_up hs probes _ _ Hrun).
Defined.

(** X3: the response [generate_response] hands back is that of the
    last call, with [success], or the synthetic failure after calls
    that all failed; the failure response of a provider, and with it
    the provider's own error text, never reaches the caller. *)
Theorem generate_response_success_or_synthetic
    prompt task_type kwargs p w r p' w' calls :
  generate_response prompt task_type kwargs p w = (r, p', w', calls) ->
  exists response,
    r = Returns response /\
    ((success response = true /\
      exists earlier name, calls = earlier ++ [(name, Returns response)]) \/
     (response = all_failed /\ all_calls_failed calls)).
Proof.
  intros H. apply generate_response_dispatch in H as (r0 & Hd & ->).
  apply dispatch_calls in Hd. destruct r0 as [[response|]|e]; [| |contradiction].
  - destruct Hd as (init & name & -> & Hsucc & _).
    exists response. split; [reflexivity|]. left. eauto.
  - exists all_failed. auto.
Qed.

(** Both providers report "Cannot connect to host"; the caller gets
    the generic text. *)
Lemma generate_response_success_or_synthetic_witness :
  let run := generate_response "ping" GENERAL [] pipeline_two world_down in
  nth_error (snd run) 0
  = Some ("groq",
          Returns (mkModelResponse (PStr "") (PStr "llama-3.1-70b-versatile") "groq" 0
                     (PInt 0) 0 false (Some "Cannot connect to host"))) /\
  fst (fst (fst run)) = Returns all_failed /\
  exists response,
    fst (fst (fst run)) = Returns response /\
    ((success response = true /\
      exists earlier name, snd run = earlier ++ [(name, Returns response)]) \/
     (response = all_failed /\ all_calls_failed (snd run))).
Proof.
  intros run. split; [vm_compute; reflexivity|]. split; [vm_compute; reflexivity|].
  exact (generate_response_success_or_synthetic "ping" GENERAL [] pipeline_two world_down
           _ _ _ _ (quad_eta run)).
Defined.

(** X4: when no name of the routing order is registered and
    available, [generate_response] returns the synthetic failure and
    does nothing else: no call, no request, no reading of the clock,
    no change to the registry. *)
Theorem generate_response_idle prompt task_type kwargs p w :
  effective_order p task_type = [] ->
  generate_response prompt task_type kwargs p w = (Returns all_failed, p, w, []).
Proof.
  intros Hnil. rewrite effective_order_routing in Hnil.
  unfold generate_response. now rewrite (dispatch_nobody _ _ _ _ _ _ Hnil).
Qed.

Lemma generate_response_idle_witness :
  effective_order pipeline_empty CODE_ANALYSIS = [] /\
  generate_response "ping" CODE_ANALYSIS [] pipeline_empty world_up
  = (Returns all_failed, pipeline_empty, world_up, []).
Proof.
  split; [reflexivity|].
  apply (generate_response_idle "ping" CODE_ANALYSIS [] pipeline_empty world_up).
  reflexivity.
Defined.

Lemma groq_in_every_order config ps task_type :
  In "groq"
    (routing_order_for (mkMultiModelPipeline config ps _create_routing_strategy) task_type).
Proof. destruct task_type; vm_compute; tauto. Qed.

(** X5: with the routing table of the source, a registered and
    available Groq adapter is enough for every request, whatever its
    task type, to be tried by at least one provider. *)
Theorem groq_guarantees_a_call
    config ps prompt task_type kwargs w r p' w' calls :
  let p := mkMultiModelPipeline config ps _create_routing_strategy in
  registered_and_available p "groq" = true ->
  generate_response prompt task_type kwargs p w = (r, p', w', calls) ->
  calls <> [].
Proof.
  intros p Hgroq H Hnil. subst calls. unfold p in *. clear p.
  destruct (generate_response_order _ _ _ _ _ _ _ _ _
              (constructed_order_settled config ps task_type) H)
    as (later & Heq & Hall).
  rewrite (Hall (Forall_nil _)) in Heq. simpl in Heq.
  assert (Hin : In "groq"
                  (effective_order
                     (mkMultiModelPipeline config ps _create_routing_strategy) task_type)).
  { rewrite effective_order_routing. apply filter_In.
    split; [apply groq_in_every_order|exact Hgroq]. }
  rewrite Heq in Hin. exact Hin.
Qed.

Lemma groq_guarantees_a_call_witness :
  let run := generate_response "ping" WEB_AUTOMATION [] pipeline_two world_down in
  registered_and_available pipeline_two "groq" = true /\
  map fst (snd run) = ["groq"] /\
  snd run <> [].
Proof.
  intros run. split; [reflexivity|]. split; [vm_compute; reflexivity|].
  exact (groq_guarantees_a_call models_config (providers pipeline_two) "ping"
           WEB_AUTOMATION [] world_down _ _ _ _ eq_refl (quad_eta run)).
Defined.

(** ** Network traffic *)

Lemma sends_nothing_ret {A} (a : A) : sends_nothing (ret a).
Proof. now intros self w. Qed.

Lemma sends_nothing_raise {A} e : sends_nothing (@raise A e).
Proof. now intros self w. Qed.

Lemma sends_nothing_lift {A} (o : outcome A) : sends_nothing (lift o).
Proof. now intros self w. Qed.

Lemma sends_nothing_get_self : sends_nothing get_self.
Proof. now intros self w. Qed.

Lemma sends_nothing_time_time : sends_nothing time_time.
Proof. now intros self w. Qed.

Lemma sends_nothing_bind {A B} (m : Meth A) (k : A -> Meth B) :
  sends_nothing m -> (forall a, sends_nothing (k a)) -> sends_nothing (bind m k).
Proof.
  intros Hm Hk self w. unfold bind. specialize (Hm self w).
  destruct (m self w) as [[[a|e] self'] w']; simpl in *; [|assumption].
  now rewrite Hk.
Qed.

Lemma sends_nothing_try {A} (body : Meth A) handler :
  sends_nothing body -> (forall e, sends_nothing (handler e)) ->
  sends_nothing (try_except body handler).
Proof.
  intros Hm Hk self w. unfold try_except. specialize (Hm self w).
  destruct (body self w) as [[[a|e] self'] w']; simpl in *; [assumption|].
  now rewrite Hk.
Qed.

Create HintDb quiet.
#[local] Hint Resolve sends_nothing_ret sends_nothing_raise sends_nothing_lift
  sends_nothing_get_self sends_nothing_time_time : quiet.

(** Shows that a method body built from the combinators has no [post]. *)
Ltac quiet_step :=
  cbv zeta;
  lazymatch goal with
  | |- sends_nothing (bind _ _) => apply sends_nothing_bind; [|intros]
  | |- sends_nothing (try_except _ _) => apply sends_nothing_try; [|intros]
  | |- sends_nothing (if ?b then _ else _) => destruct b
  | |- sends_nothing (match ?x with _ => _ end) => destruct x
  | |- sends_nothing _ => solve [auto with quiet]
  end.

Ltac quiet := repeat quiet_step.

Lemma sends_nothing_config_item k : sends_nothing (config_item k).
Proof. unfold config_item. quiet. Qed.

Lemma sends_nothing_config_get k d : sends_nothing (config_get k d).
Proof. unfold config_get. quiet. Qed.

Lemma sends_nothing_session_post_attr : sends_nothing session_post_attr.
Proof. unfold session_post_attr. quiet. Qed.

#[local] Hint Resolve sends_nothing_config_item sends_nothing_config_get
  sends_nothing_session_post_attr : quiet.

Lemma sends_nothing_usage_total_tokens data default :
  sends_nothing default -> sends_nothing (usage_total_tokens data default).
Proof. intros H. unfold usage_total_tokens. quiet. Qed.

#[local] Hint Resolve sends_nothing_usage_total_tokens : quiet.

Lemma sends_at_most_one_post s rq : sends_at_most_one (post s rq).
Proof.
  intros self w. unfold post. destruct (closed s); simpl; [now left|right; eauto].
Qed.

Lemma sends_at_most_one_quiet {A} (m : Meth A) : sends_nothing m -> sends_at_most_one m.
Proof. intros H self w. left. apply H. Qed.

(** The request, if any, is sent by the continuation. *)
Lemma sends_at_most_one_later {A B} (m : Meth A) (k : A -> Meth B) :
  sends_nothing m -> (forall a, sends_at_most_one (k a)) -> sends_at_most_one (bind m k).
Proof.
  intros Hm Hk self w. unfold bind. specialize (Hm self w).
  destruct (m self w) as [[[a|e] self'] w']; simpl in *; [|now left].
  rewrite <- Hm. apply Hk.
Qed.

(** The request, if any, is sent first. *)
Lemma sends_at_most_one_first {A B} (m : Meth A) (k : A -> Meth B) :
  sends_at_most_one m -> (forall a, sends_nothing (k a)) -> sends_at_most_one (bind m k).
Proof.
  intros Hm Hk self w. unfold bind. specialize (Hm self w).
  destruct (m self w) as [[[a|e] self'] w']; simpl in *; [|assumption].
  destruct Hm as [Hm|[rq Hm]]; [left|right; exists rq]; now rewrite Hk.
Qed.

Lemma sends_at_most_one_try {A} (body : Meth A) handler :
  sends_at_most_one body -> (forall e, sends_nothing (handler e)) ->
  sends_at_most_one (try_except body handler).
Proof.
  intros Hm Hk self w. unfold try_except. specialize (Hm self w).
  destruct (body self w) as [[[a|e] self'] w']; simpl in *; [assumption|].
  destruct Hm as [Hm|[rq Hm]]; [left|right; exists rq]; now rewrite Hk.
Qed.

(** Finds the one [post] of a method body. *)
Ltac single :=
  cbv zeta;
  lazymatch goal with
  | |- sends_at_most_one (bind _ _) =>
      first [ apply sends_at_most_one_later; [solve [quiet]|intros; single]
            | apply sends_at_most_one_first; [single|intros; solve [quiet]] ]
  | |- sends_at_most_one (try_except _ _) =>
      apply sends_at_most_one_try; [single|intros; solve [quiet]]
  | |- sends_at_most_one (if ?b then _ else _) => destruct b; single
  | |- sends_at_most_one (post _ _) => apply sends_at_most_one_post
  | |- sends_at_most_one _ => apply sends_at_most_one_quiet; solve [quiet]
  end.

Lemma source_test_connection_sends cls :
  source_class cls -> sends_at_most_one (cls_test_connection cls).
Proof.
  intros [ | | | | ]; simpl.
  - single.
  - unfold GroqProvider.test_connection. single.
  - unfold MistralCodestralProvider.test_connection. single.
  - unfold OpenRouterProvider.test_connection. single.
  - unfold HuggingFaceProvider.test_connection. single.
Qed.

Lemma source_generate_response_sends cls prompt task_type kwargs :
  source_class cls ->
  sends_at_most_one (cls_generate_response cls prompt task_type kwargs).
Proof.
  intros [ | | | | ]; simpl.
  - single.
  - unfold GroqProvider.generate_response. single.
  - unfold MistralCodestralProvider.generate_response. single.
  - unfold OpenRouterProvider.generate_response. single.
  - unfold HuggingFaceProvider.generate_response. single.
Qed.

(** X6: no method of the source's provider classes retries: a probe
    and a generation call each send one request at most. *)
Theorem provider_sends_at_most_one cls :
  source_class cls ->
  sends_at_most_one (cls_test_connection cls) /\
  forall prompt task_type kwargs,
    sends_at_most_one (cls_generate_response cls prompt task_type kwargs).
Proof.
  intros Hcls. split.
  - now apply source_test_connection_sends.
  - intros prompt task_type kwargs. now apply source_generate_response_sends.
Qed.

(** One failed call to Groq: one request. *)
Lemma provider_sends_at_most_one_witness :
  let self := self_of (ready GroqProvider.class "groq" groq_config) in
  let after := snd (cls_generate_response GroqProvider.class "ping" GENERAL [] self
                      world_down) in
  source_class GroqProvider.class /\
  List.length (sent after) = 1%nat /\
  (sent after = sent world_down \/ exists rq, sent after = rq :: sent world_down).
Proof.
  intros self after. split; [exact source_groq|]. split; [reflexivity|].
  exact (proj2 (provider_sends_at_most_one GroqProvider.class source_groq)
           "ping" GENERAL [] self world_down).
Defined.

Lemma dict_set_same {V} (d : list (string * V)) k v :
  dict_get d k = Some v -> dict_set d k v = d.
Proof.
  induction d as [|[k' v'] d IH]; simpl; [discriminate|].
  destruct (String.eqb k' k); [now intros [= ->]|].
  intros H. now rewrite IH.
Qed.

Lemma update_provider_same p name a :
  dict_get (providers p) name = Some a -> update_provider p name a (self_of a) = p.
Proof.
  intros Hget. unfold update_provider, set_providers.
  replace (mkAdapter (class_of a) (self_of a)) with a by now destruct a.
  rewrite (dict_set_same _ _ _ Hget). now destruct p.
Qed.

(** Over the source's classes the dispatch loop leaves the pipeline as
    it is, and sends no more requests than it makes calls. *)
Lemma dispatch_source order : forall prompt task_type kwargs p w r p' w' calls,
  source_adapters p ->
  dispatch order prompt task_type kwargs p w = (r, p', w', calls) ->
  p' = p /\
  exists requests,
    sent w' = requests ++ sent w /\ (List.length requests <= List.length calls)%nat.
Proof.
  induction order as [|name rest IH]; intros prompt task_type kwargs p w r p' w' calls Hsrc H.
  - injection H as _ <- <- <-. split; [reflexivity|]. now exists [].
  - cbn [dispatch] in H.
    destruct (dict_get (providers p) name) as [a|] eqn:Hget; [|now apply IH in H].
    destruct (available (self_of a)); [|now apply IH in H].
    rewrite attempt_spec in H.
    assert (Hcls : source_class (class_of a)).
    { apply dict_get_In in Hget. exact (proj1 (Forall_forall _ _) Hsrc _ Hget). }
    pose proof (source_generate_response_keeps_self _ prompt task_type kwargs Hcls
                  (self_of a) w) as Hkeep.
    pose proof (source_generate_response_sends _ prompt task_type kwargs Hcls
                  (self_of a) w) as Hsent.
    destruct (cls_generate_response (class_of a) prompt task_type kwargs (self_of a) w)
      as [[[response|e] self'] w1]; simpl in H, Hkeep, Hsent; subst self';
      rewrite (update_provider_same _ _ _ Hget) in H.
    + destruct (success response).
      * injection H as _ <- <- <-. split; [reflexivity|].
        destruct Hsent as [->|[rq ->]]; [exists []|exists [rq]]; simpl;
          (split; [reflexivity|lia]).
      * destruct (dispatch rest prompt task_type kwargs p w1)
          as [[[r1 p1] w2] calls1] eqn:Hrec.
        injection H as _ <- <- <-.
        apply IH in Hrec as (-> & requests & -> & Hlen); [|assumption].
        split; [reflexivity|].
        destruct Hsent as [->|[rq ->]].
        -- exists requests. simpl. split; [reflexivity|lia].
        -- exists (requests ++ [rq]). rewrite <- app_assoc, length_app. simpl.
           split; [reflexivity|lia].
    + destruct (dispatch rest prompt task_type kwargs p w1)
        as [[[r1 p1] w2] calls1] eqn:Hrec.
      injection H as _ <- <- <-.
      apply IH in Hrec as (-> & requests & -> & Hlen); [|assumption].
      split; [reflexivity|].
      destruct Hsent as [->|[rq ->]].
      -- exists requests. simpl. split; [reflexivity|lia].
      -- exists (requests ++ [rq]). rewrite <- app_assoc, length_app. simpl.
         split; [reflexivity|lia].
Qed.

(** X7: over the source's provider classes [generate_response] leaves
    the pipeline exactly as it was -- registry, sessions, flags,
    routing table -- and sends at most one request for each call it
    makes to a provider. *)
Theorem generate_response_frame prompt task_type kwargs p w r p' w' calls :
  source_adapters p ->
  generate_response prompt task_type kwargs p w = (r, p', w', calls) ->
  p' = p /\
  exists requests,
    sent w' = requests ++ sent w /\ (List.length requests <= List.length calls)%nat.
Proof.
  intros Hsrc H. apply generate_response_dispatch in H as (r0 & Hd & _).
  eapply dispatch_source; eauto.
Qed.

(** Two failing calls, two requests, the pipeline untouched. *)
Lemma generate_response_frame_witness :
  let run := generate_response "ping" GENERAL [] pipeline_two world_down in
  source_adapters pipeline_two /\
  List.length (snd run) = 2%nat /\
  List.length (sent (snd (fst run))) = 2%nat /\
  snd (fst (fst run)) = pipeline_two /\
  exists requests,
    sent (snd (fst run)) = requests ++ sent world_down /\
    (List.length requests <= List.length (snd run))%nat.
Proof.
  intros run. split; [exact pipeline_two_source|].
  split; [vm_compute; reflexivity|]. split; [vm_compute; reflexivity|].
  exact (generate_response_frame "ping" GENERAL [] pipeline_two world_down _ _ _ _
           pipeline_two_source (quad_eta run)).
Defined.

(** ** Probes and start-up *)

(** Splits on the innermost scrutinee of the goal. *)
Ltac innermost_case :=
  match goal with
  | |- context [match ?x with _ => _ end] =>
      lazymatch x with
      | context [match _ with _ => _ end] => fail
      | _ => destruct x eqn:?
      end
  end.

(** X8: a concrete provider whose configuration has no API key, or a
    false one, fails its probe without sending anything; at start-up
    it gets a session, stays unavailable and [initialise] returns
    [False], again without a request. *)
Theorem no_api_key_fails_closed cls self w :
  concrete_class cls -> no_api_key self ->
  cls_test_connection cls self w = (Returns false, self, w) /\
  exists s,
    initialise cls self w
    = (Returns false, mkModelProvider (name self) (config self) (Some s) false, w) /\
    closed s = false.
Proof.
  intros Hcls (v & Hget & Hfalse).
  assert (Hprobe : forall self', config self' = config self ->
             cls_test_connection cls self' w = (Returns false, self', w)).
  { intros self' Hcfg.
    destruct Hcls; simpl;
      [unfold GroqProvider.test_connection
      |unfold MistralCodestralProvider.test_connection
      |unfold OpenRouterProvider.test_connection
      |unfold HuggingFaceProvider.test_connection];
      unfold config_get; unfold bind at 1 2; unfold get_self, lift;
      rewrite Hcfg, Hget, Hfalse; reflexivity. }
  split; [now apply Hprobe|].
  destruct (config self) as [| | | | |l|d] eqn:Hcfg; try discriminate Hget.
  exists (new_ClientSession
            match dict_get d "timeout" with Some x => x | None => PInt 30 end).
  split; [|reflexivity].
  unfold initialise, try_except, config_get.
  unfold bind at 1 2 3 4. unfold get_self, lift, set_session. rewrite Hcfg. simpl.
  destruct (dict_get d "timeout") as [timeout|];
    (rewrite Hprobe by reflexivity); reflexivity.
Qed.

(** An empty key counts as none. *)
Lemma no_api_key_fails_closed_witness :
  let self := ModelProvider_init "groq"
                (PDict [("api_key", PStr ""); ("endpoint", PStr "https://api.groq.com")]) in
  concrete_class GroqProvider.class /\ no_api_key self /\
  cls_test_connection GroqProvider.class self world_up = (Returns false, self, world_up) /\
  exists s,
    initialise GroqProvider.class self world_up
    = (Returns false, mkModelProvider (name self) (config self) (Some s) false, world_up) /\
    closed s = false.
Proof.
  intros self.
  assert (Hkey : no_api_key self) by (exists (PStr ""); split; reflexivity).
  split; [exact concrete_groq|]. split; [exact Hkey|].
  exact (no_api_key_fails_closed GroqProvider.class self world_up concrete_groq Hkey).
Defined.

(** [initialise] by cases on the configuration and on the probe. *)
Lemma initialise_spec cls self w :
  initialise cls self w =
  match py_get (config self) "timeout" (PInt 30) with
  | Returns timeout =>
      match cls_test_connection cls
              (mkModelProvider (name self) (config self)
                 (Some (new_ClientSession timeout)) (available self)) w with
      | (Returns probe, self', w') =>
          (Returns probe,
           mkModelProvider (name self') (config self') (session self') probe, w')
      | (Raises e, self', w') => (Returns false, self', w')
      end
  | Raises e => (Returns false, self, w)
  end.
Proof.
  unfold initialise, try_except, config_get.
  unfold bind at 1 2 3 4. unfold get_self, lift, set_session.
  destruct (py_get (config self) "timeout" (PInt 30)) as [timeout|e]; simpl;
    [|reflexivity].
  destruct (cls_test_connection cls _ w) as [[[probe|e] self2] w2]; reflexivity.
Qed.

(** X9: [ModelProvider.initialise] never raises, whatever the class
    of the object and its probe do.  When it returns [True] the sticky
    flag is set; and on an object whose flag was down, for a class
    whose probe leaves the flag alone, what it returns is the flag it
    leaves. *)
Theorem initialise_contains cls self w :
  exists result,
    fst (fst (initialise cls self w)) = Returns result /\
    (result = true -> available (snd (fst (initialise cls self w))) = true) /\
    (keeps_available (cls_test_connection cls) -> available self = false ->
     available (snd (fst (initialise cls self w))) = result).
Proof.
  rewrite initialise_spec.
  destruct (py_get (config self) "timeout" (PInt 30)) as [timeout|e]; simpl.
  - pose (self1 := mkModelProvider (name self) (config self)
                     (Some (new_ClientSession timeout)) (available self)).
    fold self1.
    destruct (cls_test_connection cls self1 w) as [[[probe|e] self2] w2] eqn:Hprobe;
      simpl.
    + exists probe. repeat split; auto.
    + exists false. repeat split; [discriminate|].
      intros Hkeep Hdown. specialize (Hkeep self1 w). rewrite Hprobe in Hkeep.
      simpl in Hkeep. congruence.
  - exists false. repeat split; [discriminate|auto].
Qed.

(** The base class: the probe raises, [initialise] returns [False]. *)
Lemma initialise_contains_witness :
  let self := ModelProvider_init "custom" (PDict []) in
  keeps_available (cls_test_connection ModelProvider_class) /\
  available self = false /\
  fst (fst (initialise ModelProvider_class self world_up)) = Returns false /\
  exists result,
    fst (fst (initialise ModelProvider_class self world_up)) = Returns result /\
    (result = true ->
     available (snd (fst (initialise ModelProvider_class self world_up))) = true) /\
    (keeps_available (cls_test_connection ModelProvider_class) ->
     available self = false ->
     available (snd (fst (initialise ModelProvider_class self world_up))) = result).
Proof.
  intros self.
  split; [exact (keeps_self_available _
                   (source_test_connection_keeps_self _ source_base))|].
  split; [reflexivity|]. split; [reflexivity|].
  exact (initialise_contains ModelProvider_class self world_up).
Defined.

(** X10: [HuggingFaceProvider.generate_response] never sends a
    request, for any task type; asked for web automation with a
    configured ["browser_use"] model it answers, whatever the prompt
    and the state of its session, with the fixed text "Web automation
    task queued for processing" and [success]. *)
Theorem huggingface_generates_offline prompt task_type kwargs :
  sends_nothing (HuggingFaceProvider.generate_response prompt task_type kwargs) /\
  (forall self w models model,
      task_type = WEB_AUTOMATION ->
      py_getitem (config self) "models" = Returns models ->
      py_getitem models "browser_use" = Returns model ->
      exists elapsed,
        fst (fst (HuggingFaceProvider.generate_response prompt task_type kwargs self w))
        = Returns (mkModelResponse (PStr "Web automation task queued for processing")
                     model "huggingface" elapsed (PInt 0) 0.7 true None)).
Proof.
  split.
  - unfold HuggingFaceProvider.generate_response. quiet.
  - intros self w models model -> Hmodels Hmodel. eexists.
    unfold HuggingFaceProvider.generate_response, try_except, config_item, bind,
      time_time, get_self, lift, ret.
    simpl. rewrite Hmodels, Hmodel. reflexivity.
Qed.

Lemma huggingface_generates_offline_witness :
  let self := ModelProvider_init "huggingface" huggingface_config in
  py_getitem (config self) "models"
  = Returns (PDict [("browser_use", PStr "microsoft/DialoGPT-medium");
                    ("embeddings", PStr "sentence-transformers/all-MiniLM-L6-v2")]) /\
  sent (snd (HuggingFaceProvider.generate_response "open the page" WEB_AUTOMATION []
               self world_up)) = sent world_up /\
  exists elapsed,
    fst (fst (HuggingFaceProvider.generate_response "open the page" WEB_AUTOMATION []
                self world_up))
    = Returns (mkModelResponse (PStr "Web automation task queued for processing")
                 (PStr "microsoft/DialoGPT-medium") "huggingface" elapsed (PInt 0) 0.7
                 true None).
Proof.
  intros self. split; [reflexivity|].
  split; [exact (proj1 (huggingface_generates_offline "open the page" WEB_AUTOMATION [])
                   self world_up)|].
  exact (proj2 (huggingface_generates_offline "open the page" WEB_AUTOMATION [])
           self world_up _ _ eq_refl eq_refl eq_refl).
Defined.

(** Splits on the innermost scrutinee of a hypothesis. *)
Ltac innermost_case_in H :=
  match type of H with
  | context [match ?x with _ => _ end] =>
      lazymatch x with
      | context [match _ with _ => _ end] => fail
      | _ => destruct x eqn:?
      end
  end.

(** X11: the probe of a concrete provider comes back true only when
    it has sent one request, on an open session, and the backend has
    answered it with status 200. *)
Theorem probe_true_means_200 cls self w self' w' :
  concrete_class cls ->
  cls_test_connection cls self w = (Returns true, self', w') ->
  exists s rq response,
    session self = Some s /\ closed s = false /\
    sent w' = rq :: sent w /\
    backend w (sent w) rq = Returns response /\
    status response = 200.
Proof.
  intros Hcls H.
  destruct Hcls; simpl in H;
    [unfold GroqProvider.test_connection in H
    |unfold MistralCodestralProvider.test_connection in H
    |unfold OpenRouterProvider.test_connection in H
    |unfold HuggingFaceProvider.test_connection in H];
    unfold session_post_attr, config_get, config_item, try_except, bind, get_self,
      lift, post, ret, raise in H;
    repeat (innermost_case_in H; cbn beta iota in H; try discriminate H);
    injection H as Hok <- <-; apply Z.eqb_eq in Hok;
    eexists _, _, _; repeat split; eauto.
Qed.

Lemma probe_true_means_200_witness :
  let self := self_of (ready GroqProvider.class "groq" groq_config) in
  let probe := cls_test_connection GroqProvider.class self world_up in
  concrete_class GroqProvider.class /\
  fst (fst probe) = Returns true /\
  exists s rq response,
    session self = Some s /\ closed s = false /\
    sent (snd probe) = rq :: sent world_up /\
    backend world_up (sent world_up) rq = Returns response /\
    status response = 200.
Proof.
  intros self probe. split; [exact concrete_groq|]. split; [reflexivity|].
  apply (probe_true_means_200 GroqProvider.class self world_up
           (snd (fst probe)) (snd probe) concrete_groq).
  rewrite (triple_eta probe) at 1. reflexivity.
Defined.

(** Without a usable session a provider that talks to its backend
    sends nothing and has no success to report. *)
Lemma unusable_session_generate cls prompt task_type kwargs self w :
  network_class cls -> session_unusable self = true ->
  sent (snd (cls_generate_response cls prompt task_type kwargs self w)) = sent w /\
  forall response,
    fst (fst (cls_generate_response cls prompt task_type kwargs self w))
    = Returns response ->
    success response = false.
Proof.
  intros Hcls Hno. unfold session_unusable in Hno.
  destruct Hcls; simpl;
    [unfold GroqProvider.generate_response
    |unfold MistralCodestralProvider.generate_response
    |unfold OpenRouterProvider.generate_response];
    unfold session_post_attr, config_item, try_except, bind, get_self, time_time,
      lift, post, ret, raise;
    repeat (innermost_case; cbn beta iota; cbn [fst snd sent];
            try discriminate Hno);
    (split; [reflexivity|intros response [= <-]; reflexivity]).
Qed.

Lemma unusable_session_probe cls self w :
  concrete_class cls -> session_unusable self = true ->
  sent (snd (cls_test_connection cls self w)) = sent w /\
  fst (fst (cls_test_connection cls self w)) <> Returns true.
Proof.
  intros Hcls Hno. unfold session_unusable in Hno.
  destruct Hcls; simpl;
    [unfold GroqProvider.test_connection
    |unfold MistralCodestralProvider.test_connection
    |unfold OpenRouterProvider.test_connection
    |unfold HuggingFaceProvider.test_connection];
    unfold session_post_attr, config_get, config_item, try_except, bind, get_self,
      lift, post, ret, raise;
    repeat (innermost_case; cbn beta iota; cbn [fst snd sent];
            try discriminate Hno);
    (split; [reflexivity|discriminate]).
Qed.

(** ** After shutdown *)

Lemma network_class_source cls : network_class cls -> source_class cls.
Proof. intros []; constructor. Qed.

Lemma released_unusable a : session_unusable (self_of (released a)) = true.
Proof.
  unfold session_unusable, released. simpl.
  destruct (session (self_of a)) as [s|]; simpl; [|reflexivity].
  unfold ClientSession_close. destruct (closed s) eqn:E; [exact E|reflexivity].
Qed.

(** With every provider shut down the loop calls whom it finds
    available, gets no success and sends nothing. *)
Lemma dispatch_shut_down order : forall prompt task_type kwargs p w,
  Forall shut_down (providers p) ->
  exists w' calls,
    dispatch order prompt task_type kwargs p w = (Returns None, p, w', calls) /\
    sent w' = sent w.
Proof.
  induction order as [|name rest IH]; intros prompt task_type kwargs p w Hall.
  - now exists w, [].
  - cbn [dispatch].
    destruct (dict_get (providers p) name) as [a|] eqn:Hget; [|now apply IH].
    destruct (available (self_of a)); [|now apply IH].
    rewrite attempt_spec.
    pose proof (dict_get_In _ _ _ Hget) as Hin.
    destruct (proj1 (Forall_forall _ _) Hall _ Hin) as [Hcls Hno]. simpl in Hcls, Hno.
    pose proof (source_generate_response_keeps_self _ prompt task_type kwargs
                  (network_class_source _ Hcls) (self_of a) w) as Hkeep.
    destruct (unusable_session_generate _ prompt task_type kwargs _ w Hcls Hno)
      as [Hsent Hfail].
    destruct (cls_generate_response (class_of a) prompt task_type kwargs (self_of a) w)
      as [[[response|e] self'] w1]; simpl in Hkeep, Hsent, Hfail; subst self';
      rewrite (update_provider_same _ _ _ Hget).
    + rewrite (Hfail response eq_refl).
      destruct (IH prompt task_type kwargs p w1 Hall) as (w' & calls & -> & Hw).
      eexists _, _. split; [reflexivity|congruence].
    + destruct (IH prompt task_type kwargs p w1 Hall) as (w' & calls & -> & Hw).
      eexists _, _. split; [reflexivity|congruence].
Qed.

(** X12: once a pipeline over Groq, Codestral and OpenRouter adapters
    has been shut down, every request gets the synthetic failure and
    no request reaches a backend. *)
Theorem shutdown_then_generate_fails prompt task_type kwargs p w :
  Forall (fun na => network_class (class_of (snd na))) (providers p) ->
  let down := shutdown p w in
  exists w' calls,
    generate_response prompt task_type kwargs (snd (fst down)) (snd down)
    = (Returns all_failed, snd (fst down), w', calls) /\
    sent w' = sent w.
Proof.
  intros Hnet down. subst down. rewrite shutdown_released. simpl.
  unfold generate_response.
  destruct (dispatch_shut_down
              (routing_order_for
                 (set_providers p
                    (map (fun na => (fst na, released (snd na))) (providers p)))
                 task_type)
              prompt task_type kwargs
              (set_providers p (map (fun na => (fst na, released (snd na))) (providers p)))
              w) as (w' & calls & Hrun & Hw).
  - simpl. apply Forall_map. eapply Forall_impl; [|exact Hnet].
    intros [name a] Hcls. split; simpl; [exact Hcls|apply released_unusable].
  - rewrite Hrun. eauto.
Qed.

Lemma pipeline_two_network :
  Forall (fun na => network_class (class_of (snd na))) (providers pipeline_two).
Proof.
  constructor; [exact network_groq|]. constructor; [exact network_openrouter|constructor].
Qed.

(** The network is up, but the sessions are closed. *)
Lemma shutdown_then_generate_fails_witness :
  let down := shutdown pipeline_two world_up in
  Forall (fun na => network_class (class_of (snd na))) (providers pipeline_two) /\
  map fst (snd (generate_response "ping" GENERAL [] (snd (fst down)) (snd down)))
  = ["groq"; "openrouter"] /\
  exists w' calls,
    generate_response "ping" GENERAL [] (snd (fst down)) (snd down)
    = (Returns all_failed, snd (fst down), w', calls) /\
    sent w' = sent world_up.
Proof.
  intros down. split; [exact pipeline_two_network|].
  split; [vm_compute; reflexivity|].
  exact (shutdown_then_generate_fails "ping" GENERAL [] pipeline_two world_up
           pipeline_two_network).
Defined.

(** ** Start-up of the pipeline *)

Lemma register_all_fresh provider_configs :
  register_all provider_classes (PDict provider_configs) []
  = (Returns tt, fresh_registry provider_configs).
Proof.
  unfold fresh_registry, provider_classes, register_all, register, py_contains,
    py_getitem, dict_mem. cbn [flat_map].
  destruct (dict_get provider_configs "groq");
    destruct (dict_get provider_configs "mistral_codestral");
    destruct (dict_get provider_configs "openrouter");
    destruct (dict_get provider_configs "huggingface"); reflexivity.
Qed.

Lemma fresh_registry_names provider_configs :
  map fst (fresh_registry provider_configs)
  = filter (dict_mem provider_configs) provider_names.
Proof.
  unfold fresh_registry, provider_classes, provider_names, dict_mem.
  cbn [flat_map filter].
  destruct (dict_get provider_configs "groq");
    destruct (dict_get provider_configs "mistral_codestral");
    destruct (dict_get provider_configs "openrouter");
    destruct (dict_get provider_configs "huggingface"); reflexivity.
Qed.

Lemma fresh_registry_fresh provider_configs :
  Forall (fun na => available (self_of (snd na)) = false
                    /\ source_class (class_of (snd na)))
    (fresh_registry provider_configs).
Proof.
  unfold fresh_registry, provider_classes. cbn [flat_map].
  destruct (dict_get provider_configs "groq");
    destruct (dict_get provider_configs "mistral_codestral");
    destruct (dict_get provider_configs "openrouter");
    destruct (dict_get provider_configs "huggingface");
    repeat (constructor; [split; [reflexivity|constructor]|]); constructor.
Qed.

Lemma count_positive {A} (f : A -> bool) (l : list A) :
  (0 <? Z.of_nat (List.length (filter f l))) = existsb f l.
Proof.
  induction l as [|x l IH]; [reflexivity|].
  simpl. destruct (f x); simpl; [|exact IH].
  apply Z.ltb_lt. lia.
Qed.

(** The loop of [MultiModelPipeline.initialise] over objects whose
    flag is down: it counts the objects it leaves available. *)
Lemma initialise_loop items : forall count w,
  Forall (fun na => available (self_of (snd na)) = false
                    /\ source_class (class_of (snd na))) items ->
  exists items' w',
    for_items initialise_body items count w
    = (Returns (count
                + Z.of_nat (List.length
                              (filter (fun na => available (self_of (snd na))) items'))),
       items', w') /\
    map fst items' = map fst items /\
    Forall (fun na => source_class (class_of (snd na))) items'.
Proof.
  induction items as [|[key a] rest IH]; intros count w Hall.
  - exists [], w. simpl. rewrite Z.add_0_r. repeat split; constructor.
  - inversion Hall as [|x l [Hdown Hcls] Hrest]; subst. simpl in Hdown, Hcls.
    cbn [for_items]. unfold initialise_body at 1. unfold bind.
    rewrite initialise_spec.
    assert (Hgo : forall ok self1 w1,
               available self1 = ok ->
               exists items' w',
                 (let '(r, rest', w'') :=
                    for_items initialise_body rest
                      (if ok then count + 1 else count) w1 in
                  (r, (key, mkAdapter (class_of a) self1) :: rest', w''))
                 = (Returns
                      (count
                       + Z.of_nat
                           (List.length
                              (filter (fun na => available (self_of (snd na))) items'))),
                    items', w') /\
                 map fst items' = map fst ((key, a) :: rest) /\
                 Forall (fun na => source_class (class_of (snd na))) items').
    { intros ok self1 w1 Hok.
      destruct (IH (if ok then count + 1 else count) w1 Hrest)
        as (items' & w' & Hrun & Hnames & Hsrc).
      rewrite Hrun. exists ((key, mkAdapter (class_of a) self1) :: items'), w'.
      split; [|split].
      - cbn [filter snd self_of]. rewrite Hok.
        destruct ok; cbn [List.length]; [rewrite Nat2Z.inj_succ|];
          (do 3 f_equal; lia).
      - simpl. now rewrite Hnames.
      - constructor; auto. }
    destruct (py_get (config (self_of a)) "timeout" (PInt 30)) as [timeout|e].
    + pose proof (source_test_connection_keeps_self _ Hcls
                    (mkModelProvider (name (self_of a)) (config (self_of a))
                       (Some (new_ClientSession timeout)) (available (self_of a)))
                    w) as Hkeep.
      destruct (cls_test_connection (class_of a) _ w) as [[[probe|e] self1] w1];
        simpl in Hkeep; subst self1.
      * destruct probe; cbn [ret]; [apply (Hgo true)|apply (Hgo false)]; reflexivity.
      * cbn [ret]. apply (Hgo false). exact Hdown.
    + cbn [ret]. apply (Hgo false). exact Hdown.
Qed.

Lemma set_providers_same p : set_providers p (providers p) = p.
Proof. now destruct p. Qed.

(** X13: [MultiModelPipeline.initialise] on a new pipeline whose
    configuration has a dictionary under ["providers"], or nothing:
    it registers the providers named there among groq,
    mistral_codestral, openrouter and huggingface, in this order and
    no others, does not raise, and returns whether some adapter has
    come out available. *)
Theorem pipeline_initialise_fresh cfg provider_configs w :
  py_get (PDict cfg) "providers" (PDict []) = Returns (PDict provider_configs) ->
  exists p' w',
    pipeline_initialise (MultiModelPipeline_init (PDict cfg)) w
    = (Returns (some_available (providers p')), p', w') /\
    map fst (providers p') = filter (dict_mem provider_configs) provider_names /\
    source_adapters p'.
Proof.
  intros Hcfg. unfold pipeline_initialise.
  cbn [pipeline_config MultiModelPipeline_init providers]. rewrite Hcfg.
  rewrite register_all_fresh.
  change (fun (name : string) (cls : ProviderClass) (available_count : Z) =>
            (ok <- initialise cls ;;
             if ok then ret (available_count + 1) else ret available_count)%meth)
    with initialise_body.
  destruct (initialise_loop (fresh_registry provider_configs) 0 w
              (fresh_registry_fresh provider_configs))
    as (items' & w' & Hrun & Hnames & Hsrc).
  rewrite Hrun. simpl (0 + _). rewrite count_positive.
  exists (set_providers (MultiModelPipeline_init (PDict cfg)) items'), w'.
  split; [reflexivity|]. split; [|exact Hsrc].
  simpl. now rewrite Hnames, fresh_registry_names.
Qed.

(** The sample configuration, the network up: Groq and OpenRouter are
    registered and available. *)
Lemma pipeline_initialise_fresh_witness :
  py_get models_config "providers" (PDict [])
  = Returns (PDict [("groq", groq_config); ("openrouter", openrouter_config)]) /\
  fst (pipeline_initialise (MultiModelPipeline_init models_config) world_up)
  = (Returns true, pipeline_two) /\
  exists p' w',
    pipeline_initialise (MultiModelPipeline_init models_config) world_up
    = (Returns (some_available (providers p')), p', w') /\
    map fst (providers p')
    = filter (dict_mem [("groq", groq_config); ("openrouter", openrouter_config)])
        provider_names /\
    source_adapters p'.
Proof.
  split; [reflexivity|]. split; [reflexivity|].
  exact (pipeline_initialise_fresh
           [("providers", PDict [("groq", groq_config); ("openrouter", openrouter_config)])]
           [("groq", groq_config); ("openrouter", openrouter_config)] world_up eq_refl).
Defined.

(** X14: [MultiModelPipeline.initialise] is not guarded: when the
    configuration holds [None], a number or a truth value under
    ["providers"], the membership test raises a [TypeError] that
    reaches the caller, with nothing registered and nothing sent. *)
Theorem pipeline_initialise_rejects p w v :
  py_get (pipeline_config p) "providers" (PDict []) = Returns v ->
  not_iterable v = true ->
  pipeline_initialise p w
  = (Raises (TypeError ("argument of type '" ++ type_name v ++ "' is not iterable")),
     p, w).
Proof.
  intros Hcfg Hv. unfold pipeline_initialise. rewrite Hcfg.
  destruct v; try discriminate Hv; cbn; now rewrite set_providers_same.
Qed.

Lemma pipeline_initialise_rejects_witness :
  let p := MultiModelPipeline_init (PDict [("providers", PNone)]) in
  py_get (pipeline_config p) "providers" (PDict []) = Returns PNone /\
  not_iterable PNone = true /\
  pipeline_initialise p world_up
  = (Raises (TypeError "argument of type 'NoneType' is not iterable"), p, world_up).
Proof.
  intros p. split; [reflexivity|]. split; [reflexivity|].
  exact (pipeline_initialise_rejects p world_up PNone eq_refl eq_refl).
Defined.

(** ** Health checks of a pipeline the code has built *)


















(** ** Configuration: environment variables *)

(** Induction on a Python value, through its lists and dictionaries. *)
Lemma PyVal_nested_ind (P : PyVal -> Prop) :
  P PNone -> (forall b, P (PBool b)) -> (forall z, P (PInt z)) ->
  (forall f, P (PFloat f)) -> (forall s, P (PStr s)) ->
  (forall l, Forall P l -> P (PList l)) ->
  (forall d, Forall (fun kv => P (snd kv)) d -> P (PDict d)) ->
  forall v, P v.
Proof.
  intros HNone HBool HInt HFloat HStr HList HDict.
  fix IH 1. intros [ | b | z | f | s | l | d];
    [exact HNone|apply HBool|apply HInt|apply HFloat|apply HStr| | ].
  - apply HList. induction l as [|x l IHl]; constructor; [apply IH|exact IHl].
  - apply HDict. induction d as [|[k x] d IHd]; constructor; [apply IH|exact IHd].
Qed.











(** X17: substitution keeps the shape of the configuration: looking a
    key up in the result is looking it up before and substituting in
    what is found, a missing key is missing still, and a list keeps
    its length. *)
Theorem substitute_lookup getenv :
  (forall d k,
      py_getitem (substitute_environment_variables getenv (PDict d)) k
      = match py_getitem (PDict d) k with
        | Returns x => Returns (substitute_environment_variables getenv x)
        | Raises e => Raises e
        end) /\
  (forall l, exists l',
      substitute_environment_variables getenv (PList l) = PList l' /\
      List.length l' = List.length l).
Proof.
  split.
  - intros d k. cbn [substitute_environment_variables py_getitem].
    induction d as [|[k' x] d IH]; simpl; [reflexivity|].
    destruct (String.eqb k' k); [reflexivity|exact IH].
  - intros l. eexists. split; [reflexivity|apply length_map].
Qed.

(** X18: when no variable holds a placeholder as its value, a second
    substitution changes nothing. *)
Theorem substitute_idempotent getenv v :
  (forall name value,
      getenv name = Some value ->
      (startswith value "${" && endswith value "}")%bool = false) ->
  substitute_environment_variables getenv (substitute_environment_variables getenv v)
  = substitute_environment_variables getenv v.
Proof.
  intros Hplain. induction v using PyVal_nested_ind; try reflexivity.
  - cbn [substitute_environment_variables].
    destruct (startswith s "${" && endswith s "}")%bool eqn:Hs.
    + destruct (getenv _) as [value|] eqn:Hvar;
        cbn [substitute_environment_variables].
      * now rewrite (Hplain _ _ Hvar).
      * now rewrite Hs, Hvar.
    + cbn [substitute_environment_variables]. now rewrite Hs.
  - cbn [substitute_environment_variables]. f_equal. rewrite map_map.
    induction H as [|x l Hx Hl IH]; simpl; [reflexivity|]. now rewrite Hx, IH.
  - cbn [substitute_environment_variables]. f_equal. rewrite map_map.
    induction H as [|[k x] d Hx Hd IH]; simpl; [reflexivity|].
    simpl in Hx. now rewrite Hx, IH.
Qed.

Lemma substitute_idempotent_witness :
  let getenv := fun name => if String.eqb name "GROQ_API_KEY" then Some "gsk" else None in
  let cfg := PDict [("groq", PDict [("api_key", PStr "${GROQ_API_KEY}")]);
                    ("tags", PList [PStr "${UNSET}"; PInt 3])] in
  (forall name value,
      getenv name = Some value ->
      (startswith value "${" && endswith value "}")%bool = false) /\
  substitute_environment_variables getenv cfg
  = PDict [("groq", PDict [("api_key", PStr "gsk")]);
           ("tags", PList [PStr "${UNSET}"; PInt 3])] /\
  substitute_environment_variables getenv (substitute_environment_variables getenv cfg)
  = substitute_environment_variables getenv cfg.
Proof.
  intros getenv cfg.
  assert (Hplain : forall name value,
             getenv name = Some value ->
             (startswith value "${" && endswith value "}")%bool = false).
  { intros name value. unfold getenv.
    destruct (String.eqb name "GROQ_API_KEY"); [intros [= <-]; reflexivity|discriminate]. }
  split; [exact Hplain|]. split; [reflexivity|].
  exact (substitute_idempotent getenv cfg Hplain).
Defined.

(** ** Configuration: merging *)

Lemma merge_dict_cons base_dict key value rest :
  merge_dict base_dict (PDict ((key, value) :: rest))
  = merge_dict (merge_entry merge_dict base_dict key value) (PDict rest).
Proof. reflexivity. Qed.

Lemma merge_entry_set base_dict key value :
  merge_entry merge_dict base_dict key value
  = dict_set base_dict key (merged_value base_dict key value).
Proof.
  unfold merge_entry, merged_value.
  destruct (dict_get base_dict key) as [[]|]; destruct value; reflexivity.
Qed.

Lemma dict_get_absent {V} (d : list (string * V)) k :
  dict_get d k = None -> ~ In k (map fst d).
Proof.
  induction d as [|[k' v] d IH]; simpl; [tauto|].
  destruct (String.eqb k' k) eqn:E; [discriminate|].
  apply String.eqb_neq in E. intros Hnone [Heq|Hin]; [contradiction|now apply IH].
Qed.

(** Keys the update does not have are left alone. *)
Lemma merge_dict_other items : forall base_dict k,
  ~ In k (map fst items) ->
  dict_get (merge_dict base_dict (PDict items)) k = dict_get base_dict k.
Proof.
  induction items as [|[key value] rest IH]; intros base_dict k Hk; [reflexivity|].
  rewrite merge_dict_cons, IH, merge_entry_set by (simpl in Hk; tauto).
  apply dict_get_set_ne. simpl in Hk. tauto.
Qed.

Lemma merged_value_other base_dict key value k v :
  k <> key ->
  merged_value (dict_set base_dict k v) key value = merged_value base_dict key value.
Proof. intros Hne. unfold merged_value. now rewrite dict_get_set_ne. Qed.

Lemma merge_dict_found items : forall base_dict key value,
  NoDup (map fst items) -> In (key, value) items ->
  dict_get (merge_dict base_dict (PDict items)) key
  = Some (merged_value base_dict key value).
Proof.
  induction items as [|[k0 v0] rest IH]; intros base_dict key value Hnd Hin;
    [contradiction|].
  inversion Hnd as [|x xs Hnotin Hnd']; subst.
  rewrite merge_dict_cons, merge_entry_set.
  destruct Hin as [[= -> ->]|Hin].
  - rewrite merge_dict_other by assumption. apply dict_get_set_eq.
  - rewrite (IH _ key value Hnd' Hin). f_equal. apply merged_value_other.
    intros ->. apply Hnotin. apply (in_map fst) in Hin. exact Hin.
Qed.

(** X19: looking a key up after [_deep_merge]: a key the update does
    not have keeps what the base had; a key it has gets the update's
    value, except that where both sides hold dictionaries the two are
    merged in turn.  The keys of the update are distinct, as those of
    a dictionary are. *)
Theorem deep_merge_lookup base_dict items :
  NoDup (map fst items) ->
  exists merged,
    _deep_merge base_dict (PDict items) = Returns merged /\
    forall k,
      dict_get merged k
      = match dict_get items k with
        | Some value => Some (merged_value base_dict k value)
        | None => dict_get base_dict k
        end.
Proof.
  intros Hnd. exists (merge_dict base_dict (PDict items)). split; [reflexivity|].
  intros k. destruct (dict_get items k) as [value|] eqn:Hget.
  - apply merge_dict_found; [assumption|now apply dict_get_In].
  - apply merge_dict_other. now apply dict_get_absent.
Qed.

(** A custom Groq key is merged into the defaults under "providers";
    the timeout is new; the other defaults stay. *)
Lemma deep_merge_lookup_witness :
  let base_dict :=
    [("primary_provider", PStr "groq");
     ("providers", PDict [("groq", PDict [("api_key", PStr "${GROQ_API_KEY}");
                                          ("endpoint", PStr "https://api.groq.com")])])] in
  let items :=
    [("providers", PDict [("groq", PDict [("api_key", PStr "gsk")])]);
     ("timeout", PInt 10)] in
  NoDup (map fst items) /\
  exists merged,
    _deep_merge base_dict (PDict items) = Returns merged /\
    merged
    = [("primary_provider", PStr "groq");
       ("providers", PDict [("groq", PDict [("api_key", PStr "gsk");
                                            ("endpoint", PStr "https://api.groq.com")])]);
       ("timeout", PInt 10)] /\
    forall k,
      dict_get merged k
      = match dict_get items k with
        | Some value => Some (merged_value base_dict k value)
        | None => dict_get base_dict k
        end.
Proof.
  intros base_dict items.
  assert (Hnd : NoDup (map fst items)).
  { simpl. repeat (constructor; [simpl; intuition discriminate|]). constructor. }
  split; [exact Hnd|].
  destruct (deep_merge_lookup base_dict items Hnd) as (merged & Hrun & Hlookup).
  exists merged. split; [exact Hrun|]. split; [|exact Hlookup].
  vm_compute in Hrun. now injection Hrun.
Defined.

Lemma keys_dict_set {V} (d : list (string * V)) k v :
  exists extra, map fst (dict_set d k v) = map fst d ++ extra.
Proof.
  induction d as [|[k' v'] d [extra IH]]; simpl.
  - now exists [k].
  - destruct (String.eqb k' k); simpl.
    + exists []. now rewrite app_nil_r.
    + exists extra. now rewrite IH.
Qed.

(** X20: [_deep_merge] never removes or moves a key of the base: its
    keys come first in the result, in their order, whatever the update
    holds; and an update that is not a dictionary makes it raise. *)
Theorem deep_merge_keeps_keys base_dict update_dict :
  (exists extra,
      map fst (merge_dict base_dict update_dict) = map fst base_dict ++ extra) /\
  ((forall items, update_dict <> PDict items) ->
   exists e, _deep_merge base_dict update_dict = Raises e).
Proof.
  split.
  - destruct update_dict as [ | | | | | |items];
      try (exists []; simpl; now rewrite app_nil_r).
    revert base_dict.
    induction items as [|[key value] rest IH]; intros base_dict.
    + exists []. simpl. now rewrite app_nil_r.
    + rewrite merge_dict_cons, merge_entry_set.
      destruct (IH (dict_set base_dict key (merged_value base_dict key value)))
        as [extra1 H1].
      destruct (keys_dict_set base_dict key (merged_value base_dict key value))
        as [extra0 H0].
      exists (extra0 ++ extra1). now rewrite H1, H0, app_assoc.
  - intros Hnot. destruct update_dict; simpl; eauto.
    exfalso. now apply (Hnot d).
Qed.

Lemma deep_merge_keeps_keys_witness :
  let base_dict := [("a", PInt 1); ("b", PDict [("c", PInt 2)])] in
  map fst (merge_dict base_dict (PDict [("b", PStr "flat"); ("z", PNone)]))
  = ["a"; "b"; "z"] /\
  (exists extra,
      map fst (merge_dict base_dict (PDict [("b", PStr "flat"); ("z", PNone)]))
      = map fst base_dict ++ extra) /\
  exists e, _deep_merge base_dict (PList []) = Raises e.
Proof.
  intros base_dict. split; [reflexivity|].
  split.
  - exact (proj1 (deep_merge_keeps_keys base_dict
                    (PDict [("b", PStr "flat"); ("z", PNone)]))).
  - apply (proj2 (deep_merge_keeps_keys base_dict (PList []))). discriminate.
Defined.

(** ** The health check of the agent *)

(** Once the pipeline's report heads the components, the assessment,
    if it does not raise, is "degraded". *)
Lemma assess_with_pipeline h agent w hs rest u st' :
  components h = ("model_pipeline", PipelineHealth hs) :: rest ->
  assess (h, agent, w) = (Returns u, st') ->
  overall_status (fst (fst st')) = "degraded" /\
  exists l, failures (fst (fst st')) = Some l /\ In "model_pipeline" l.
Proof.
  intros Hhead. unfold assess. rewrite Hhead. cbn [component_failures component_status].
  destruct (component_failures rest) as [l|e]; [|discriminate].
  cbn [not_healthy]. cbv zeta. cbn [api_status overall_status failures].
  intros [= _ <-].
  destruct (unconnected (api_status h)); cbn; (split; [reflexivity|]);
    exists ("model_pipeline" :: l); split; auto; now left.
Qed.

(** A statement that raises when there is no pipeline stops the
    sequence, when the statements before it do not set one. *)
Lemma in_sequence_stops pre : forall step post st,
  Forall (fun s => forall st, model_pipeline (snd (fst st)) = None ->
                              model_pipeline (snd (fst (snd (s st)))) = None) pre ->
  (forall st, model_pipeline (snd (fst st)) = None ->
              exists e st', step st = (Raises e, st')) ->
  model_pipeline (snd (fst st)) = None ->
  exists e st', in_sequence (pre ++ step :: post) st = (Raises e, st').
Proof.
  induction pre as [|s pre IH]; intros step post st Hpre Hstep Hnone; cbn [app in_sequence].
  - destruct (Hstep st Hnone) as (e & st' & ->). eauto.
  - inversion Hpre as [|s0 l Hs Hrest]; subst.
    specialize (Hs st Hnone).
    destruct (s st) as [[u|e] st1]; [|eauto].
    apply IH; assumption.
Qed.

Lemma check_component_keeps_agent comp component st :
  snd (fst (snd (check_component comp component st))) = snd (fst st).
Proof.
  destruct st as [[h agent] w]. unfold check_component.
  destruct component as [f|]; [|reflexivity].
  destruct (f w) as [[status|e] w1]; reflexivity.
Qed.

Lemma read_system_resources_keeps_agent st :
  snd (fst (snd (read_system_resources st))) = snd (fst st).
Proof.
  destruct st as [[h agent] w]. unfold read_system_resources.
  destruct (system_integration agent) as [integration|]; [|reflexivity].
  destruct (get_system_resources integration w) as [[resources|e] w1]; reflexivity.
Qed.

(** X21: [AgentZero.health_check] never reports "healthy" nor
    "limited".  The dictionary that the pipeline's [health_check]
    returns has no ["status"] key, so the pipeline always counts as a
    failed component; and without a pipeline the connectivity check
    cannot be called.  The overall status is "error", or it is
    "degraded" with "model_pipeline" among the failures, whatever the
    collaborators report. *)
Theorem agent_health_never_healthy now agent w :
  let h := fst (fst (AgentZero_health_check now agent w)) in
  overall_status h = "error" \/
  (overall_status h = "degraded" /\
   exists l, failures h = Some l /\ In "model_pipeline" l).
Proof.
  cbv zeta. unfold AgentZero_health_check.
  destruct agent as [[p|] integration security tasks].
  - cbn [in_sequence].
    unfold check_pipeline, check_component, read_system_resources, read_api_status,
      set_pipeline, set_component.
    cbn [fst snd model_pipeline system_integration security_manager task_manager
           components dict_set option_map].
    destruct (health_check p w) as [[[[hs probes]|e] p1] w1]; [|now left].
    cbn [fst snd model_pipeline system_integration security_manager task_manager
           components dict_set option_map].
    repeat (innermost_case;
            cbn [fst snd model_pipeline system_integration security_manager task_manager
                   components dict_set option_map String.eqb Ascii.eqb Bool.eqb
                   timestamp overall_status system_resources api_status failures
                   api_failures health_error];
            try (left; reflexivity));
      right;
      match goal with
      | H : assess (?h, _, _) = _ |- _ =>
          eapply (assess_with_pipeline h) in H; [exact H|reflexivity]
      end.
  - left. cbv zeta.
    match goal with
    | |- context [in_sequence ?steps ?st] =>
        assert (Hstop : exists e st', in_sequence steps st = (Raises e, st'))
    end.
    { apply (in_sequence_stops [_; _; _; _; _] _ [_]); [|intros [[h agent] w0] Hnone|reflexivity].
      - repeat constructor; intros st Hnone.
        + destruct st as [[h agent] w0]. simpl in Hnone. unfold check_pipeline.
          now rewrite Hnone.
        + now rewrite check_component_keeps_agent.
        + now rewrite check_component_keeps_agent.
        + now rewrite check_component_keeps_agent.
        + now rewrite read_system_resources_keeps_agent.
      - simpl in Hnone. unfold read_api_status. rewrite Hnone. eauto. }
    destruct Hstop as (e & [[h agent'] w'] & ->). reflexivity.
Qed.

(** Every component reports itself healthy, both backends answer: the
    overall status is "degraded" all the same. *)
Lemma agent_all_healthy_is_degraded :
  let h := fst (fst (AgentZero_health_check "2024-01-01T00:00:00" agent_all_healthy
                       world_up)) in
  overall_status h = "degraded" /\
  failures h = Some ["model_pipeline"] /\
  api_failures h = None.
Proof. repeat split; vm_compute; reflexivity. Qed.

(** ** No way back for an unavailable provider *)

Lemma perform_all_availability ops : forall p w,
  source_adapters p ->
  availability (providers (fst (perform_all ops (p, w)))) = availability (providers p) /\
  source_adapters (fst (perform_all ops (p, w))).
Proof.
  induction ops as [|op ops IH]; intros p w Hsrc; [now split|].
  unfold perform_all in *. cbn [fold_left].
  destruct (perform_availability op p w Hsrc) as [Hav Hsrc'].
  destruct (perform op (p, w)) as [p1 w1]. simpl in Hav, Hsrc'.
  destruct (IH p1 w1 Hsrc') as [Hav1 Hsrc1]. split; [congruence|assumption].
Qed.

Lemma availability_lookup ps : forall ps' k,
  availability ps = availability ps' ->
  option_map (fun a => available (self_of a)) (dict_get ps k)
  = option_map (fun a => available (self_of a)) (dict_get ps' k).
Proof.
  induction ps as [|[k0 a0] ps IH]; intros [|[k1 a1] ps'] k Heq;
    try discriminate Heq; [reflexivity|].
  simpl in Heq. injection Heq as Hk Hav Hrest. subst k1. simpl.
  destruct (String.eqb k0 k); simpl; [now rewrite Hav|now apply IH].
Qed.

Lemma registered_and_available_same p p' :
  availability (providers p) = availability (providers p') ->
  forall k, registered_and_available p k = registered_and_available p' k.
Proof.
  intros Heq k. unfold registered_and_available.
  pose proof (availability_lookup _ _ k Heq) as H.
  destruct (dict_get (providers p) k), (dict_get (providers p') k); simpl in H;
    congruence.
Qed.

(** X22: a provider that is not registered and available now is never
    called later: whatever health checks, connectivity checks,
    requests and shutdowns come in between, [generate_response] calls
    only adapters whose sticky flag was set before.  Nothing but
    [initialise] brings a provider back. *)
Theorem unavailable_is_never_called ops prompt task_type kwargs p w r p' w' calls name :
  source_adapters p ->
  let later := perform_all ops (p, w) in
  generate_response prompt task_type kwargs (fst later) (snd later) = (r, p', w', calls) ->
  In name (map fst calls) ->
  registered_and_available p name = true.
Proof.
  intros Hsrc later H Hin.
  destruct (perform_all_availability ops p w Hsrc) as [Hav Hsrc'].
  fold later in Hav, Hsrc'.
  destruct (generate_response_order _ _ _ _ _ _ _ _ _
              (or_intror (source_adapters_stable _ Hsrc')) H) as (rest & Heq & _).
  assert (Heff : In name (effective_order (fst later) task_type))
    by (rewrite Heq; apply in_or_app; now left).
  rewrite effective_order_routing in Heff. apply filter_In in Heff as [_ Hup].
  now rewrite <- (registered_and_available_same _ _ Hav).
Qed.

(** Groq was down at start-up; after a health check with the network
    up, a request for web automation still goes to HuggingFace only. *)
Lemma unavailable_is_never_called_witness :
  let later := perform_all [OpHealthCheck; OpCheckApiConnectivity]
                 (pipeline_mixed, world_up) in
  let run := generate_response "ping" WEB_AUTOMATION [] (fst later) (snd later) in
  source_adapters pipeline_mixed /\
  map fst (snd run) = ["huggingface"] /\
  registered_and_available pipeline_mixed "groq" = false /\
  registered_and_available pipeline_mixed "huggingface" = true.
Proof.
  intros later run. split; [exact pipeline_mixed_source|].
  assert (Hcalls : map fst (snd run) = ["huggingface"]) by (vm_compute; reflexivity).
  split; [exact Hcalls|]. split; [reflexivity|].
  apply (unavailable_is_never_called [OpHealthCheck; OpCheckApiConnectivity] "ping"
           WEB_AUTOMATION [] pipeline_mixed world_up _ _ _ _ "huggingface"
           pipeline_mixed_source (quad_eta run)).
  rewrite Hcalls. now left.
Defined.

(** ** Where requests go *)

Lemma cons_not_same {A} (x : A) (l : list A) : l <> x :: l.
Proof.
  intros H. apply (f_equal (@List.length A)) in H. simpl in H. lia.
Qed.

(** X23: a request sent by the [generate_response] of the Groq,
    Codestral or OpenRouter provider goes to a path under the
    configured ["endpoint"] and carries the configured ["api_key"], as
    it is, after "Bearer " in its Authorization header. *)
Theorem requests_use_configuration cls prompt task_type kwargs self w rq :
  network_class cls ->
  sent (snd (cls_generate_response cls prompt task_type kwargs self w)) = rq :: sent w ->
  exists endpoint key path,
    py_getitem (config self) "endpoint" = Returns endpoint /\
    py_getitem (config self) "api_key" = Returns key /\
    url rq = [endpoint; PStr path] /\
    dict_get (headers rq) "Authorization" = Some [PStr "Bearer "; key].
Proof.
  intros Hcls H.
  destruct Hcls; simpl in H;
    [unfold GroqProvider.generate_response in H
    |unfold MistralCodestralProvider.generate_response in H
    |unfold OpenRouterProvider.generate_response in H];
    unfold usage_total_tokens, session_post_attr, config_item, try_except, bind,
      get_self, time_time, lift, post, ret, raise in H;
    repeat (innermost_case_in H; cbn beta iota in H; cbn [fst snd sent] in H;
            try (exfalso; exact (cons_not_same _ _ H)));
    try (exfalso; exact (cons_not_same _ _ H));
    injection H as <-; eexists _, _, _; repeat split; eauto.
Qed.

Lemma requests_use_configuration_witness :
  let self := self_of (ready OpenRouterProvider.class "openrouter" openrouter_config) in
  let after := snd (cls_generate_response OpenRouterProvider.class "ping"
                      PROBLEM_SOLVING [] self world_up) in
  network_class OpenRouterProvider.class /\
  exists rq,
    sent after = rq :: sent world_up /\
    exists endpoint key path,
      py_getitem (config self) "endpoint" = Returns endpoint /\
      py_getitem (config self) "api_key" = Returns key /\
      url rq = [endpoint; PStr path] /\
      dict_get (headers rq) "Authorization" = Some [PStr "Bearer "; key].
Proof.
  intros self after. split; [exact network_openrouter|].
  eexists. split; [reflexivity|].
  apply (requests_use_configuration OpenRouterProvider.class "ping" PROBLEM_SOLVING []
           self world_up _ network_openrouter).
  reflexivity.
Defined.

(** ** Who answered *)

(** Walks to every [ret] of a method body and runs [leaf] there. *)
Ltac returns_step leaf :=
  cbv zeta;
  lazymatch goal with
  | |- returns_only (bind _ _) _ => apply returns_only_bind; intros
  | |- returns_only (try_except _ _) _ => apply returns_only_try; [|intros]
  | |- returns_only (if ?b then _ else _) _ => destruct b
  | |- returns_only (raise _) _ => apply returns_only_raise
  | |- returns_only (ret _) _ => apply returns_only_ret; leaf
  end.

(** Each class writes its own name into the responses it returns. *)
Lemma class_names_provider name cls prompt task_type kwargs :
  In (name, cls) provider_classes ->
  returns_only (cls_generate_response cls prompt task_type kwargs)
    (fun response => provider response = name).
Proof.
  intros [[= <- <-]|[[= <- <-]|[[= <- <-]|[[= <- <-]|[]]]]]; simpl.
  - unfold GroqProvider.generate_response. repeat returns_step reflexivity.
  - unfold MistralCodestralProvider.generate_response. repeat returns_step reflexivity.
  - unfold OpenRouterProvider.generate_response. repeat returns_step reflexivity.
  - unfold HuggingFaceProvider.generate_response. repeat returns_step reflexivity.
Qed.

Lemma named_by_class_get ps name a :
  named_by_class ps -> dict_get ps name = Some a ->
  In (name, class_of a) provider_classes.
Proof.
  intros Hall Hget. apply dict_get_In in Hget.
  exact (proj1 (Forall_forall _ _) Hall _ Hget).
Qed.

Lemma named_by_class_source p : named_by_class (providers p) -> source_adapters p.
Proof.
  intros Hall. eapply Forall_impl; [|exact Hall].
  intros [name a]. simpl.
  intros [[= _ <-]|[[= _ <-]|[[= _ <-]|[[= _ <-]|[]]]]]; constructor.
Qed.

(** Every response the loop got back names the registry entry it
    came from. *)
Lemma dispatch_calls_named order : forall prompt task_type kwargs p w r p' w' calls,
  named_by_class (providers p) ->
  dispatch order prompt task_type kwargs p w = (r, p', w', calls) ->
  Forall (fun c => forall response, snd c = Returns response ->
                                    provider response = fst c) calls.
Proof.
  induction order as [|key rest IH]; intros prompt task_type kwargs p w r p' w' calls Hall H.
  - injection H as _ _ _ <-. constructor.
  - cbn [dispatch] in H.
    destruct (dict_get (providers p) key) as [a|] eqn:Hget; [|now apply IH in H].
    destruct (available (self_of a)); [|now apply IH in H].
    rewrite attempt_spec in H.
    pose proof (class_names_provider _ _ prompt task_type kwargs
                  (named_by_class_get _ _ _ Hall Hget) (self_of a) w) as Hname.
    pose proof (source_generate_response_keeps_self (class_of a) prompt task_type kwargs
                  (proj1 (Forall_forall _ _) (named_by_class_source p Hall) _
                     (dict_get_In _ _ _ Hget))
                  (self_of a) w) as Hkeep.
    destruct (cls_generate_response (class_of a) prompt task_type kwargs (self_of a) w)
      as [[[response|e] self'] w1]; simpl in H, Hname, Hkeep; subst self';
      rewrite (update_provider_same _ _ _ Hget) in H.
    + assert (Hhead : forall response', Returns response = Returns response' ->
                                        provider response' = key)
        by (intros response' Heq; now apply Hname).
      destruct (success response).
      * injection H as _ _ _ <-. constructor; [exact Hhead|constructor].
      * destruct (dispatch rest prompt task_type kwargs p w1)
          as [[[r1 p1] w2] calls1] eqn:Hrec.
        injection H as _ _ _ <-. constructor; [exact Hhead|]. eapply IH; eauto.
    + destruct (dispatch rest prompt task_type kwargs p w1)
        as [[[r1 p1] w2] calls1] eqn:Hrec.
      injection H as _ _ _ <-. constructor; [intros response; discriminate|].
      eapply IH; eauto.
Qed.

(** X24: when each name of the registry stands for the class written
    for it, as [initialise] arranges, the [provider] field of a
    successful response of the pipeline is the registry name of the
    adapter that was called last and gave it. *)
Theorem response_names_its_adapter prompt task_type kwargs p w response p' w' calls :
  named_by_class (providers p) ->
  generate_response prompt task_type kwargs p w = (Returns response, p', w', calls) ->
  success response = true ->
  exists earlier,
    calls = earlier ++ [(provider response, Returns response)].
Proof.
  intros Hall H Hsucc.
  apply generate_response_dispatch in H as (r0 & Hd & Hr).
  pose proof (dispatch_calls_named _ _ _ _ _ _ _ _ _ _ Hall Hd) as Hnamed.
  apply dispatch_calls in Hd.
  destruct r0 as [[resp|]|e]; [| |contradiction].
  - injection Hr as ->. destruct Hd as (init & name & -> & _ & _).
    apply Forall_app in Hnamed as [_ Hlast].
    inversion Hlast as [|c l Hc _]; subst. simpl in Hc.
    rewrite (Hc resp eq_refl). eauto.
  - injection Hr as ->. discriminate Hsucc.
Qed.

Lemma pipeline_two_named : named_by_class (providers pipeline_two).
Proof.
  constructor; [simpl; tauto|]. constructor; [simpl; tauto|constructor].
Qed.

(** Groq's backend is unreachable, OpenRouter's answers. *)
Lemma response_names_its_adapter_witness :
  let run := generate_response "ping" PROBLEM_SOLVING [] pipeline_two world_up in
  named_by_class (providers pipeline_two) /\
  exists response,
    fst (fst (fst run)) = Returns response /\
    success response = true /\
    provider response = "openrouter" /\
    exists earlier, snd run = earlier ++ [(provider response, Returns response)].
Proof.
  intros run. split; [exact pipeline_two_named|].
  assert (Hrun : exists response,
             run = (Returns response, snd (fst (fst run)), snd (fst run), snd run)
             /\ success response = true /\ provider response = "openrouter").
  { eexists. split; [rewrite (quad_eta run) at 1; do 3 f_equal; vm_compute; reflexivity|].
    split; reflexivity. }
  destruct Hrun as (response & Hrun & Hsucc & Hname).
  exists response. split; [now rewrite Hrun|]. split; [exact Hsucc|].
  split; [exact Hname|].
  exact (response_names_its_adapter "ping" PROBLEM_SOLVING [] pipeline_two world_up
           response _ _ _ pipeline_two_named Hrun Hsucc).
Defined.
